(** * pptx_to_md: presentation to markdown converter

    A shallow embedding of [skills/ops-analysis/scripts/pptx_to_md.py] and the
    properties of its title resolution, shape classification, markdown
    rendering and batch driver.

    Python [str] values are modelled as [string]; a character is a code point
    below 256.  The objects handed over by the presentation parsing library
    (slides, shapes, paragraphs, runs, tables) are records holding the
    attributes the script reads; an attribute the script probes with
    [hasattr] is an [option] field, and a property that can raise is a
    computation. *)

From Stdlib Require Import ZArith Ascii.
From Stdlib Require Import PrimFloat FloatOps SpecFloat.
From Stdlib Require String.
From Stdlib Require Import DecimalString.
From stdpp Require Import base option list gmap strings.

Local Open Scope Z_scope.

(** ** Python string operations *)

Module Str.

(** The line feed character, written "\n" in the source. *)
Definition LF : ascii := "010"%char.
Definition nl : string := String LF "".
Definition backslash : ascii := "\"%char.
Definition pipe : ascii := "|"%char.

(** [str.isspace] on the code points below 256: TAB..CR, FS..US, space,
    NEL and the no-break space. *)
Definition is_space (c : ascii) : bool :=
  let n := N_of_ascii c in
  ((9 <=? n) && (n <=? 13) || (28 <=? n) && (n <=? 32)
   || (n =? 133) || (n =? 160))%N.

Definition len (s : string) : Z := Z.of_nat (String.length s).

(** Truthiness of a string: [if s:] holds for the non-empty ones. *)
Definition truthy (s : string) : bool :=
  match s with "" => false | String _ _ => true end.

Fixpoint lstrip (s : string) : string :=
  match s with
  | "" => ""
  | String c s' => if is_space c then lstrip s' else s
  end.

Fixpoint rstrip (s : string) : string :=
  match s with
  | "" => ""
  | String c s' =>
      match rstrip s' with
      | "" => if is_space c then "" else String c ""
      | r => String c r
      end
  end.

(** [s.strip()] *)
Definition strip (s : string) : string := rstrip (lstrip s).

(** [s.replace(c, r)] for a one-character pattern [c]. *)
Fixpoint replace (c : ascii) (r : string) (s : string) : string :=
  match s with
  | "" => ""
  | String a s' =>
      if Ascii.eqb a c then r +:+ replace c r s' else String a (replace c r s')
  end.

(** [c in s] for a one-character [c]. *)
Fixpoint has_char (c : ascii) (s : string) : bool :=
  match s with
  | "" => false
  | String a s' => Ascii.eqb a c || has_char c s'
  end.

(** [sub in s]: [sub] occurs in [s] as a contiguous substring. *)
Fixpoint contains (sub s : string) : bool :=
  String.prefix sub s ||
  match s with
  | "" => false
  | String _ s' => contains sub s'
  end.

(** [sep.join(ls)] *)
Definition join (sep : string) (ls : list string) : string :=
  String.concat sep ls.

(** [s * n]: repetition, empty for [n <= 0]. *)
Fixpoint repeat_nat (s : string) (n : nat) : string :=
  match n with
  | O => ""
  | S n' => s +:+ repeat_nat s n'
  end.
Definition repeat (s : string) (n : Z) : string := repeat_nat s (Z.to_nat n).

(** [str(n)] for an integer. *)
Definition of_Z (n : Z) : string := NilZero.string_of_int (Z.to_int n).

Definition eqb (a b : string) : bool := String.eqb a b.

End Str.

(** ** Python floats *)

(** [float(n)]: the binary64 float nearest to the integer [n]. *)
Definition float_of_Z (z : Z) : float := SF2Prim (binary_normalize prec emax z 0 false).

(** ** Exceptions *)

Inductive exn_class : Type :=
  | AttributeError
  | OtherException (name : string).

Record exn : Type := mk_exn { exn_cls : exn_class; exn_msg : string }.

Definition is_AttributeError (e : exn) : bool :=
  match exn_cls e with AttributeError => true | OtherException _ => false end.

(** A computation that returns a value or raises. *)
Inductive exc (A : Type) : Type :=
  | Ok (a : A)
  | Raise (e : exn).
Arguments Ok {A} a.
Arguments Raise {A} e.

Definition bind {A B : Type} (m : exc A) (f : A -> exc B) : exc B :=
  match m with
  | Ok a => f a
  | Raise e => Raise e
  end.

Notation "'let*' x ':=' m 'in' f" := (bind m (fun x => f))
  (at level 10, x name, m at level 100, f at level 200).

(** [try: body except AttributeError: handler] *)
Definition try_except_AttributeError {A : Type} (body : exc A) (handler : A) : exc A :=
  match body with
  | Ok a => Ok a
  | Raise e => if is_AttributeError e then Ok handler else Raise e
  end.

(** [for x in xs: st = body(st, x)], stopping at the first exception. *)
Fixpoint for_each {A S : Type} (body : S -> A -> exc S) (xs : list A) (st : S) : exc S :=
  match xs with
  | [] => Ok st
  | x :: xs' => let* st' := body st x in for_each body xs' st'
  end.

(** ** The parsed presentation, as the script sees it *)

(** A paragraph properties element: the bullet children its XML declares,
    and what the element object yields for [getattr(pPr, name, None)].  The
    payloads are irrelevant to the script, which only tests the results of
    [getattr] against [None]. *)
Record pPr_elem : Type := mk_pPr {
  xml_buChar : option string;
  xml_buAutoNum : option string;
  xml_buBlip : option string;
  pPr_getattr : string -> option string;
}.

(** The element as the library builds it: its class defines none of the
    three bullet names as an attribute, so [getattr] yields the default. *)
Definition library_pPr (c a b : option string) : pPr_elem :=
  mk_pPr c a b (fun _ => None).

(** An element object that exposes its bullet children under their names. *)
Definition exposing_pPr (c a b : option string) : pPr_elem :=
  mk_pPr c a b
    (fun n => if Str.eqb n "buChar" then c
              else if Str.eqb n "buAutoNum" then a
              else if Str.eqb n "buBlip" then b
              else None).

(** A run: [run.font.size] is [None] or a length in EMU. *)
Record run : Type := mk_run {
  run_font_size : option Z;
}.

Record paragraph : Type := mk_paragraph {
  par_text : string;
  par_level : Z;
  (** [paragraph._element.pPr]: raises, or yields [None] or the element. *)
  par_pPr : exc (option pPr_elem);
  par_runs : list run;
}.

Record shape : Type := mk_shape {
  (** [shape.shape_type]: an [MSO_SHAPE_TYPE] member or [None]. *)
  shape_type : option Z;
  (** [shape.placeholder_format.type], when the attribute exists. *)
  placeholder_type : option Z;
  (** [shape.text], when the attribute exists. *)
  text : option string;
  (** [shape.text_frame.paragraphs], when the attribute exists. *)
  text_frame : option (list paragraph);
  (** [shape.table]: the property raises, or the attribute is absent, or it
      holds the rows of cell texts.  (The graphic frames of the library that
      hold no table, such as charts, raise [ValueError].) *)
  table_attr : exc (option (list (list string)));
  (** [shape.name], when the attribute exists. *)
  name : option string;
}.

(** The table of a shape, when the attribute exists and does not raise. *)
Definition table (s : shape) : option (list (list string)) :=
  match table_attr s with
  | Ok t => t
  | Raise _ => None
  end.

(** [hasattr(shape, "table")]: an [AttributeError] makes it false, any other
    exception of the property leaves [hasattr]. *)
Definition hasattr_table (s : shape) : exc bool :=
  match table_attr s with
  | Ok (Some _) => Ok true
  | Ok None => Ok false
  | Raise e => if is_AttributeError e then Ok false else Raise e
  end.

Record slide : Type := mk_slide { shapes : list shape }.

Record presentation : Type := mk_presentation { slides : list slide }.

(** The members of the library's [MSO_SHAPE_TYPE] enumeration the script
    refers to: the [PLACEHOLDER] member, the table behind
    [getattr(MSO_SHAPE_TYPE, name, None)], and how a shape type prints inside
    an f-string. *)
Record mso_shape_type_enum : Type := mk_enum {
  PLACEHOLDER : Z;
  mso_getattr : string -> option Z;
  mso_str : option Z -> string;
}.

(** ** Title resolution *)

Section Converter.

Context (MSO_SHAPE_TYPE : mso_shape_type_enum).

(** The members of the library's [PP_PLACEHOLDER] enumeration that matter
    here.  The script tests the codes 14 and 15, which its comment calls
    Header and Title; in the library 15 is the footer and the title is 1. *)
Definition PP_TITLE : Z := 1.
Definition PP_CENTER_TITLE : Z := 3.
Definition PP_HEADER : Z := 14.
Definition PP_FOOTER : Z := 15.

(** The test of the first loop of [get_slide_title]: [pf.type in (14, 15)]. *)
Definition is_title_placeholder (s : shape) : bool :=
  bool_decide (shape_type s = Some (PLACEHOLDER MSO_SHAPE_TYPE)) &&
  match placeholder_type s with
  | Some t =>
      ((t =? 14) || (t =? 15)) &&
      match text s with
      | Some tx => Str.truthy (Str.strip tx)
      | None => false
      end
  | None => false
  end.

(** The test of the fallback loop of [get_slide_title]. *)
Definition is_fallback_title (s : shape) : bool :=
  match text s with
  | Some tx =>
      Str.truthy (Str.strip tx) &&
      ((Str.len (Str.strip tx) <? 100) && negb (Str.has_char Str.LF (Str.strip tx)))
  | None => false
  end.

Definition stripped_text (s : shape) : string :=
  match text s with Some tx => Str.strip tx | None => "" end.

(** Both loops of [get_slide_title]: the stripped text of the first shape
    passing [test], if any. *)
Fixpoint first_stripped_text (test : shape -> bool) (l : list shape) : option string :=
  match l with
  | [] => None
  | s :: l' =>
      if test s then Some (stripped_text s) else first_stripped_text test l'
  end.

Definition get_slide_title (sl : slide) : string :=
  match first_stripped_text is_title_placeholder (shapes sl) with
  | Some t => t
  | None =>
      match first_stripped_text is_fallback_title (shapes sl) with
      | Some t => t
      | None => "Untitled"
      end
  end.

(** ** Paragraph and table extraction *)

(** The dictionary built for each retained paragraph.  The keys
    ["font_size"] and ["used_as_header"] are optional: an absent
    ["used_as_header"] reads as false through [p.get]. *)
Record para_info : Type := mk_para_info {
  pi_text : string;
  pi_level : Z;
  pi_is_bullet : bool;
  pi_font_size : option float;
  pi_used_as_header : bool;
}.

Definition set_is_bullet (b : bool) (p : para_info) : para_info :=
  mk_para_info (pi_text p) (pi_level p) b (pi_font_size p) (pi_used_as_header p).
Definition set_font_size (f : option float) (p : para_info) : para_info :=
  mk_para_info (pi_text p) (pi_level p) (pi_is_bullet p) f (pi_used_as_header p).
Definition set_used_as_header (b : bool) (p : para_info) : para_info :=
  mk_para_info (pi_text p) (pi_level p) (pi_is_bullet p) (pi_font_size p) b.

(** [Length.pt]: a length in EMU, in points, as [self / 12700.0]. *)
Definition pt (emu : Z) : float := PrimFloat.div (float_of_Z emu) 12700%float.

(** The condition on the three bullet properties of a [pPr] element. *)
Definition declares_bullet (e : pPr_elem) : bool :=
  bool_decide (pPr_getattr e "buChar" <> None)
  || bool_decide (pPr_getattr e "buAutoNum" <> None)
  || bool_decide (pPr_getattr e "buBlip" <> None).

(** The [try] block of [extract_paragraphs] with its handler. *)
Definition check_bullet (p : paragraph) (info : para_info) : exc para_info :=
  try_except_AttributeError
    (let* pPr := par_pPr p in
     Ok (match pPr with
         | Some e => if declares_bullet e then set_is_bullet true info else info
         | None => info
         end))
    info.

(** The font size recorded from the first run, when it has a non-zero one. *)
Definition check_font_size (p : paragraph) (info : para_info) : para_info :=
  match par_runs p with
  | r :: _ =>
      match run_font_size r with
      | Some sz => if sz =? 0 then info else set_font_size (Some (pt sz)) info
      | None => info
      end
  | [] => info
  end.

(** The body of the loop of [extract_paragraphs]. *)
Definition extract_paragraph (acc : list para_info) (p : paragraph)
  : exc (list para_info) :=
  if negb (Str.truthy (Str.strip (par_text p))) then Ok acc
  else
    let info := mk_para_info (Str.strip (par_text p)) (par_level p) false None false in
    let* info := check_bullet p info in
    Ok (acc ++ [check_font_size p info]).

Definition extract_paragraphs (s : shape) : exc (list para_info) :=
  match text_frame s with
  | None => Ok []
  | Some ps => for_each extract_paragraph ps []
  end.

Definition extract_table_data (s : shape) : exc (list (list string)) :=
  let* has := hasattr_table s in
  if negb has then Ok []
  else
    let* t := table_attr s in
    Ok (match t with
        | Some rows => map (map Str.strip) rows
        | None => []
        end).

(** ** Rendering *)

Definition sanitize_markdown (t : string) : string :=
  Str.replace Str.backslash "\\" t.

Fixpoint paragraph_lines (base_level : Z) (paragraphs : list para_info) : list string :=
  match paragraphs with
  | [] => []
  | para :: rest =>
      let t := sanitize_markdown (pi_text para) in
      if negb (Str.truthy t) then paragraph_lines base_level rest
      else
        let is_header := negb (pi_is_bullet para) && (Str.len t <? 80) in
        (if is_header then Str.repeat "#" base_level +:+ " " +:+ t
         else if pi_is_bullet para then
                Str.repeat "  " (pi_level para) +:+ "* " +:+ t
              else t)
        :: paragraph_lines base_level rest
  end.

Definition paragraphs_to_markdown (paragraphs : list para_info) (base_level : Z)
  : string :=
  match paragraphs with
  | [] => ""
  | _ => Str.join Str.nl (paragraph_lines base_level paragraphs)
  end.

(** [sanitize_markdown(cell).replace("|", "\\|")] *)
Definition cell_markdown (cell : string) : string :=
  Str.replace Str.pipe "\|" (sanitize_markdown cell).

Definition row_markdown (row : list string) : string :=
  "| " +:+ Str.join " | " (map cell_markdown row) +:+ " |".

Definition table_to_markdown (table_data : list (list string)) : string :=
  match table_data with
  | [] => ""
  | [] :: _ => ""
  | first :: rest =>
      let headers := map cell_markdown first in
      Str.join Str.nl
        ([ "| " +:+ Str.join " | " headers +:+ " |";
           "|" +:+ Str.join "|" (replicate (length headers) "---") +:+ "|" ]
         ++ map row_markdown rest)
  end.

(** The attribute names tried by [get_shape_description], each with the
    label the inner dictionary gives it, in the order of the loop. *)
Definition shape_labels : list (string * string) :=
  [ ("PICTURE", "Image"); ("CHART", "Chart"); ("GROUP", "Grouped content");
    ("LINE", "Line"); ("OVAL", "Oval/Circle"); ("RECTANGLE", "Rectangle/Box");
    ("ROUNDED_RECTANGLE", "Rounded rectangle"); ("AUTO_SHAPE", "Shape") ].

(** The [descriptions] dictionary: a later assignment to a key replaces
    the earlier one; a name the enumeration lacks is stored under [None]. *)
Definition descriptions : gmap (option Z) string :=
  foldl (fun d nl => <[ mso_getattr MSO_SHAPE_TYPE nl.1 := nl.2 ]> d) ∅ shape_labels.

Definition get_shape_description (s : shape) : string :=
  let desc :=
    default ("Shape type " +:+ mso_str MSO_SHAPE_TYPE (shape_type s))
            (descriptions !! shape_type s) in
  match name s with
  | Some n => if Str.truthy n then desc +:+ " (" +:+ n +:+ ")" else desc
  | None => desc
  end.

(** ** Slide assembly *)

Record section : Type := mk_section {
  sec_title : option string;
  sec_paragraphs : list para_info;
}.

(** The local state of the shape loop of [process_slide]. *)
Record slide_state : Type := mk_state {
  title_shape_found : bool;
  content_sections : list section;
  tables : list (list (list string));
  other_shapes : list string;
}.

Definition init_state (found : bool) : slide_state := mk_state found [] [] [].

(** [hasattr(shape, "text") and shape.text.strip()], as a truth value. *)
Definition has_stripped_text (s : shape) : bool :=
  match text s with
  | Some tx => Str.truthy (Str.strip tx)
  | None => false
  end.

(** The expression assigned to [has_content]: the table attribute is probed
    only when the shape has no text, and the probe may raise. *)
Definition has_content_probe (s : shape) : exc bool :=
  if has_stripped_text s then Ok true else hasattr_table s.

(** [shape_text == title or (len(shape_text) < 100 and shape_text in title)],
    for a shape that has a [text] attribute. *)
Definition title_match (title : string) (s : shape) : bool :=
  match text s with
  | Some tx =>
      let shape_text := Str.strip tx in
      Str.eqb shape_text title
      || ((Str.len shape_text <? 100) && Str.contains shape_text title)
  | None => false
  end.

(** The inner loop choosing the section title: the first paragraph that is
    not a bullet and shorter than 50 characters is marked in place. *)
Fixpoint mark_header (paragraphs : list para_info) : option string * list para_info :=
  match paragraphs with
  | [] => (None, [])
  | para :: rest =>
      if negb (pi_is_bullet para) && (Str.len (pi_text para) <? 50)
      then (Some (pi_text para), set_used_as_header true para :: rest)
      else let r := mark_header rest in (r.1, para :: r.2)
  end.

(** The last part of the loop body: content by shape kind. *)
Definition extract_content (st : slide_state) (s : shape) : exc slide_state :=
  let* has_table := hasattr_table s in
  if has_table then
    (let* table_data := extract_table_data s in
     Ok (match table_data with
         | [] => st
         | _ => mk_state (title_shape_found st) (content_sections st)
                  (tables st ++ [table_data]) (other_shapes st)
         end))
  else
    (let* paragraphs := extract_paragraphs s in
     Ok (match paragraphs with
         | [] => st
         | _ =>
             let r := mark_header paragraphs in
             mk_state (title_shape_found st)
               (content_sections st ++ [mk_section r.1 r.2])
               (tables st) (other_shapes st)
         end)).

(** The body of the shape loop of [process_slide]. *)
Definition process_shape (title : string) (st : slide_state) (s : shape)
  : exc slide_state :=
  let* has_content := has_content_probe s in
  if negb has_content then
    let desc := get_shape_description s in
    Ok (if Str.truthy desc
        then mk_state (title_shape_found st) (content_sections st) (tables st)
               (other_shapes st ++ [desc])
        else st)
  else if negb (title_shape_found st) && bool_decide (text s <> None)
          && title_match title s
  then Ok (mk_state true (content_sections st) (tables st) (other_shapes st))
  else extract_content st s.

Definition section_lines (sec : section) : list string :=
  (match sec_title sec with
   | Some t => if Str.truthy t then [Str.nl +:+ "## " +:+ sanitize_markdown t] else []
   | None => []
   end)
  ++ (let content_paras :=
        filter (fun p => pi_used_as_header p = false) (sec_paragraphs sec) in
      match content_paras with
      | [] => []
      | _ => [paragraphs_to_markdown content_paras 3]
      end)
  ++ [""].

Definition table_lines (table_data : list (list string)) : list string :=
  [Str.nl +:+ "## Data Table" +:+ Str.nl; table_to_markdown table_data; ""].

(** [set_iter] is the order in which this run iterates over a [set] of
    strings. *)
Definition other_lines (set_iter : gset string -> list string)
    (others : list string) : list string :=
  match others with
  | [] => []
  | _ =>
      [Str.nl +:+ "## Visual Elements" +:+ Str.nl]
      ++ map (fun desc => "- " +:+ desc) (set_iter (list_to_set others))
      ++ [""]
  end.

Definition slide_heading (slide_num : Z) (title : string) : string :=
  Str.nl +:+ "# Slide " +:+ Str.of_Z slide_num +:+ " - " +:+ title +:+ Str.nl.

(** The part of [process_slide] after the shape loop. *)
Definition render_slide (set_iter : gset string -> list string)
    (slide_num : Z) (title : string) (st : slide_state) : string :=
  Str.join Str.nl
    ([slide_heading slide_num title]
     ++ concat (map section_lines (content_sections st))
     ++ concat (map table_lines (tables st))
     ++ other_lines set_iter (other_shapes st)).

Definition process_slide (set_iter : gset string -> list string)
    (sl : slide) (slide_num : Z) : exc string :=
  let title := get_slide_title sl in
  let* st := for_each (process_shape title) (shapes sl) (init_state false) in
  Ok (render_slide set_iter slide_num title st).

(** ** Files and the batch driver *)

(** A [Path] object, through the attributes the script reads:
    [str(p)], [p.parent] (as the string of that directory), [p.stem] and
    [p.suffix]; [p.name] is the stem followed by the suffix. *)
Record path : Type := mk_path {
  path_str : string;
  path_parent : string;
  path_stem : string;
  path_suffix : string;
}.

Definition path_name (p : path) : string := path_stem p +:+ path_suffix p.

(** The environment of a run: the file system as the discovery phase
    queries it, the presentation parser, the failure (if any) of opening an
    output file for writing, given its directory and file name, the failure
    (if any) of [mkdir(parents=True, exist_ok=True)] on a directory, and the
    iteration order of string sets. *)
Record world : Type := mk_world {
  path_exists : path -> bool;
  path_is_file : path -> bool;
  path_is_dir : path -> bool;
  path_glob : path -> string -> list path;
  load_presentation : path -> exc presentation;
  open_error : string -> string -> option exn;
  mkdir_error : string -> option exn;
  set_iter : gset string -> list string;
}.

(** What a run leaves behind: the lines printed on both streams and the
    files written, keyed by directory and file name. *)
Record io_state : Type := mk_io {
  stdout : list string;
  stderr : list string;
  files : gmap (string * string) string;
}.

Definition print_out (line : string) (io : io_state) : io_state :=
  mk_io (stdout io ++ [line]) (stderr io) (files io).
Definition print_err (line : string) (io : io_state) : io_state :=
  mk_io (stdout io) (stderr io ++ [line]) (files io).
Definition write_file (dir fname content : string) (io : io_state) : io_state :=
  mk_io (stdout io) (stderr io) (<[ (dir, fname) := content ]> (files io)).

(** [for idx in range(len(prs.slides))]: the slides from index [idx] on. *)
Fixpoint slides_markdown (w : world) (sls : list slide) (idx : Z) : exc (list string) :=
  match sls with
  | [] => Ok []
  | sl :: rest =>
      let* slide_md := process_slide (set_iter w) sl (idx + 1) in
      let* more := slides_markdown w rest (idx + 1) in
      Ok (slide_md :: more)
  end.

(** The text handed to [f.write]: the document header and the slides. *)
Definition document_markdown (w : world) (pptx_path : path) (prs : presentation)
  : exc string :=
  let* slide_mds := slides_markdown w (slides prs) 0 in
  Ok (Str.join Str.nl
        ([ "# " +:+ path_stem pptx_path +:+ Str.nl;
           "*Converted from " +:+ path_name pptx_path +:+ "*" +:+ Str.nl;
           "---" +:+ Str.nl ] ++ slide_mds)).

(** The [try] body of [process_pptx_file] up to the point where the output
    file is opened. *)
Definition convert (w : world) (pptx_path : path) : exc string :=
  let* prs := load_presentation w pptx_path in
  document_markdown w pptx_path prs.

Definition md_filename (pptx_path : path) : string := path_stem pptx_path +:+ ".md".

Definition process_pptx_file (w : world) (pptx_path : path) (output_dir : string)
    (io : io_state) : bool * io_state :=
  let io := print_out ("Processing: " +:+ path_name pptx_path) io in
  let on_error (e : exn) := (false, print_err ("  -> Error: " +:+ exn_msg e) io) in
  match convert w pptx_path with
  | Raise e => on_error e
  | Ok md =>
      match open_error w output_dir (md_filename pptx_path) with
      | Some e => on_error e
      | None =>
          let io := write_file output_dir (md_filename pptx_path) md io in
          (true, print_out ("  -> Created: " +:+ md_filename pptx_path) io)
      end
  end.

(** [s.lower()] on the code points below 256. *)
Definition lower_char (c : ascii) : ascii :=
  let n := N_of_ascii c in
  if ((65 <=? n) && (n <=? 90) || (192 <=? n) && (n <=? 222) && negb (n =? 215))%N
  then ascii_of_N (n + 32) else c.
Fixpoint lower (s : string) : string :=
  match s with
  | "" => ""
  | String c s' => String (lower_char c) (lower s')
  end.

(** The parsed command line: [args.paths] and [args.output]. *)
Record args : Type := mk_args {
  arg_paths : list path;
  arg_output : option string;
}.

(** The body of the discovery loop of [main]. *)
Definition collect_path (w : world) (acc : list path * io_state) (p : path)
  : list path * io_state :=
  let '(pptx_files, io) := acc in
  if negb (path_exists w p)
  then (pptx_files, print_err ("Warning: Path does not exist: " +:+ path_str p) io)
  else if path_is_file w p then
    if Str.eqb (lower (path_suffix p)) ".pptx"
    then (pptx_files ++ [p], io)
    else (pptx_files, print_err ("Warning: Not a PPTX file: " +:+ path_str p) io)
  else if path_is_dir w p then
    ((pptx_files ++ path_glob w p "*.pptx") ++ path_glob w p "*.PPTX", io)
  else (pptx_files, io).

Definition collect (w : world) (a : args) (io : io_state) : list path * io_state :=
  foldl (collect_path w) ([], io) (arg_paths a).

(** The conversion loop of [main]: the success count and the final state. *)
Fixpoint convert_all (w : world) (output_dir : string) (pptx_files : list path)
    (success_count : Z) (io : io_state) : Z * io_state :=
  match pptx_files with
  | [] => (success_count, io)
  | f :: rest =>
      let r := process_pptx_file w f output_dir io in
      convert_all w output_dir rest
        (if r.1 then success_count + 1 else success_count) r.2
  end.

Definition output_dir_of (a : args) (pptx_files : list path) : string :=
  match arg_output a with
  | Some d => d
  | None => match pptx_files with f :: _ => path_parent f | [] => "" end
  end.

(** The [if args.output:] step of [main]: the exception, if any, that
    creating the given output directory raises; no directory is created when
    none is given. *)
Definition prepare_output_dir (w : world) (a : args) : option exn :=
  match arg_output a with
  | Some d => mkdir_error w d
  | None => None
  end.

(** [parser.parse_args()]: argparse hands over the namespace, or it prints
    its text (the help text on the output stream, a usage error on the error
    stream) and leaves the process by [SystemExit] with its status.  What it
    does on the command line of a run is a given of that run. *)
Inductive parse_result : Type :=
  | Namespace (a : args)
  | SystemExit (status : Z) (out err : list string).

(** How a call of [main] ends. *)
Inductive main_result : Type :=
  | Returned (status : Z)
  | Raised (e : exn)
  | Exited (status : Z).

(** [main]: how it ends, and what the run has printed and written by then.
    (The traceback the interpreter prints for an exception that leaves
    [main] is not part of the state.) *)
Definition main (w : world) (cmd : parse_result) (io : io_state)
  : main_result * io_state :=
  match cmd with
  | SystemExit status out err =>
      (Exited status, mk_io (stdout io ++ out) (stderr io ++ err) (files io))
  | Namespace a =>
      let '(pptx_files, io) := collect w a io in
      match pptx_files with
      | [] => (Returned 1, print_err "No PPTX files found to process." io)
      | _ =>
          match prepare_output_dir w a with
          | Some e => (Raised e, io)
          | None =>
              let output_dir := output_dir_of a pptx_files in
              let total := Z.of_nat (length pptx_files) in
              let io := print_out ("Found " +:+ Str.of_Z total +:+ " PPTX file(s)") io in
              let io := print_out ("Output directory: " +:+ output_dir +:+ Str.nl) io in
              let '(success_count, io) := convert_all w output_dir pptx_files 0 io in
              let io := print_out (Str.nl +:+ "Completed: " +:+ Str.of_Z success_count
                                   +:+ "/" +:+ Str.of_Z total +:+ " files converted") io in
              (Returned (if success_count =? total then 0 else 1), io)
          end
      end
  end.

(** [sys.exit(main())]: the exit status of the process.  An exception that
    leaves [main] ends the process with status 1. *)
Definition exit_status (r : main_result) : Z :=
  match r with
  | Returned n => n
  | Raised _ => 1
  | Exited n => n
  end.

End Converter.

(** ** The rules of the specification, in its own words *)

Section Rules.

Context (MSO_SHAPE_TYPE : mso_shape_type_enum).

(** The text of a shape without the white space at its two ends. *)
Definition trimmed_text (s : shape) : string :=
  match text s with
  | Some tx => Str.strip tx
  | None => ""
  end.

(** A placeholder whose type code is 15 or 14 (the codes of the script,
    whose comment calls them Title and Header) and whose text is not empty
    after trimming. *)
Definition title_placeholder (s : shape) : Prop :=
  shape_type s = Some (PLACEHOLDER MSO_SHAPE_TYPE) /\
  exists t tx, placeholder_type s = Some t /\ (t = 15 \/ t = 14) /\
               text s = Some tx /\ Str.strip tx <> "".

(** A shape whose trimmed text is not empty, under 100 characters and
    without a line break. *)
Definition fallback_candidate (s : shape) : Prop :=
  exists tx, text s = Some tx /\ Str.strip tx <> "" /\
             (String.length (Str.strip tx) < 100)%nat /\
             Str.has_char Str.LF (Str.strip tx) = false.

(** The ordered title algorithm, first match winning. *)
Inductive title_resolves (l : list shape) : string -> Prop :=
  | resolve_placeholder l1 s l2 :
      l = l1 ++ s :: l2 ->
      Forall (fun x => ~ title_placeholder x) l1 ->
      title_placeholder s ->
      title_resolves l (trimmed_text s)
  | resolve_fallback l1 s l2 :
      Forall (fun x => ~ title_placeholder x) l ->
      l = l1 ++ s :: l2 ->
      Forall (fun x => ~ fallback_candidate x) l1 ->
      fallback_candidate s ->
      title_resolves l (trimmed_text s)
  | resolve_untitled :
      Forall (fun x => ~ title_placeholder x) l ->
      Forall (fun x => ~ fallback_candidate x) l ->
      title_resolves l "Untitled".

(** The first rule in the words of the specification: a placeholder whose
    type is Title or Header in the library's enumeration, with a text that is
    not empty after trimming. *)
Definition claimed_title_placeholder (s : shape) : bool :=
  bool_decide (shape_type s = Some (PLACEHOLDER MSO_SHAPE_TYPE)) &&
  match placeholder_type s with
  | Some t => ((t =? PP_TITLE) || (t =? PP_HEADER)) && Str.truthy (trimmed_text s)
  | None => false
  end.

(** The title the specification resolves: its first rule, then the two
    others as the script has them. *)
Definition claimed_slide_title (sl : slide) : string :=
  match first_stripped_text claimed_title_placeholder (shapes sl) with
  | Some t => t
  | None =>
      match first_stripped_text is_fallback_title (shapes sl) with
      | Some t => t
      | None => "Untitled"
      end
  end.

End Rules.

(** ** Auxiliary notions used to state the properties *)

Definition exc_map {A B : Type} (f : A -> B) (m : exc A) : exc B :=
  match m with
  | Ok a => Ok (f a)
  | Raise e => Raise e
  end.

(** The list without its first element passing [p]. *)
Fixpoint remove_first {A : Type} (p : A -> bool) (l : list A) : list A :=
  match l with
  | [] => []
  | x :: l' => if p x then l' else x :: remove_first p l'
  end.

(** The three queues filled by the shape loop. *)
Definition queues (st : slide_state)
  : list section * list (list (list string)) * list string :=
  (content_sections st, tables st, other_shapes st).

Definition set_found (b : bool) (st : slide_state) : slide_state :=
  mk_state b (content_sections st) (tables st) (other_shapes st).

(** A shape has content: its trimmed text is not empty, or it has a table.
    It is the value [has_content_probe] yields whenever it returns; a shape
    whose table property raises, and which has no text, counts as without
    content here, while its probe raises. *)
Definition has_content (s : shape) : bool :=
  match text s with
  | Some tx => Str.truthy (Str.strip tx)
  | None => false
  end
  || bool_decide (table s <> None).

(** The shapes the loop of [process_slide] takes for the title shape while
    none has been found: those that reach the title test and pass it. *)
Definition skipped_as_title (title : string) (s : shape) : bool :=
  has_content s && title_match title s.

(** The skip rule in the words of the specification: the trimmed text
    equals the title or is a substring of it, and is under 100 characters. *)
Definition claimed_title_skip (title : string) (s : shape) : bool :=
  match text s with
  | Some tx =>
      (Str.eqb (Str.strip tx) title || Str.contains (Str.strip tx) title)
      && (Str.len (Str.strip tx) <? 100)
  | None => false
  end.

(** A slide rendered with the shape loop started after the title shape was
    found, on the shapes without the first one that [skip] selects. *)
Definition process_slide_skipping (E : mso_shape_type_enum)
    (skip : string -> shape -> bool) (set_iter : gset string -> list string)
    (sl : slide) (slide_num : Z) : exc string :=
  let title := get_slide_title E sl in
  let* st := for_each (process_shape E title)
               (remove_first (skip title) (shapes sl)) (init_state true) in
  Ok (render_slide set_iter slide_num title st).

(** The three ways a body paragraph is rendered. *)
Inductive line_kind : Type := SubHeading | BulletLine | PlainLine.

(** The line of each kind, for the escaped text of the paragraph. *)
Definition format_line (k : line_kind) (base_level : Z) (p : para_info) : string :=
  let t := sanitize_markdown (pi_text p) in
  match k with
  | SubHeading => Str.repeat "#" base_level +:+ " " +:+ t
  | BulletLine => Str.repeat "  " (pi_level p) +:+ "* " +:+ t
  | PlainLine => t
  end.

(** The rendering rule in the words of the specification: a sub-heading
    when the paragraph is no bullet and its text is under 80 characters, a
    bullet line when its bullet flag is set, a plain line otherwise. *)
Definition claimed_line_kind (p : para_info) : line_kind :=
  if negb (pi_is_bullet p) && (Str.len (pi_text p) <? 80) then SubHeading
  else if pi_is_bullet p then BulletLine
  else PlainLine.

(** The same rule with the length taken of the escaped text. *)
Definition escaped_line_kind (p : para_info) : line_kind :=
  if negb (pi_is_bullet p) && (Str.len (sanitize_markdown (pi_text p)) <? 80)
  then SubHeading
  else if pi_is_bullet p then BulletLine
  else PlainLine.

(** The paragraphs that produce a line: those with a non-empty text. *)
Definition is_rendered (p : para_info) : bool :=
  Str.truthy (sanitize_markdown (pi_text p)).

(** The lines of a paragraph list under a rule [kind], each paragraph on its
    own. *)
Definition lines_by_rule (kind : para_info -> line_kind) (base_level : Z)
    (ps : list para_info) : list string :=
  map (fun p => format_line (kind p) base_level p) (filter (fun p => is_rendered p = true) ps).

(** The lookup of the paragraph properties fails with [AttributeError]. *)
Definition lookup_fails (p : paragraph) : Prop :=
  exists e, par_pPr p = Raise e /\ exn_cls e = AttributeError.

(** The lookup succeeds, or fails in the way the script recovers from. *)
Definition lookup_recoverable (p : paragraph) : Prop :=
  forall e, par_pPr p = Raise e -> exn_cls e = AttributeError.

(** The paragraph properties exist and declare a bullet character, an
    automatic numbering or an image bullet. *)
Definition metadata_declares_bullet (p : paragraph) : Prop :=
  exists e, par_pPr p = Ok (Some e) /\
            (xml_buChar e <> None \/ xml_buAutoNum e <> None \/ xml_buBlip e <> None).

(** The paragraph properties exist and yield something for one of the three
    bullet names through [getattr]. *)
Definition getattr_declares_bullet (p : paragraph) : Prop :=
  exists e, par_pPr p = Ok (Some e) /\
            (pPr_getattr e "buChar" <> None \/ pPr_getattr e "buAutoNum" <> None \/
             pPr_getattr e "buBlip" <> None).

(** The paragraphs kept by [extract_paragraphs]. *)
Definition is_retained (p : paragraph) : bool := Str.truthy (Str.strip (par_text p)).

(** What a paragraph record must say about its source paragraph. *)
Definition bullet_flag_ok (p : paragraph) (info : para_info) : Prop :=
  pi_text info = Str.strip (par_text p) /\
  (lookup_fails p -> pi_is_bullet info = false) /\
  (pi_is_bullet info = true <-> getattr_declares_bullet p).

(** The three kinds of shape of the specification. *)
Definition has_text (s : shape) : Prop :=
  exists tx, text s = Some tx /\ Str.strip tx <> "".
Definition table_bearing (s : shape) : Prop := table s <> None.
Definition text_bearing (s : shape) : Prop := table s = None /\ has_text s.
Definition decorative (s : shape) : Prop := table s = None /\ ~ has_text s.

(** What one shape adds to the section queue, the table queue and the list
    of decorative descriptions. *)
Definition contribution : Type :=
  list section * list (list (list string)) * list string.

(** A contribution of at most one entry, to the queue of the shape's kind. *)
Definition feeds_one_queue (s : shape) (c : contribution) : Prop :=
  (length c.1.1 + length c.1.2 + length c.2 <= 1)%nat /\
  (c.1.1 <> [] -> text_bearing s) /\
  (c.1.2 <> [] -> table_bearing s) /\
  (c.2 <> [] -> decorative s).

Definition exactly_one_kind (s : shape) : Prop :=
  (table_bearing s /\ ~ text_bearing s /\ ~ decorative s) \/
  (~ table_bearing s /\ text_bearing s /\ ~ decorative s) \/
  (~ table_bearing s /\ ~ text_bearing s /\ decorative s).

(** A presentation with the font size of every run forgotten: two
    presentations are identical except for the font sizes of their runs when
    they agree after this. *)
Definition erase_run (r : run) : run := mk_run None.
Definition erase_paragraph (p : paragraph) : paragraph :=
  mk_paragraph (par_text p) (par_level p) (par_pPr p) (map erase_run (par_runs p)).
Definition erase_shape (s : shape) : shape :=
  mk_shape (shape_type s) (placeholder_type s) (text s)
    (option_map (map erase_paragraph) (text_frame s)) (table_attr s) (name s).
Definition erase_slide (sl : slide) : slide := mk_slide (map erase_shape (shapes sl)).
Definition erase_presentation (prs : presentation) : presentation :=
  mk_presentation (map erase_slide (slides prs)).

Definition same_but_font_sizes (p1 p2 : presentation) : Prop :=
  erase_presentation p1 = erase_presentation p2.

(** The recorded font size forgotten in a paragraph record, a section and a
    loop state. *)
Definition drop_font (info : para_info) : para_info := set_font_size None info.
Definition drop_font_section (sec : section) : section :=
  mk_section (sec_title sec) (map drop_font (sec_paragraphs sec)).
Definition drop_font_state (st : slide_state) : slide_state :=
  mk_state (title_shape_found st) (map drop_font_section (content_sections st))
    (tables st) (other_shapes st).

(** An iteration order of string sets: whatever the set, its elements, each
    once, in some order. *)
Definition valid_set_iter (iter : gset string -> list string) : Prop :=
  forall X : gset string, iter X ≡ₚ elements X.

(** The descriptions of the shapes of a slide that have neither text nor
    table. *)
Definition decorative_descriptions (E : mso_shape_type_enum) (sl : slide) : list string :=
  map (get_shape_description E) (filter (fun s => has_content s = false) (shapes sl)).

(** The two runs iterate in the same order over the set of the strings of
    the list. *)
Definition same_order_on (w1 w2 : world) (l : list string) : Prop :=
  set_iter w1 (list_to_set l) = set_iter w2 (list_to_set l).

(** All the strings of the list are the same one. *)
Definition uniform (l : list string) : Prop :=
  forall x y, x ∈ l -> y ∈ l -> x = y.

(** Determinism in the words of the specification: any two runs on the same
    presentation write the same text. *)
Definition deterministic_claim (E : mso_shape_type_enum) : Prop :=
  forall (w1 w2 : world) (f : path) (prs : presentation),
    valid_set_iter (set_iter w1) -> valid_set_iter (set_iter w2) ->
    document_markdown E w1 f prs = document_markdown E w2 f prs.

(** The exception, if any, that the conversion of one file raises inside
    the [try] block of [process_pptx_file]. *)
Definition conversion_error (E : mso_shape_type_enum) (w : world)
    (output_dir : string) (f : path) : option exn :=
  match convert E w f with
  | Raise e => Some e
  | Ok _ => open_error w output_dir (md_filename f)
  end.

(** The file converts without an error: it parses, renders to some text
    and its output file opens. *)
Definition converts (E : mso_shape_type_enum) (w : world)
    (output_dir : string) (f : path) : Prop :=
  exists md, convert E w f = Ok md /\ open_error w output_dir (md_filename f) = None.

(** The files found by the discovery loop of [main]. *)
Definition discovered (w : world) (a : args) : list path :=
  (collect w a (mk_io [] [] ∅)).1.

(** The skip rule of the specification, as a statement about every slide. *)
Definition title_skip_claim (E : mso_shape_type_enum) : Prop :=
  forall iter (sl : slide) (n : Z),
    process_slide E iter sl n = process_slide_skipping E claimed_title_skip iter sl n.

(** The paragraph rule of the specification, as a statement about every
    list of body paragraphs. *)
Definition paragraph_rule_claim : Prop :=
  forall (base : Z) (ps : list para_info),
    paragraph_lines base ps = lines_by_rule claimed_line_kind base ps.

(** ** Further notions *)

(** The last character of [String c s]. *)
Fixpoint last_char (c : ascii) (s : string) : ascii :=
  match s with
  | "" => c
  | String c' s' => last_char c' s'
  end.

(** A text without white space at either end: the empty one, or one that
    begins and ends with a character that is no white space. *)
Definition is_trimmed (s : string) : Prop :=
  match s with
  | "" => True
  | String c s' => Str.is_space c = false /\ Str.is_space (last_char c s') = false
  end.

(** The font size [extract_paragraphs] records for a paragraph: that of its
    first run, in points, unless it is absent or zero. *)
Definition recorded_font_size (p : paragraph) : option float :=
  match par_runs p with
  | r :: _ =>
      match run_font_size r with
      | Some sz => if decide (sz = 0) then None else Some (pt sz)
      | None => None
      end
  | [] => None
  end.

(** What the record of a retained paragraph holds besides its bullet flag. *)
Definition record_of (p : paragraph) (info : para_info) : Prop :=
  pi_text info = Str.strip (par_text p) /\ pi_text info <> "" /\
  pi_level info = par_level p /\
  pi_font_size info = recorded_font_size p /\
  pi_used_as_header info = false.

(** The number of occurrences of a character in a text. *)
Fixpoint count_char (c : ascii) (s : string) : nat :=
  match s with
  | "" => 0
  | String a s' => (if Ascii.eqb a c then 1 else 0) + count_char c s'
  end.

(** Reading markdown from left to right, a backslash escapes the character
    after it.  [bare_pipes escaped s] counts the pipes of [s] that are not
    escaped, and [ends_escaped escaped s] tells whether [s] ends with a
    backslash still waiting for its character; [escaped] tells whether the
    first character of [s] is escaped. *)
Fixpoint bare_pipes (escaped : bool) (s : string) : nat :=
  match s with
  | "" => 0
  | String a s' =>
      if escaped then bare_pipes false s'
      else if Ascii.eqb a Str.backslash then bare_pipes true s'
      else (if Ascii.eqb a Str.pipe then 1 else 0) + bare_pipes false s'
  end.

Fixpoint ends_escaped (escaped : bool) (s : string) : bool :=
  match s with
  | "" => escaped
  | String a s' =>
      if escaped then ends_escaped false s'
      else if Ascii.eqb a Str.backslash then ends_escaped true s'
      else ends_escaped false s'
  end.

(** The label [get_shape_description] starts from: that of the last
    attribute name of [shape_labels] that the enumeration maps to the type
    of the shape (a name the enumeration lacks maps to [None]), or else the
    generic label. *)
Definition base_label (E : mso_shape_type_enum) (s : shape) : string :=
  match last (filter (fun nl => mso_getattr E nl.1 = shape_type s) shape_labels) with
  | Some nl => nl.2
  | None => "Shape type " +:+ mso_str E (shape_type s)
  end.

(** The name of the shape in parentheses, when it has a non-empty one. *)
Definition name_suffix (s : shape) : string :=
  match name s with
  | Some n => if Str.truthy n then " (" +:+ n +:+ ")" else ""
  | None => ""
  end.

(** Every lookup of the properties of a non-blank paragraph on the shape, or
    on the slide, succeeds or fails with [AttributeError]. *)
Definition recoverable_shape (s : shape) : Prop :=
  forall ps, text_frame s = Some ps ->
    Forall (fun p => is_retained p = true -> lookup_recoverable p) ps.
Definition recoverable_slide (sl : slide) : Prop := Forall recoverable_shape (shapes sl).

(** Reading the table property of the shape succeeds or fails with
    [AttributeError], as it does for a shape without that attribute. *)
Definition table_recoverable (s : shape) : Prop :=
  forall e, table_attr s = Raise e -> exn_cls e = AttributeError.

(** The paragraphs that can give a section its heading: no bullet, under 50
    characters. *)
Definition heading_candidate (p : para_info) : bool :=
  negb (pi_is_bullet p) && (Str.len (pi_text p) <? 50).

(** The slide without its shapes that have neither text nor table. *)
Definition content_shapes (sl : slide) : slide :=
  mk_slide (filter (fun s => has_content s = true) (shapes sl)).

Definition set_others (o : list string) (st : slide_state) : slide_state :=
  mk_state (title_shape_found st) (content_sections st) (tables st) o.

(** The second run finds the file system, the parser, and the failures of
    opening an output file and of making a directory, as the first did. *)
Definition same_file_system (w1 w2 : world) : Prop :=
  (forall p, path_exists w1 p = path_exists w2 p) /\
  (forall p, path_is_file w1 p = path_is_file w2 p) /\
  (forall p, path_is_dir w1 p = path_is_dir w2 p) /\
  (forall p g, path_glob w1 p g = path_glob w2 p g) /\
  (forall p, load_presentation w1 p = load_presentation w2 p) /\
  (forall d n, open_error w1 d n = open_error w2 d n) /\
  (forall d, mkdir_error w1 d = mkdir_error w2 d).

(** The files one path of the command line contributes to the work list. *)
Definition found_at (w : world) (p : path) : list path :=
  if negb (path_exists w p) then []
  else if path_is_file w p then
    (if Str.eqb (lower (path_suffix p)) ".pptx" then [p] else [])
  else if path_is_dir w p then path_glob w p "*.pptx" ++ path_glob w p "*.PPTX"
  else [].

(** The output file a discovered file leaves behind when it converts: its
    directory and name, and its text. *)
Definition output_of (E : mso_shape_type_enum) (w : world) (out : string) (f : path)
  : option ((string * string) * string) :=
  match convert E w f, open_error w out (md_filename f) with
  | Ok md, None => Some ((out, md_filename f), md)
  | _, _ => None
  end.

Definition outputs (E : mso_shape_type_enum) (w : world) (out : string)
    (l : list path) : list ((string * string) * string) :=
  omap (output_of E w out) l.

(** A text made of white space only. *)
Fixpoint all_space (s : string) : Prop :=
  match s with
  | "" => True
  | String c s' => Str.is_space c = true /\ all_space s'
  end.

(** ** Sample inputs *)

Module Sample.

(** An enumeration with the members PLACEHOLDER, PICTURE, CHART, GROUP, LINE
    and AUTO_SHAPE, and none named OVAL, RECTANGLE or ROUNDED_RECTANGLE. *)
Definition enum : mso_shape_type_enum :=
  mk_enum 14
    (fun n =>
       if Str.eqb n "PICTURE" then Some 13
       else if Str.eqb n "CHART" then Some 3
       else if Str.eqb n "GROUP" then Some 6
       else if Str.eqb n "LINE" then Some 9
       else if Str.eqb n "AUTO_SHAPE" then Some 1
       else None)
    (fun t => match t with Some n => Str.of_Z n | None => "None" end).

(** A placeholder of type [ty] holding one paragraph of text [tx]. *)
Definition placeholder (ty : Z) (tx : string) : shape :=
  mk_shape (Some 14) (Some ty) (Some tx)
    (Some [mk_paragraph tx 0 (Ok None) []]) (Ok None) (Some "Placeholder").

(** A text box holding the paragraphs [ps]; its text joins theirs. *)
Definition text_box (ps : list paragraph) : shape :=
  mk_shape (Some 17) None (Some (Str.join Str.nl (map par_text ps)))
    (Some ps) (Ok None) (Some "TextBox").

(** A graphic frame holding a table. *)
Definition table_frame (rows : list (list string)) : shape :=
  mk_shape (Some 19) None None None (Ok (Some rows)) (Some "Table").

Definition picture (n : string) : shape :=
  mk_shape (Some 13) None None None (Ok None) (Some n).

(** A graphic frame holding a chart: its [table] property raises. *)
Definition chart_frame : shape :=
  mk_shape (Some 3) None None None
    (Raise (mk_exn (OtherException "ValueError") "shape does not contain a table"))
    (Some "Chart").

(** A title of exactly 100 characters. *)
Definition long_title : string := Str.repeat "0123456789" 10.

(** A plain paragraph of 79 characters, one of them a backslash. *)
Definition backslash_text : string := Str.repeat "x" 78 +:+ "\".
Definition backslash_paragraph : para_info := mk_para_info backslash_text 0 false None false.

(** Paragraphs: a bullet, one whose properties cannot be looked up, and the
    latter with a font size on its first run. *)
Definition bullet_paragraph : paragraph :=
  mk_paragraph "Revenue up" 0 (Ok (Some (exposing_pPr (Some "*") None None))) [].
Definition bare_paragraph : paragraph :=
  mk_paragraph "Costs flat" 0 (Raise (mk_exn AttributeError "pPr")) [mk_run None].
(** A bullet as the library hands it over: the properties element holds the
    bullet character and exposes none of the three names. *)
Definition library_bullet_paragraph : paragraph :=
  mk_paragraph "Revenue up" 0 (Ok (Some (library_pPr (Some "*") None None))) [].
Definition sized_paragraph : paragraph :=
  mk_paragraph "Costs flat" 0 (Raise (mk_exn AttributeError "pPr"))
    [mk_run (Some 228600)].

(** A slide with a title, a text box, a table and a picture. *)
Definition deck_slide (p : paragraph) : slide :=
  mk_slide [ placeholder 15 "Q1 Results"; text_box [bullet_paragraph; p];
             table_frame [["A"; "B"]; ["C|D"; "E"]]; picture "Logo" ].
Definition deck (p : paragraph) : presentation := mk_presentation [deck_slide p].

(** A slide with two different pictures. *)
Definition gallery : presentation :=
  mk_presentation [mk_slide [picture "Logo"; picture "Photo"]].

(** Two iteration orders of string sets. *)
Definition forwards (X : gset string) : list string := elements X.
Definition backwards (X : gset string) : list string := reverse (elements X).

(** The backwards order, except on the set of the two picture descriptions
    of the gallery. *)
Definition backwards_but_gallery (X : gset string) : list string :=
  if decide (X = {[ "Image (Logo)"; "Image (Photo)" ]}) then elements X
  else reverse (elements X).

Definition q1_file : path := mk_path "decks/q1.pptx" "decks" "q1" ".pptx".
Definition broken_file : path := mk_path "decks/broken.pptx" "decks" "broken" ".pptx".

(** A world where every path is a file, [q1] parses to the deck and any
    other file is rejected by the parser. *)
Definition world_with (iter : gset string -> list string) : world :=
  mk_world (fun _ => true) (fun _ => true) (fun _ => false) (fun _ _ => [])
    (fun p => if Str.eqb (path_stem p) "q1" then Ok (deck bare_paragraph)
              else Raise (mk_exn (OtherException "PackageNotFoundError")
                            "Package not found"))
    (fun _ _ => None) (fun _ => None) iter.

Definition batch : args := mk_args [broken_file; q1_file] None.

Definition empty_io : io_state := mk_io [] [] ∅.

(** A paragraph whose properties fail to load with another exception, and a
    blank one that would fail the same way. *)
Definition broken_paragraph : paragraph :=
  mk_paragraph "Margin" 0 (Raise (mk_exn (OtherException "ValueError") "bad xml")) [].
Definition blank_paragraph : paragraph :=
  mk_paragraph "   " 0 (Raise (mk_exn (OtherException "ValueError") "bad xml")) [].

(** A world without any file. *)
Definition empty_world : world :=
  mk_world (fun _ => false) (fun _ => false) (fun _ => false) (fun _ _ => [])
    (fun _ => Raise (mk_exn (OtherException "PackageNotFoundError") "Package not found"))
    (fun _ _ => None) (fun _ => None) forwards.

(** The world of the deck where no directory can be made. *)
Definition blocked_world : world :=
  mk_world (fun _ => true) (fun _ => true) (fun _ => false) (fun _ _ => [])
    (fun _ => Ok (deck bare_paragraph)) (fun _ _ => None)
    (fun d => Some (mk_exn (OtherException "FileExistsError")
                      ("File exists: '" +:+ d +:+ "'")))
    forwards.

End Sample.

(** ** Properties *)

Section Properties.

Context (E : mso_shape_type_enum).

Local Arguments process_shape : simpl never.
Local Arguments extract_content : simpl never.

Lemma truthy_spec (s : string) : Str.truthy s = true <-> s <> "".
Proof. destruct s; simpl; split; intros; congruence. Qed.

Lemma len_lt (s : string) (n : nat) :
  (Str.len s <? Z.of_nat n) = true <-> (String.length s < n)%nat.
Proof. unfold Str.len. rewrite Z.ltb_lt. lia. Qed.

Lemma is_title_placeholder_spec (s : shape) :
  is_title_placeholder E s = true <-> title_placeholder E s.
Proof.
  unfold is_title_placeholder, title_placeholder, PP_TITLE, PP_HEADER.
  rewrite andb_true_iff, bool_decide_eq_true.
  split.
  - intros [Hty H]. split; [exact Hty|].
    destruct (placeholder_type s) as [t|]; [|discriminate].
    apply andb_true_iff in H as [Ht Htx].
    destruct (text s) as [tx|]; [|discriminate].
    exists t, tx. repeat split; [|by apply truthy_spec].
    apply orb_true_iff in Ht as [Ht|Ht]; apply Z.eqb_eq in Ht; auto.
  - intros [Hty (t & tx & -> & Ht & -> & Hne)]. split; [exact Hty|].
    apply andb_true_iff. split; [|by apply truthy_spec].
    apply orb_true_iff. destruct Ht as [->| ->]; auto.
Qed.

Lemma is_fallback_title_spec (s : shape) :
  is_fallback_title s = true <-> fallback_candidate s.
Proof.
  unfold is_fallback_title, fallback_candidate. split.
  - destruct (text s) as [tx|]; [|discriminate].
    rewrite !andb_true_iff, negb_true_iff. intros (Hne & Hlen & Hnl).
    exists tx. repeat split; [by apply truthy_spec| |exact Hnl].
    by apply (len_lt _ 100).
  - intros (tx & -> & Hne & Hlen & Hnl).
    rewrite !andb_true_iff, negb_true_iff. repeat split; [by apply truthy_spec| |exact Hnl].
    by apply (len_lt _ 100).
Qed.

Lemma first_stripped_text_Some (test : shape -> bool) (l : list shape) (t : string) :
  first_stripped_text test l = Some t <->
  exists l1 s l2, l = l1 ++ s :: l2 /\ Forall (fun x => test x = false) l1 /\
                  test s = true /\ t = stripped_text s.
Proof.
  induction l as [|x l IH]; simpl.
  - split; [discriminate|]. intros (l1 & s & l2 & Hl & _). by destruct l1.
  - destruct (test x) eqn:Hx.
    + split.
      * intros [= <-]. exists [], x, l. by repeat split.
      * intros (l1 & s & l2 & Hl & Hall & Hs & ->).
        destruct l1 as [|y l1]; simplify_eq/=; [done|].
        apply Forall_cons in Hall as [Hy _]. congruence.
    + rewrite IH. split.
      * intros (l1 & s & l2 & -> & Hall & Hs & ->).
        exists (x :: l1), s, l2. repeat split; auto.
      * intros (l1 & s & l2 & Hl & Hall & Hs & ->).
        destruct l1 as [|y l1]; simplify_eq/=; [congruence|].
        apply Forall_cons in Hall as [_ Hall]. by exists l1, s, l2.
Qed.

Lemma first_stripped_text_None (test : shape -> bool) (l : list shape) :
  first_stripped_text test l = None <-> Forall (fun x => test x = false) l.
Proof.
  induction l as [|x l IH]; simpl; [by split|].
  rewrite Forall_cons. destruct (test x).
  - split; [discriminate|]. by intros [? _].
  - rewrite IH. split; [by split|]. by intros [_ ?].
Qed.

Lemma Forall_not_test (test : shape -> bool) (P : shape -> Prop) (l : list shape) :
  (forall s, test s = true <-> P s) ->
  Forall (fun x => test x = false) l <-> Forall (fun x => ~ P x) l.
Proof.
  intros H. apply Forall_proper; [|done]. intros x.
  rewrite <- H. destruct (test x); split; congruence.
Qed.

Lemma first_stripped_text_nonempty (test : shape -> bool) (l : list shape) (t : string) :
  (forall s, test s = true -> stripped_text s <> "") ->
  first_stripped_text test l = Some t -> t <> "".
Proof.
  intros H (l1 & s & l2 & _ & _ & Hs & ->)%first_stripped_text_Some. by apply H.
Qed.

Lemma title_placeholder_nonempty (s : shape) :
  is_title_placeholder E s = true -> stripped_text s <> "".
Proof.
  intros (_ & t & tx & _ & _ & Htx & Hne)%is_title_placeholder_spec.
  unfold stripped_text. by rewrite Htx.
Qed.

Lemma fallback_title_nonempty (s : shape) :
  is_fallback_title s = true -> stripped_text s <> "".
Proof.
  intros (tx & Htx & Hne & _)%is_fallback_title_spec.
  unfold stripped_text. by rewrite Htx.
Qed.

(** X28: the title of a slide is the one the ordered algorithm resolves
    with the codes of the script: the trimmed text of the first placeholder
    of type 14 or 15 with text, else of the first shape with a short text
    without line feed, else "Untitled"; and it is never empty. *)
Theorem get_slide_title_resolves (sl : slide) :
  (forall t, title_resolves E (shapes sl) t <-> get_slide_title E sl = t) /\
  get_slide_title E sl <> "".
Proof.
  split.
  - intros t. unfold get_slide_title. split.
    + intros [l1 s l2 Hl Hall Hs | l1 s l2 Hno Hl Hall Hs | Hno1 Hno2].
      * assert (first_stripped_text (is_title_placeholder E) (shapes sl)
                = Some (stripped_text s)) as ->; [|done].
        apply first_stripped_text_Some. exists l1, s, l2.
        repeat split; [done| |by apply is_title_placeholder_spec].
        by apply (Forall_not_test _ _ _ is_title_placeholder_spec).
      * apply (Forall_not_test _ _ _ is_title_placeholder_spec) in Hno.
        apply first_stripped_text_None in Hno as ->.
        assert (first_stripped_text is_fallback_title (shapes sl)
                = Some (stripped_text s)) as ->; [|done].
        apply first_stripped_text_Some. exists l1, s, l2.
        repeat split; [done| |by apply is_fallback_title_spec].
        by apply (Forall_not_test _ _ _ is_fallback_title_spec).
      * apply (Forall_not_test _ _ _ is_title_placeholder_spec) in Hno1.
        apply (Forall_not_test _ _ _ is_fallback_title_spec) in Hno2.
        apply first_stripped_text_None in Hno1 as ->.
        by apply first_stripped_text_None in Hno2 as ->.
    + destruct (first_stripped_text (is_title_placeholder E) (shapes sl)) as [t1|] eqn:H1.
      * intros <-.
        apply first_stripped_text_Some in H1 as (l1 & s & l2 & Hl & Hall & Hs & ->).
        eapply resolve_placeholder; [exact Hl| |by apply is_title_placeholder_spec].
        by apply (Forall_not_test _ _ _ is_title_placeholder_spec).
      * apply first_stripped_text_None in H1.
        apply (Forall_not_test _ _ _ is_title_placeholder_spec) in H1.
        destruct (first_stripped_text is_fallback_title (shapes sl)) as [t2|] eqn:H2.
        -- intros <-.
           apply first_stripped_text_Some in H2 as (l1 & s & l2 & Hl & Hall & Hs & ->).
           eapply resolve_fallback; [done|exact Hl| |by apply is_fallback_title_spec].
           by apply (Forall_not_test _ _ _ is_fallback_title_spec).
        -- intros <-. apply resolve_untitled; [done|].
           apply first_stripped_text_None in H2.
           by apply (Forall_not_test _ _ _ is_fallback_title_spec).
  - unfold get_slide_title.
    destruct (first_stripped_text (is_title_placeholder E) (shapes sl)) as [t1|] eqn:H1.
    { eapply first_stripped_text_nonempty; [|exact H1]. apply title_placeholder_nonempty. }
    destruct (first_stripped_text is_fallback_title (shapes sl)) as [t2|] eqn:H2.
    { eapply first_stripped_text_nonempty; [|exact H2]. apply fallback_title_nonempty. }
    done.
Qed.

(** *** The title shape *)

Lemma has_content_eq (s : shape) :
  has_content s = has_stripped_text s || bool_decide (table s <> None).
Proof. reflexivity. Qed.

Lemma hasattr_table_true (s : shape) :
  hasattr_table s = Ok true <-> table s <> None.
Proof.
  unfold hasattr_table, table. destruct (table_attr s) as [[g|]|e]; split; try done;
    try (intros H; by destruct H). by destruct (is_AttributeError e).
Qed.

Lemma hasattr_table_false (s : shape) :
  hasattr_table s = Ok false -> table s = None.
Proof. unfold hasattr_table, table. by destruct (table_attr s) as [[g|]|e]. Qed.

Lemma hasattr_table_returns (s : shape) (b : bool) :
  hasattr_table s = Ok b -> bool_decide (table s <> None) = b.
Proof.
  destruct b.
  - intros H%hasattr_table_true. by apply bool_decide_eq_true.
  - intros H%hasattr_table_false. apply bool_decide_eq_false. by intros ?.
Qed.

(** When the probe of a shape returns, it returns [has_content]. *)
Lemma has_content_probe_returns (s : shape) (b : bool) :
  has_content_probe s = Ok b -> has_content s = b.
Proof.
  rewrite has_content_eq. unfold has_content_probe.
  destruct (has_stripped_text s); [by intros [= <-]|]. simpl.
  apply hasattr_table_returns.
Qed.

Lemma has_content_probe_true (s : shape) :
  has_content s = true -> has_content_probe s = Ok true.
Proof.
  rewrite has_content_eq. unfold has_content_probe.
  destruct (has_stripped_text s); [done|]. simpl.
  intros H%bool_decide_eq_true. by apply hasattr_table_true.
Qed.

(** The probe of a shape without content returns false or raises. *)
Lemma has_content_probe_false (s : shape) :
  has_content s = false ->
  has_content_probe s = Ok false \/ exists e, has_content_probe s = Raise e.
Proof.
  intros Hc. destruct (has_content_probe s) as [b|e] eqn:Hp; [|right; by exists e].
  left. apply has_content_probe_returns in Hp. congruence.
Qed.

(** The cases of [extract_content]: a failing probe, a table, paragraphs. *)
Lemma extract_content_cases (st : slide_state) (s : shape) :
  (exists e, extract_content st s = Raise e) \/
  (table s <> None /\
   exists table_data, extract_table_data s = Ok table_data /\
     extract_content st s =
     Ok (match table_data with
         | [] => st
         | _ => mk_state (title_shape_found st) (content_sections st)
                  (tables st ++ [table_data]) (other_shapes st)
         end)) \/
  (table s = None /\
   exists paragraphs, extract_paragraphs s = Ok paragraphs /\
     extract_content st s =
     Ok (match paragraphs with
         | [] => st
         | _ => mk_state (title_shape_found st)
                  (content_sections st ++ [mk_section (mark_header paragraphs).1
                                             (mark_header paragraphs).2])
                  (tables st) (other_shapes st)
         end)).
Proof.
  unfold extract_content.
  destruct (hasattr_table s) as [[|]|e] eqn:Hh; simpl; [| |left; by eexists].
  - destruct (extract_table_data s) as [td|e]; simpl; [|left; by eexists].
    right; left. split; [by apply hasattr_table_true|]. by exists td.
  - destruct (extract_paragraphs s) as [ps|e]; simpl; [|left; by eexists].
    right; right. split; [by apply hasattr_table_false|]. by exists ps.
Qed.

Lemma extract_content_found (f f' : bool) cs tb os (s : shape) :
  extract_content (mk_state f cs tb os) s =
  exc_map (set_found f) (extract_content (mk_state f' cs tb os) s).
Proof.
  unfold extract_content. destruct (hasattr_table s) as [[|]|e]; simpl; [| |done].
  - by destruct (extract_table_data s) as [[|r td]|e].
  - by destruct (extract_paragraphs s) as [[|p ps]|e].
Qed.

Lemma extract_content_keeps_found (st st' : slide_state) (s : shape) :
  extract_content st s = Ok st' -> title_shape_found st' = title_shape_found st.
Proof.
  destruct (extract_content_cases st s) as [[e ->]|[(_ & td & _ & ->)|(_ & ps & _ & ->)]];
    [done|..]; intros [= <-].
  - by destruct td.
  - by destruct ps.
Qed.

Lemma process_shape_found (title : string) (st : slide_state) (s : shape) :
  title_shape_found st = true -> has_content s = true ->
  process_shape E title st s = extract_content st s.
Proof.
  intros Hf Hc. unfold process_shape.
  rewrite (has_content_probe_true s Hc). simpl. by rewrite Hf.
Qed.

Lemma process_shape_no_match (title : string) (st : slide_state) (s : shape) :
  has_content s = true -> title_match title s = false ->
  process_shape E title st s = extract_content st s.
Proof.
  intros Hc Hm. unfold process_shape.
  rewrite (has_content_probe_true s Hc). simpl. by rewrite Hm, andb_false_r.
Qed.

Lemma process_shape_match (title : string) (st : slide_state) (s : shape) :
  has_content s = true -> title_match title s = true ->
  title_shape_found st = false ->
  process_shape E title st s = Ok (set_found true st).
Proof.
  intros Hc Hm Hf. unfold process_shape.
  rewrite (has_content_probe_true s Hc). simpl. rewrite Hm, Hf.
  assert (bool_decide (text s <> None) = true) as ->; [|done].
  apply bool_decide_eq_true. unfold title_match in Hm. by destruct (text s).
Qed.

Lemma process_shape_decorative (title : string) (st : slide_state) (s : shape) :
  has_content_probe s = Ok false ->
  process_shape E title st s =
  Ok (if Str.truthy (get_shape_description E s)
      then mk_state (title_shape_found st) (content_sections st) (tables st)
             (other_shapes st ++ [get_shape_description E s])
      else st).
Proof. intros Hc. unfold process_shape. by rewrite Hc. Qed.

Lemma process_shape_probe_raises (title : string) (st : slide_state) (s : shape) (e : exn) :
  has_content_probe s = Raise e -> process_shape E title st s = Raise e.
Proof. intros Hc. unfold process_shape. by rewrite Hc. Qed.

Lemma for_each_skip (title : string) (l : list shape) cs tb os :
  exc_map queues (for_each (process_shape E title) l (mk_state false cs tb os)) =
  exc_map queues (for_each (process_shape E title)
                    (remove_first (skipped_as_title title) l) (mk_state true cs tb os)).
Proof.
  revert cs tb os. induction l as [|s l IH]; intros cs tb os; [done|].
  simpl. unfold skipped_as_title at 1.
  destruct (has_content s) eqn:Hc; simpl.
  - destruct (title_match title s) eqn:Hm; simpl.
    + by rewrite process_shape_match.
    + rewrite process_shape_no_match, process_shape_found by done.
      rewrite (extract_content_found true false).
      destruct (extract_content (mk_state false cs tb os) s) as [st1|e] eqn:Hx; [|done].
      apply extract_content_keeps_found in Hx. simpl in *.
      destruct st1 as [f1 cs1 tb1 os1]. simpl in *. subst f1. apply IH.
  - destruct (has_content_probe_false s Hc) as [Hp|[e Hp]].
    + rewrite !process_shape_decorative by done. simpl.
      destruct (Str.truthy (get_shape_description E s)); apply IH.
    + by rewrite !(process_shape_probe_raises _ _ _ e Hp).
Qed.

Lemma render_slide_queues iter (n : Z) (title : string) (st st' : slide_state) :
  queues st = queues st' -> render_slide iter n title st = render_slide iter n title st'.
Proof. unfold queues, render_slide. by intros [= -> -> ->]. Qed.

(** C2 (amended): rendering a slide skips exactly the first shape that has
    content and whose trimmed text equals the resolved title, or is under
    100 characters and a substring of it; the slide renders as its other
    shapes do with the title shape already found, and once it is found a
    shape with content is never skipped. *)
Theorem title_skip_first_match_only iter (sl : slide) (n : Z) :
  process_slide E iter sl n = process_slide_skipping E skipped_as_title iter sl n /\
  (forall title st s, title_shape_found st = true -> has_content s = true ->
     process_shape E title st s = extract_content st s).
Proof.
  split; [|apply process_shape_found].
  unfold process_slide, process_slide_skipping.
  pose proof (for_each_skip (get_slide_title E sl) (shapes sl) [] [] []) as H.
  unfold init_state.
  destruct (for_each _ (shapes sl) _) as [st|e],
           (for_each _ (remove_first _ _) _) as [st'|e']; simpl in *; try done.
  - f_equal. apply render_slide_queues. congruence.
  - congruence.
Qed.

(** *** Empty tables *)

Lemma table_to_markdown_empty_grid (rows : list (list string)) :
  table_to_markdown [] = "" /\ table_to_markdown ([] :: rows) = "".
Proof. by split. Qed.

(** A table without rows leaves the three queues as they are. *)
Lemma extract_content_no_rows (st : slide_state) (s : shape) :
  table s = Some [] -> extract_content st s = Ok st.
Proof.
  unfold table, extract_content, extract_table_data, hasattr_table.
  destruct (table_attr s) as [[g|]|e]; [|done..]. by intros [= ->].
Qed.

(** *** Body paragraphs *)

Lemma paragraph_lines_app (base : Z) (ps1 ps2 : list para_info) :
  paragraph_lines base (ps1 ++ ps2) = paragraph_lines base ps1 ++ paragraph_lines base ps2.
Proof.
  induction ps1 as [|p ps1 IH]; simpl; [done|].
  destruct (Str.truthy (sanitize_markdown (pi_text p))); simpl; by rewrite IH.
Qed.

Lemma paragraph_lines_rule (base : Z) (ps : list para_info) :
  paragraph_lines base ps = lines_by_rule escaped_line_kind base ps.
Proof.
  unfold lines_by_rule. induction ps as [|p ps IH]; simpl; [done|].
  rewrite filter_cons.
  destruct (decide (is_rendered p = true)) as [Hr|Hr]; unfold is_rendered in Hr.
  - rewrite Hr. simpl. rewrite IH. f_equal.
    unfold format_line, escaped_line_kind.
    destruct (pi_is_bullet p); simpl; [done|].
    by destruct (Str.len (sanitize_markdown (pi_text p)) <? 80).
  - apply not_true_is_false in Hr. by rewrite Hr.
Qed.

(** C5 (amended): every body paragraph with a non-empty text renders on
    its own as a sub-heading line exactly when it is no bullet and its
    backslash-escaped text is under 80 characters, as a bullet line
    indented by two spaces per level when its bullet flag is set, and as a
    plain line otherwise. *)
Theorem paragraphs_render_by_escaped_rule (base : Z) (ps ps' : list para_info) :
  paragraph_lines base ps = lines_by_rule escaped_line_kind base ps /\
  paragraph_lines base (ps ++ ps') = paragraph_lines base ps ++ paragraph_lines base ps' /\
  paragraphs_to_markdown ps base = Str.join Str.nl (lines_by_rule escaped_line_kind base ps).
Proof.
  split; [apply paragraph_lines_rule|]. split; [apply paragraph_lines_app|].
  unfold paragraphs_to_markdown. rewrite <- paragraph_lines_rule. by destruct ps.
Qed.

(** *** Bullet flags *)

Lemma declares_bullet_spec (e : pPr_elem) :
  declares_bullet e = true <->
  pPr_getattr e "buChar" <> None \/ pPr_getattr e "buAutoNum" <> None \/
  pPr_getattr e "buBlip" <> None.
Proof.
  unfold declares_bullet. rewrite !orb_true_iff, !bool_decide_eq_true. tauto.
Qed.

Lemma check_bullet_ok (p : paragraph) (info : para_info) :
  lookup_recoverable p -> pi_is_bullet info = false ->
  exists info', check_bullet p info = Ok info' /\
    pi_text info' = pi_text info /\
    (lookup_fails p -> pi_is_bullet info' = false) /\
    (pi_is_bullet info' = true <-> getattr_declares_bullet p).
Proof.
  intros Hrec Hb. unfold check_bullet, lookup_fails, getattr_declares_bullet.
  destruct (par_pPr p) as [[e|]|x] eqn:Hp; simpl.
  - destruct (declares_bullet e) eqn:Hd.
    + eexists. split; [done|]. split; [done|]. split.
      * by intros (? & ? & _).
      * split; [|done]. intros _. exists e. split; [done|].
        by apply declares_bullet_spec.
    + exists info. split; [done|]. split; [done|]. split; [done|].
      rewrite Hb. split; [done|]. intros (e' & [= <-] & Hd').
      apply declares_bullet_spec in Hd'. congruence.
  - exists info. split; [done|]. split; [done|]. split; [done|].
    rewrite Hb. split; [done|]. by intros (? & ? & _).
  - unfold is_AttributeError. rewrite (Hrec x Hp).
    exists info. split; [done|]. split; [done|]. split; [done|].
    rewrite Hb. split; [done|]. by intros (? & ? & _).
Qed.

Lemma check_font_size_keeps (p : paragraph) (info : para_info) :
  pi_text (check_font_size p info) = pi_text info /\
  pi_is_bullet (check_font_size p info) = pi_is_bullet info.
Proof.
  unfold check_font_size. destruct (par_runs p) as [|r ?]; [done|].
  destruct (run_font_size r) as [sz|]; [|done]. by destruct (sz =? 0).
Qed.

Lemma extract_paragraph_loop_retained (ps : list paragraph) (acc : list para_info) :
  Forall (fun p => is_retained p = true -> lookup_recoverable p) ps ->
  exists infos, for_each extract_paragraph ps acc = Ok (acc ++ infos) /\
    Forall2 bullet_flag_ok (filter (fun p => is_retained p = true) ps) infos.
Proof.
  revert acc. induction ps as [|p ps IH]; intros acc Hall.
  { exists []. by rewrite app_nil_r. }
  apply Forall_cons in Hall as [Hp Hall]. simpl.
  rewrite filter_cons. unfold extract_paragraph at 1.
  destruct (decide (is_retained p = true)) as [Hr|Hr].
  - specialize (Hp Hr). unfold is_retained in Hr. rewrite Hr. simpl.
    destruct (check_bullet_ok p
                (mk_para_info (Str.strip (par_text p)) (par_level p) false None false)
                Hp eq_refl) as (info & -> & Ht & Hf & Hd).
    simpl. destruct (IH (acc ++ [check_font_size p info]) Hall) as (infos & -> & HF).
    exists (check_font_size p info :: infos). split; [by rewrite <- app_assoc|].
    constructor; [|done]. destruct (check_font_size_keeps p info) as [Ht' Hb'].
    unfold bullet_flag_ok. rewrite Ht', Hb'. done.
  - apply not_true_is_false in Hr. unfold is_retained in Hr. rewrite Hr. simpl.
    by apply IH.
Qed.

Lemma extract_paragraph_loop (ps : list paragraph) (acc : list para_info) :
  Forall lookup_recoverable ps ->
  exists infos, for_each extract_paragraph ps acc = Ok (acc ++ infos) /\
    Forall2 bullet_flag_ok (filter (fun p => is_retained p = true) ps) infos.
Proof.
  intros Hall. apply extract_paragraph_loop_retained.
  eapply Forall_impl; [exact Hall|]. by intros p Hp _.
Qed.

(** X29: when the lookup of the properties of every non-blank paragraph of
    a shape succeeds or fails with [AttributeError], paragraph extraction
    returns without raising; a paragraph whose lookup failed is recorded as no
    bullet, and the bullet flag is set exactly when [getattr] yields something
    for one of the three bullet names of the properties element. *)
Theorem extract_paragraphs_bullet_flags (s : shape) (ps : list paragraph) :
  text_frame s = Some ps ->
  Forall (fun p => is_retained p = true -> lookup_recoverable p) ps ->
  exists infos, extract_paragraphs s = Ok infos /\
    Forall2 bullet_flag_ok (filter (fun p => is_retained p = true) ps) infos.
Proof.
  intros Htf Hall. unfold extract_paragraphs. rewrite Htf.
  destruct (extract_paragraph_loop_retained ps [] Hall) as (infos & -> & HF).
  by exists infos.
Qed.

(** *** One queue per shape *)

Lemma has_text_dec (s : shape) : has_text s \/ ~ has_text s.
Proof.
  unfold has_text. destruct (text s) as [tx|].
  - destruct (decide (Str.strip tx = "")) as [Heq|Hne].
    + right. intros (? & [= <-] & ?). done.
    + left. by exists tx.
  - right. by intros (? & ? & _).
Qed.

Lemma shape_kind_partition (s : shape) : exactly_one_kind s.
Proof.
  unfold exactly_one_kind, table_bearing, text_bearing, decorative.
  destruct (table s) as [t|]; [left|right].
  - split; [done|]. split; by intros [? _].
  - destruct (has_text_dec s) as [H|H]; [left|right]; tauto.
Qed.

Lemma has_content_false (s : shape) : has_content s = false -> decorative s.
Proof.
  unfold has_content, decorative, has_text.
  intros [Ht Htb]%orb_false_iff. apply bool_decide_eq_false in Htb.
  split; [by destruct (table s); [destruct Htb|]|].
  intros (tx & Htx & Hne). rewrite Htx in Ht. apply truthy_spec in Hne. congruence.
Qed.

Lemma has_content_no_table (s : shape) :
  has_content s = true -> table s = None -> text_bearing s.
Proof.
  unfold has_content, text_bearing, has_text. intros Hc Htb. split; [done|].
  rewrite Htb in Hc. rewrite bool_decide_eq_false_2 in Hc by (intros H; by apply H).
  rewrite orb_false_r in Hc. destruct (text s) as [tx|]; [|done].
  exists tx. split; [done|]. by apply truthy_spec.
Qed.

Local Ltac contribution_done :=
  unfold feeds_one_queue; simpl; rewrite ?app_nil_r;
  split_and!; solve [simpl; lia | done | reflexivity].

Lemma extract_content_contribution (st st' : slide_state) (s : shape) :
  has_content s = true -> extract_content st s = Ok st' ->
  exists c : contribution, feeds_one_queue s c /\
    content_sections st' = content_sections st ++ c.1.1 /\
    tables st' = tables st ++ c.1.2 /\
    other_shapes st' = other_shapes st ++ c.2.
Proof.
  intros Hc.
  destruct (extract_content_cases st s)
    as [[e ->]|[(Htb & td & _ & ->)|(Htb & ps & _ & ->)]]; [done|..]; intros [= <-].
  - assert (table_bearing s) as Hk by done.
    destruct td as [|r td].
    + exists ([], [], []). contribution_done.
    + exists ([], [r :: td], []). contribution_done.
  - pose proof (has_content_no_table s Hc Htb) as Hk.
    destruct ps as [|p ps].
    + exists ([], [], []). contribution_done.
    + eexists ([_], [], []). contribution_done.
Qed.

Lemma process_shape_contribution (title : string) (st st' : slide_state) (s : shape) :
  process_shape E title st s = Ok st' ->
  exists c : contribution, feeds_one_queue s c /\
    content_sections st' = content_sections st ++ c.1.1 /\
    tables st' = tables st ++ c.1.2 /\
    other_shapes st' = other_shapes st ++ c.2.
Proof.
  destruct (has_content_probe s) as [[|]|e] eqn:Hp.
  - pose proof (has_content_probe_returns s _ Hp) as Hc.
    unfold process_shape. rewrite Hp. simpl.
    destruct (negb (title_shape_found st) && bool_decide (text s <> None)
              && title_match title s).
    + intros [= <-]. exists ([], [], []). unfold feeds_one_queue. contribution_done.
    + by apply extract_content_contribution.
  - pose proof (has_content_probe_returns s _ Hp) as Hc.
    rewrite process_shape_decorative by done.
    pose proof (has_content_false s Hc) as Hk. unfold feeds_one_queue.
    destruct (Str.truthy (get_shape_description E s)); intros [= <-].
    + exists ([], [], [get_shape_description E s]). contribution_done.
    + exists ([], [], []). contribution_done.
  - by rewrite (process_shape_probe_raises _ _ _ e Hp).
Qed.

(** C9: every shape is of exactly one kind (table-bearing, text-bearing or
    decorative), and whatever the slide and the order of its shapes, each
    shape adds at most one entry in total to the section queue, the table
    queue and the decorative list, and only to the queue of its kind. *)
Theorem shapes_feed_one_queue_each (title : string) (l : list shape)
    (st st' : slide_state) :
  (forall s, exactly_one_kind s) /\
  (for_each (process_shape E title) l st = Ok st' ->
   exists cs : list contribution,
     Forall2 feeds_one_queue l cs /\
     content_sections st' = content_sections st ++ concat (map (fun c => c.1.1) cs) /\
     tables st' = tables st ++ concat (map (fun c => c.1.2) cs) /\
     other_shapes st' = other_shapes st ++ concat (map (fun c => c.2) cs)).
Proof.
  split; [apply shape_kind_partition|].
  revert st. induction l as [|s l IH]; intros st; simpl.
  - intros [= <-]. exists []. simpl. rewrite !app_nil_r. by repeat split.
  - destruct (process_shape E title st s) as [st1|e] eqn:H1; simpl; [|done].
    intros Hrest.
    destruct (process_shape_contribution _ _ _ _ H1) as (c & Hc & Hs & Ht & Ho).
    destruct (IH _ Hrest) as (cs & Hcs & Hs' & Ht' & Ho').
    exists (c :: cs). split; [by constructor|]. simpl.
    rewrite Hs', Ht', Ho', Hs, Ht, Ho, <- !app_assoc. done.
Qed.

(** *** Font sizes *)

Lemma first_stripped_text_erase (test : shape -> bool) (l : list shape) :
  (forall s, test (erase_shape s) = test s) ->
  first_stripped_text test (map erase_shape l) = first_stripped_text test l.
Proof.
  intros H. induction l as [|s l IH]; simpl; [done|]. by rewrite H, IH.
Qed.

Lemma get_slide_title_erase (sl : slide) :
  get_slide_title E (erase_slide sl) = get_slide_title E sl.
Proof.
  unfold get_slide_title, erase_slide. simpl.
  by rewrite !first_stripped_text_erase.
Qed.

Lemma check_bullet_font (p : paragraph) (info info' : para_info) :
  check_bullet p info = Ok info' -> pi_font_size info' = pi_font_size info.
Proof.
  unfold check_bullet. destruct (par_pPr p) as [[e|]|x]; simpl.
  - destruct (declares_bullet e); by intros [= <-].
  - by intros [= <-].
  - destruct (is_AttributeError x); [|done]. by intros [= <-].
Qed.

Lemma drop_font_id (info : para_info) : pi_font_size info = None -> drop_font info = info.
Proof. destruct info; simpl. by intros ->. Qed.

Lemma drop_font_check_font_size (p : paragraph) (info : para_info) :
  drop_font (check_font_size p info) = drop_font info.
Proof.
  unfold check_font_size. destruct (par_runs p) as [|r ?]; [done|].
  destruct (run_font_size r) as [sz|]; [|done]. by destruct (sz =? 0).
Qed.

Lemma check_font_size_erase (p : paragraph) (info : para_info) :
  check_font_size (erase_paragraph p) info = info.
Proof. unfold check_font_size. simpl. by destruct (par_runs p). Qed.

Lemma extract_paragraph_erase (acc : list para_info) (p : paragraph) :
  extract_paragraph (map drop_font acc) (erase_paragraph p) =
  exc_map (map drop_font) (extract_paragraph acc p).
Proof.
  unfold extract_paragraph. simpl.
  destruct (Str.truthy (Str.strip (par_text p))); simpl; [|done].
  change (check_bullet (erase_paragraph p)) with (check_bullet p).
  destruct (check_bullet p _) as [info|e] eqn:Hcb; simpl; [|done].
  apply check_bullet_font in Hcb. simpl in Hcb.
  rewrite check_font_size_erase, map_app. simpl.
  by rewrite drop_font_check_font_size, (drop_font_id info).
Qed.

Lemma extract_paragraph_loop_erase (ps : list paragraph) (acc : list para_info) :
  for_each extract_paragraph (map erase_paragraph ps) (map drop_font acc) =
  exc_map (map drop_font) (for_each extract_paragraph ps acc).
Proof.
  revert acc. induction ps as [|p ps IH]; intros acc; simpl; [done|].
  rewrite extract_paragraph_erase.
  destruct (extract_paragraph acc p) as [acc'|e]; simpl; [apply IH|done].
Qed.

Lemma extract_paragraphs_erase (s : shape) :
  extract_paragraphs (erase_shape s) = exc_map (map drop_font) (extract_paragraphs s).
Proof.
  unfold extract_paragraphs. simpl. destruct (text_frame s) as [ps|]; simpl; [|done].
  apply (extract_paragraph_loop_erase ps []).
Qed.

Lemma mark_header_drop_font (ps : list para_info) :
  mark_header (map drop_font ps) = ((mark_header ps).1, map drop_font (mark_header ps).2).
Proof.
  induction ps as [|p ps IH]; simpl; [done|].
  destruct (negb (pi_is_bullet p) && (Str.len (pi_text p) <? 50)); simpl; [done|].
  by rewrite IH.
Qed.

Local Arguments mark_header : simpl never.

Lemma extract_content_erase (st : slide_state) (s : shape) :
  extract_content (drop_font_state st) (erase_shape s) =
  exc_map drop_font_state (extract_content st s).
Proof.
  unfold extract_content.
  change (hasattr_table (erase_shape s)) with (hasattr_table s).
  change (extract_table_data (erase_shape s)) with (extract_table_data s).
  destruct (hasattr_table s) as [[|]|e]; simpl; [| |done].
  - by destruct (extract_table_data s) as [[|r td]|e].
  - rewrite extract_paragraphs_erase.
    destruct (extract_paragraphs s) as [[|p ps]|e]; simpl; [done| |done].
    f_equal. unfold drop_font_state. simpl. f_equal.
    rewrite map_app. simpl. f_equal. f_equal.
    change (drop_font p :: map drop_font ps) with (map drop_font (p :: ps)).
    by rewrite mark_header_drop_font.
Qed.

Lemma process_shape_erase (title : string) (st : slide_state) (s : shape) :
  process_shape E title (drop_font_state st) (erase_shape s) =
  exc_map drop_font_state (process_shape E title st s).
Proof.
  unfold process_shape.
  change (has_content_probe (erase_shape s)) with (has_content_probe s).
  change (get_shape_description E (erase_shape s)) with (get_shape_description E s).
  change (title_match title (erase_shape s)) with (title_match title s).
  change (text (erase_shape s)) with (text s).
  change (title_shape_found (drop_font_state st)) with (title_shape_found st).
  destruct (has_content_probe s) as [[|]|e]; simpl; [| |done].
  - destruct (negb (title_shape_found st) && bool_decide (text s <> None)
              && title_match title s); [done|].
    apply extract_content_erase.
  - by destruct (Str.truthy (get_shape_description E s)).
Qed.

Lemma shape_loop_erase (title : string) (l : list shape) (st : slide_state) :
  for_each (process_shape E title) (map erase_shape l) (drop_font_state st) =
  exc_map drop_font_state (for_each (process_shape E title) l st).
Proof.
  revert st. induction l as [|s l IH]; intros st; simpl; [done|].
  rewrite process_shape_erase.
  destruct (process_shape E title st s) as [st1|e]; simpl; [apply IH|done].
Qed.

Lemma paragraph_lines_drop_font (base : Z) (ps : list para_info) :
  paragraph_lines base (map drop_font ps) = paragraph_lines base ps.
Proof. induction ps as [|p ps IH]; simpl; [done|]. by rewrite IH. Qed.

Lemma filter_unused_drop_font (ps : list para_info) :
  filter (fun p => pi_used_as_header p = false) (map drop_font ps) =
  map drop_font (filter (fun p => pi_used_as_header p = false) ps).
Proof.
  induction ps as [|p ps IH]; simpl; [done|].
  rewrite !filter_cons. simpl. rewrite IH.
  by destruct (decide (pi_used_as_header p = false)).
Qed.

Lemma section_lines_drop_font (sec : section) :
  section_lines (drop_font_section sec) = section_lines sec.
Proof.
  unfold section_lines. simpl. f_equal. rewrite filter_unused_drop_font.
  destruct (filter _ (sec_paragraphs sec)) as [|p ps]; simpl; [done|].
  unfold paragraphs_to_markdown.
  change (drop_font p :: map drop_font ps) with (map drop_font (p :: ps)).
  by rewrite paragraph_lines_drop_font.
Qed.

Lemma render_slide_drop_font iter (n : Z) (title : string) (st : slide_state) :
  render_slide iter n title (drop_font_state st) = render_slide iter n title st.
Proof.
  unfold render_slide, drop_font_state. cbn [content_sections tables other_shapes].
  rewrite map_map. do 4 f_equal. apply map_ext. intros sec. apply section_lines_drop_font.
Qed.

Lemma process_slide_erase iter (sl : slide) (n : Z) :
  process_slide E iter (erase_slide sl) n = process_slide E iter sl n.
Proof.
  unfold process_slide. rewrite get_slide_title_erase. simpl.
  change (init_state false) with (drop_font_state (init_state false)) at 1.
  rewrite shape_loop_erase.
  destruct (for_each _ (shapes sl) _) as [st|e]; simpl; [|done].
  by rewrite render_slide_drop_font.
Qed.

Lemma slides_markdown_erase (w : world) (sls : list slide) (idx : Z) :
  slides_markdown E w (map erase_slide sls) idx = slides_markdown E w sls idx.
Proof.
  revert idx. induction sls as [|sl sls IH]; intros idx; simpl; [done|].
  by rewrite process_slide_erase, IH.
Qed.

Lemma document_markdown_erase (w : world) (f : path) (prs : presentation) :
  document_markdown E w f (erase_presentation prs) = document_markdown E w f prs.
Proof. unfold document_markdown. simpl. by rewrite slides_markdown_erase. Qed.

(** C10: two presentations that are identical except for the font sizes
    of their runs render to the same markdown document. *)
Theorem font_size_never_rendered (w : world) (f : path) (p1 p2 : presentation) :
  same_but_font_sizes p1 p2 ->
  document_markdown E w f p1 = document_markdown E w f p2.
Proof.
  intros H. rewrite <- (document_markdown_erase w f p1), <- (document_markdown_erase w f p2).
  by rewrite H.
Qed.

(** *** Sets of strings *)

Lemma set_iter_uniform (iter1 iter2 : gset string -> list string) (l : list string) :
  valid_set_iter iter1 -> valid_set_iter iter2 -> uniform l ->
  iter1 (list_to_set l) = iter2 (list_to_set l).
Proof.
  intros H1 H2 Hu. specialize (H1 (list_to_set l)). specialize (H2 (list_to_set l)).
  destruct l as [|x l].
  - simpl in *. rewrite elements_empty in H1, H2.
    apply Permutation_nil_r in H1, H2. congruence.
  - assert (list_to_set (x :: l) =@{gset string} {[x]}) as Heq.
    { apply set_eq. intros y. rewrite elem_of_list_to_set, elem_of_singleton. split.
      - intros Hy. apply Hu; [done|]. by left.
      - intros ->. by left. }
    rewrite Heq in *. rewrite elements_singleton in H1, H2.
    apply Permutation_singleton_r in H1, H2. congruence.
Qed.

Lemma other_lines_uniform (iter1 iter2 : gset string -> list string) (l : list string) :
  valid_set_iter iter1 -> valid_set_iter iter2 -> uniform l ->
  other_lines iter1 l = other_lines iter2 l.
Proof.
  intros H1 H2 Hu. unfold other_lines. by rewrite (set_iter_uniform iter1 iter2 l).
Qed.

Lemma extract_content_other_shapes (st st' : slide_state) (s : shape) :
  extract_content st s = Ok st' -> other_shapes st' = other_shapes st.
Proof.
  destruct (extract_content_cases st s)
    as [[e ->]|[(_ & td & _ & ->)|(_ & ps & _ & ->)]]; [done|..]; intros [= <-].
  - by destruct td.
  - by destruct ps.
Qed.

(** *** The batch driver *)

Lemma converts_no_error (w : world) (out : string) (f : path) :
  converts E w out f <-> conversion_error E w out f = None.
Proof.
  unfold converts, conversion_error. destruct (convert E w f) as [md|e].
  - split; [by intros (? & _ & ?)|]. intros H. by exists md.
  - split; [by intros (? & ? & _)|done].
Qed.

Lemma process_pptx_file_result (w : world) (f : path) (out : string) (io : io_state) :
  (process_pptx_file E w f out io).1 = bool_decide (conversion_error E w out f = None).
Proof.
  unfold process_pptx_file, conversion_error.
  destruct (convert E w f) as [md|e]; simpl; [|done].
  by destruct (open_error w out (md_filename f)).
Qed.

Lemma process_pptx_file_stderr (w : world) (f : path) (out : string) (io : io_state) :
  stderr (process_pptx_file E w f out io).2 =
  stderr io ++ match conversion_error E w out f with
               | Some e => ["  -> Error: " +:+ exn_msg e]
               | None => []
               end.
Proof.
  unfold process_pptx_file, conversion_error.
  destruct (convert E w f) as [md|e]; simpl; [|done].
  destruct (open_error w out (md_filename f)); simpl; [done|by rewrite app_nil_r].
Qed.

Lemma process_pptx_file_files (w : world) (f : path) (out : string) (io : io_state) :
  files (process_pptx_file E w f out io).2 =
  match convert E w f, open_error w out (md_filename f) with
  | Ok md, None => <[ (out, md_filename f) := md ]> (files io)
  | _, _ => files io
  end.
Proof.
  unfold process_pptx_file.
  destruct (convert E w f) as [md|e]; simpl; [|done].
  by destruct (open_error w out (md_filename f)).
Qed.

Lemma convert_all_app (w : world) (out : string) (l1 l2 : list path) (c : Z)
    (io : io_state) :
  convert_all E w out (l1 ++ l2) c io =
  convert_all E w out l2 (convert_all E w out l1 c io).1 (convert_all E w out l1 c io).2.
Proof.
  revert c io. induction l1 as [|f l1 IH]; intros c io; simpl; [done|]. apply IH.
Qed.

Lemma convert_all_count (w : world) (out : string) (l : list path) (c : Z)
    (io : io_state) :
  (convert_all E w out l c io).1 =
  c + Z.of_nat (length (filter (fun f => conversion_error E w out f = None) l)).
Proof.
  revert c io. induction l as [|f l IH]; intros c io; simpl; [lia|].
  rewrite IH, process_pptx_file_result, filter_cons.
  destruct (decide (conversion_error E w out f = None)) as [H|H].
  - rewrite bool_decide_eq_true_2 by done. simpl. lia.
  - rewrite bool_decide_eq_false_2 by done. lia.
Qed.

Lemma filter_length_all {A : Type} (P : A -> Prop) `{!forall x, Decision (P x)}
    (l : list A) :
  length (filter P l) = length l <-> Forall P l.
Proof.
  induction l as [|x l IH]; simpl; [by split|].
  rewrite filter_cons, Forall_cons. pose proof (length_filter P l) as Hle.
  destruct (decide (P x)); simpl.
  - rewrite <- IH. split; [intros [= ->]; by split|intros [_ ->]; done].
  - split; [lia|]. by intros [? _].
Qed.

Lemma convert_all_stderr (w : world) (out : string) (l : list path) (c : Z)
    (io : io_state) (x : string) :
  x ∈ stderr io -> x ∈ stderr (convert_all E w out l c io).2.
Proof.
  revert c io. induction l as [|f l IH]; intros c io Hx; simpl; [done|].
  apply IH. rewrite process_pptx_file_stderr. apply elem_of_app. by left.
Qed.

Lemma convert_all_files (w : world) (out : string) (l : list path) (c : Z)
    (io : io_state) (fname : string) :
  Forall (fun g => md_filename g <> fname \/ ~ converts E w out g) l ->
  files (convert_all E w out l c io).2 !! (out, fname) = files io !! (out, fname).
Proof.
  revert c io. induction l as [|g l IH]; intros c io Hall; simpl; [done|].
  apply Forall_cons in Hall as [Hg Hall]. rewrite IH by done.
  rewrite process_pptx_file_files.
  destruct (convert E w g) as [md|e] eqn:Hc; [|done].
  destruct (open_error w out (md_filename g)) eqn:Ho; [done|].
  destruct Hg as [Hne|Hno].
  - apply lookup_insert_ne. congruence.
  - destruct Hno. by exists md.
Qed.

Lemma collect_path_files (w : world) (acc : list path) (io io' : io_state) (p : path) :
  (collect_path w (acc, io) p).1 = (collect_path w (acc, io') p).1.
Proof.
  unfold collect_path. destruct (negb (path_exists w p)); [done|].
  destruct (path_is_file w p).
  - by destruct (Str.eqb (lower (path_suffix p)) ".pptx").
  - by destruct (path_is_dir w p).
Qed.

Local Arguments collect_path : simpl never.

Lemma collect_files_io (w : world) (ps : list path) (acc : list path)
    (io io' : io_state) :
  (foldl (collect_path w) (acc, io) ps).1 = (foldl (collect_path w) (acc, io') ps).1.
Proof.
  revert acc io io'. induction ps as [|p ps IH]; intros acc io io'; simpl; [done|].
  pose proof (collect_path_files w acc io io' p) as H.
  destruct (collect_path w (acc, io) p) as [acc1 io1],
           (collect_path w (acc, io') p) as [acc2 io2].
  simpl in H. subst acc2. apply IH.
Qed.

Lemma collect_discovered (w : world) (a : args) (io : io_state) :
  (collect w a io).1 = discovered w a.
Proof. apply collect_files_io. Qed.

Lemma convert_all_reports (w : world) (out : string) (l1 l2 : list path) (f : path)
    (c : Z) (io : io_state) (e : exn) :
  conversion_error E w out f = Some e ->
  ("  -> Error: " +:+ exn_msg e) ∈ stderr (convert_all E w out (l1 ++ f :: l2) c io).2.
Proof.
  intros He. rewrite convert_all_app. simpl. apply convert_all_stderr.
  rewrite process_pptx_file_stderr, He. apply elem_of_app. right. by left.
Qed.

Lemma convert_all_writes (w : world) (out : string) (l1 l2 : list path) (f : path)
    (c : Z) (io : io_state) (md : string) :
  convert E w f = Ok md -> open_error w out (md_filename f) = None ->
  Forall (fun g => md_filename g <> md_filename f \/ ~ converts E w out g) l2 ->
  files (convert_all E w out (l1 ++ f :: l2) c io).2 !! (out, md_filename f) = Some md.
Proof.
  intros Hc Ho Hall. rewrite convert_all_app. simpl.
  rewrite convert_all_files by done.
  rewrite process_pptx_file_files, Hc, Ho. apply lookup_insert_eq.
Qed.

Lemma main_no_files (w : world) (a : args) (io : io_state) :
  discovered w a = [] ->
  main E w (Namespace a) io =
  (Returned 1, print_err "No PPTX files found to process." (collect w a io).2).
Proof.
  intros Hd. unfold main. pose proof (collect_discovered w a io) as Hc.
  destruct (collect w a io) as [fs io1]. simpl in Hc. rewrite Hd in Hc. by subst fs.
Qed.

Lemma main_mkdir_raises (w : world) (a : args) (io : io_state) (e : exn) :
  discovered w a <> [] -> prepare_output_dir w a = Some e ->
  main E w (Namespace a) io = (Raised e, (collect w a io).2).
Proof.
  intros Hd He. unfold main. pose proof (collect_discovered w a io) as Hc.
  destruct (collect w a io) as [fs io1]. simpl in Hc. rewrite <- Hc in Hd.
  destruct fs as [|f0 fs]; [done|]. by rewrite He.
Qed.

Lemma main_converts (w : world) (a : args) (io : io_state) :
  discovered w a <> [] -> prepare_output_dir w a = None ->
  main E w (Namespace a) io =
  let found := discovered w a in
  let total := Z.of_nat (length found) in
  let r := convert_all E w (output_dir_of a found) found 0
             (print_out ("Output directory: " +:+ output_dir_of a found +:+ Str.nl)
                (print_out ("Found " +:+ Str.of_Z total +:+ " PPTX file(s)")
                   (collect w a io).2)) in
  (Returned (if r.1 =? total then 0 else 1),
   print_out (Str.nl +:+ "Completed: " +:+ Str.of_Z r.1 +:+ "/" +:+ Str.of_Z total
              +:+ " files converted") r.2).
Proof.
  intros Hd He. unfold main. pose proof (collect_discovered w a io) as Hc.
  destruct (collect w a io) as [fs io1]. simpl in Hc. rewrite <- Hc in *. clear Hc.
  destruct fs as [|f0 fs]; [done|]. rewrite He. cbv zeta.
  by destruct (convert_all E w _ (f0 :: fs) 0 _) as [cnt io3].
Qed.

(** C6: the exit status of the batch driver is 0 exactly when at least one
    file was discovered, the output directory could be prepared and every
    discovered file converted without an error, and 1 otherwise; once the
    conversions start, the error of a file that fails is reported on the error
    stream, and a file that converts is written whatever happened to the files
    before it (a later file may overwrite it only by writing the same output
    name). *)
Theorem main_exit_status (w : world) (a : args) (io : io_state) :
  let found := discovered w a in
  let out := output_dir_of a found in
  let r := main E w (Namespace a) io in
  (exit_status r.1 = 0 \/ exit_status r.1 = 1) /\
  (exit_status r.1 = 0 <->
   found <> [] /\ prepare_output_dir w a = None /\ Forall (converts E w out) found) /\
  (forall l1 f l2 e,
     prepare_output_dir w a = None ->
     found = l1 ++ f :: l2 -> conversion_error E w out f = Some e ->
     ("  -> Error: " +:+ exn_msg e) ∈ stderr r.2) /\
  (forall l1 f l2 md,
     prepare_output_dir w a = None ->
     found = l1 ++ f :: l2 ->
     convert E w f = Ok md -> open_error w out (md_filename f) = None ->
     Forall (fun g => md_filename g <> md_filename f \/ ~ converts E w out g) l2 ->
     files r.2 !! (out, md_filename f) = Some md).
Proof.
  intros found out r. subst r.
  destruct (decide (found = [])) as [Hnil|Hne].
  { rewrite main_no_files by done. simpl. split; [by right|].
    split; [split; [done|by intros [? _]]|].
    split; intros l1 f l2 ? _ Hl; rewrite Hnil in Hl; by destruct l1. }
  destruct (prepare_output_dir w a) as [x|] eqn:Hmk.
  { rewrite (main_mkdir_raises w a io x) by done. simpl. split; [by right|].
    split; [split; [done|by intros (_ & ? & _)]|]. split; intros; done. }
  rewrite main_converts by done. cbv zeta. fold found. fold out.
  set (total := Z.of_nat (length found)).
  set (io2 := print_out _ (print_out _ (collect w a io).2)).
  pose proof (convert_all_count w out found 0 io2) as Hcount.
  pose proof (fun l1 f l2 e => convert_all_reports w out l1 l2 f 0 io2 e) as Hrep.
  pose proof (fun l1 f l2 md => convert_all_writes w out l1 l2 f 0 io2 md) as Hwr.
  destruct (convert_all E w out found 0 io2) as [cnt io3] eqn:Hca.
  cbn [fst snd] in *. cbn [print_out stderr files exit_status].
  split; [by destruct (cnt =? total); [left|right]|].
  split.
  - destruct (cnt =? total) eqn:Heq.
    + split; [intros _|done]. split; [done|]. split; [done|].
      apply Z.eqb_eq in Heq.
      assert (length (filter (fun f => conversion_error E w out f = None) found)
              = length found) as Hlen by (subst total; lia).
      apply filter_length_all in Hlen.
      eapply Forall_impl; [exact Hlen|]. intros f Hf. by apply converts_no_error.
    + split; [done|]. intros (_ & _ & Hall). apply Z.eqb_neq in Heq. destruct Heq.
      assert (length (filter (fun f => conversion_error E w out f = None) found)
              = length found) as Hlen; [|subst total; lia].
      apply filter_length_all.
      eapply Forall_impl; [exact Hall|]. intros f Hf. by apply converts_no_error.
  - split.
    + intros l1 f l2 e _ Hl He. specialize (Hrep l1 f l2 e He).
      rewrite <- Hl, Hca in Hrep. exact Hrep.
    + intros l1 f l2 md _ Hl Hc Ho Hall. specialize (Hwr l1 f l2 md Hc Ho Hall).
      rewrite <- Hl, Hca in Hwr. exact Hwr.
Qed.

(** *** Trimmed texts *)

Lemma rstrip_cons (c : ascii) (s : string) :
  Str.rstrip (String c s) =
  match Str.rstrip s with
  | "" => if Str.is_space c then "" else String c ""
  | String c' r => String c (String c' r)
  end.
Proof. reflexivity. Qed.

Lemma rstrip_idempotent (s : string) : Str.rstrip (Str.rstrip s) = Str.rstrip s.
Proof.
  induction s as [|c s IH]; [done|]. rewrite rstrip_cons.
  destruct (Str.rstrip s) as [|c' r] eqn:Hr.
  - destruct (Str.is_space c) eqn:Hc; [done|]. rewrite rstrip_cons. simpl. by rewrite Hc.
  - rewrite rstrip_cons, IH. done.
Qed.

Lemma rstrip_last (s : string) :
  match Str.rstrip s with
  | "" => True
  | String c r => Str.is_space (last_char c r) = false
  end.
Proof.
  induction s as [|c s IH]; [done|]. rewrite rstrip_cons.
  destruct (Str.rstrip s) as [|c' r]; [|exact IH].
  by destruct (Str.is_space c) eqn:Hc.
Qed.

Lemma rstrip_first (c : ascii) (s : string) :
  Str.is_space c = false -> exists r, Str.rstrip (String c s) = String c r.
Proof.
  intros Hc. rewrite rstrip_cons. destruct (Str.rstrip s) as [|c' r]; [|by eexists].
  rewrite Hc. by eexists.
Qed.

Lemma lstrip_first (s : string) :
  match Str.lstrip s with
  | "" => True
  | String c _ => Str.is_space c = false
  end.
Proof.
  induction s as [|c s IH]; [done|]. simpl.
  by destruct (Str.is_space c) eqn:Hc.
Qed.

Lemma lstrip_id (c : ascii) (s : string) :
  Str.is_space c = false -> Str.lstrip (String c s) = String c s.
Proof. intros Hc. simpl. by rewrite Hc. Qed.

Lemma strip_trimmed (s : string) : is_trimmed (Str.strip s).
Proof.
  unfold Str.strip. pose proof (lstrip_first s) as Hl.
  destruct (Str.lstrip s) as [|c t]; [done|].
  destruct (rstrip_first c t Hl) as [r Hr].
  pose proof (rstrip_last (String c t)) as Hlast. rewrite Hr in *. by split.
Qed.

Lemma strip_idempotent (s : string) : Str.strip (Str.strip s) = Str.strip s.
Proof.
  pose proof (strip_trimmed s) as Ht. unfold Str.strip at 1.
  destruct (Str.strip s) as [|c r] eqn:Hs; [done|]. destruct Ht as [Hc _].
  rewrite lstrip_id by done. rewrite <- Hs. unfold Str.strip. apply rstrip_idempotent.
Qed.

Lemma stripped_text_trimmed (s : shape) : is_trimmed (stripped_text s).
Proof. unfold stripped_text. destruct (text s); [apply strip_trimmed|done]. Qed.

Lemma first_stripped_text_trimmed (test : shape -> bool) (l : list shape) (t : string) :
  first_stripped_text test l = Some t -> is_trimmed t.
Proof.
  intros (l1 & s & l2 & _ & _ & _ & ->)%first_stripped_text_Some.
  apply stripped_text_trimmed.
Qed.

(** X1: the title of a slide never begins or ends with white space. *)
Theorem get_slide_title_trimmed (sl : slide) : is_trimmed (get_slide_title E sl).
Proof.
  unfold get_slide_title.
  destruct (first_stripped_text (is_title_placeholder E) (shapes sl)) as [t|] eqn:H1.
  { by eapply first_stripped_text_trimmed. }
  destruct (first_stripped_text is_fallback_title (shapes sl)) as [t|] eqn:H2.
  { by eapply first_stripped_text_trimmed. }
  by vm_compute.
Qed.

(** X2: when no shape of the slide is a placeholder of type 14 or 15 with
    text, the title is under 100 characters and holds no line-feed character
    (the only separator the source tests for: a vertical tab, a carriage
    return and the like may remain). *)
Theorem fallback_title_short_single_line (sl : slide) :
  Forall (fun s => ~ title_placeholder E s) (shapes sl) ->
  (String.length (get_slide_title E sl) < 100)%nat /\
  Str.has_char Str.LF (get_slide_title E sl) = false.
Proof.
  intros Hno. apply (Forall_not_test _ _ _ is_title_placeholder_spec) in Hno.
  apply first_stripped_text_None in Hno. unfold get_slide_title. rewrite Hno.
  destruct (first_stripped_text is_fallback_title (shapes sl)) as [t|] eqn:H2.
  - apply first_stripped_text_Some in H2 as (l1 & s & l2 & _ & _ & Hs & ->).
    apply is_fallback_title_spec in Hs as (tx & Htx & _ & Hlen & Hnl).
    unfold stripped_text. rewrite Htx. by split.
  - split; [simpl; lia|reflexivity].
Qed.

Lemma table_Some (s : shape) (rows : list (list string)) :
  table s = Some rows <-> table_attr s = Ok (Some rows).
Proof.
  unfold table. destruct (table_attr s) as [[r|]|e]; split; try done; by intros [= ->].
Qed.

(** X3: the grid extracted from a table has the rows of the table, each
    with as many cells as the table row, and every cell is trimmed; trimming
    the cells again changes nothing. *)
Theorem extract_table_data_trimmed (s : shape) (rows : list (list string)) :
  table s = Some rows ->
  exists grid, extract_table_data s = Ok grid /\
    Forall2 (fun row cells => length cells = length row /\ Forall is_trimmed cells)
      rows grid /\
    map (map Str.strip) grid = grid.
Proof.
  intros Ht. apply table_Some in Ht. exists (map (map Str.strip) rows).
  split; [|split].
  - unfold extract_table_data, hasattr_table. by rewrite Ht.
  - clear Ht. induction rows as [|row rows IH]; simpl; [constructor|].
    constructor; [|exact IH]. split; [by rewrite length_map|].
    induction row as [|c row IHr]; simpl; [constructor|].
    constructor; [apply strip_trimmed|exact IHr].
  - rewrite map_map. apply map_ext. intros row. rewrite map_map.
    apply map_ext. intros c. apply strip_idempotent.
Qed.

(** *** Paragraph extraction *)

Lemma for_each_app {A S : Type} (body : S -> A -> exc S) (l1 l2 : list A) (st : S) :
  for_each body (l1 ++ l2) st = let* st' := for_each body l1 st in for_each body l2 st'.
Proof.
  revert st. induction l1 as [|x l1 IH]; intros st; simpl; [done|].
  destruct (body st x) as [st1|e]; simpl; [apply IH|done].
Qed.

Lemma extract_paragraph_blank (acc : list para_info) (p : paragraph) :
  is_retained p = false -> extract_paragraph acc p = Ok acc.
Proof. unfold is_retained, extract_paragraph. by intros ->. Qed.

Lemma check_bullet_raises (p : paragraph) (info : para_info) (e : exn) :
  par_pPr p = Raise e -> is_AttributeError e = false -> check_bullet p info = Raise e.
Proof. intros Hp He. unfold check_bullet. rewrite Hp. simpl. by rewrite He. Qed.

(** X4: only [AttributeError] is recovered from: when the lookup of the
    properties of a non-blank paragraph raises another exception and the
    lookups before it are recoverable, [extract_paragraphs] raises that
    exception. *)
Theorem extract_paragraphs_propagates (s : shape) (l1 l2 : list paragraph)
    (p : paragraph) (e : exn) :
  text_frame s = Some (l1 ++ p :: l2) ->
  Forall lookup_recoverable l1 ->
  is_retained p = true -> par_pPr p = Raise e -> is_AttributeError e = false ->
  extract_paragraphs s = Raise e.
Proof.
  intros Htf Hall Hr Hp He. unfold extract_paragraphs. rewrite Htf, for_each_app.
  destruct (extract_paragraph_loop l1 [] Hall) as (infos & -> & _). simpl.
  unfold extract_paragraph at 1. unfold is_retained in Hr. rewrite Hr. simpl.
  by rewrite (check_bullet_raises p _ e).
Qed.

(** X5: a paragraph whose trimmed text is empty is passed over before its
    properties are looked up: with or without it the shape yields the same
    records or the same exception. *)
Theorem blank_paragraph_passed_over (s s' : shape) (l1 l2 : list paragraph)
    (p : paragraph) :
  text_frame s = Some (l1 ++ p :: l2) -> text_frame s' = Some (l1 ++ l2) ->
  is_retained p = false ->
  extract_paragraphs s = extract_paragraphs s'.
Proof.
  intros Hs Hs' Hp. unfold extract_paragraphs. rewrite Hs, Hs', !for_each_app.
  destruct (for_each extract_paragraph l1 []) as [acc|e]; simpl; [|done].
  by rewrite extract_paragraph_blank.
Qed.

Lemma check_bullet_fields (p : paragraph) (info info' : para_info) :
  check_bullet p info = Ok info' ->
  pi_text info' = pi_text info /\ pi_level info' = pi_level info /\
  pi_font_size info' = pi_font_size info /\
  pi_used_as_header info' = pi_used_as_header info.
Proof.
  unfold check_bullet. destruct (par_pPr p) as [[e|]|x]; simpl.
  - destruct (declares_bullet e); by intros [= <-].
  - by intros [= <-].
  - destruct (is_AttributeError x); [|done]. by intros [= <-].
Qed.

Lemma check_font_size_fields (p : paragraph) (info : para_info) :
  pi_font_size info = None ->
  pi_text (check_font_size p info) = pi_text info /\
  pi_level (check_font_size p info) = pi_level info /\
  pi_font_size (check_font_size p info) = recorded_font_size p /\
  pi_used_as_header (check_font_size p info) = pi_used_as_header info.
Proof.
  intros Hf. unfold check_font_size, recorded_font_size.
  destruct (par_runs p) as [|r ?]; [done|].
  destruct (run_font_size r) as [sz|]; [|done].
  destruct (decide (sz = 0)) as [->|Hne]; [done|].
  apply Z.eqb_neq in Hne. by rewrite Hne.
Qed.

Lemma extract_paragraph_records (ps : list paragraph) (acc res : list para_info) :
  for_each extract_paragraph ps acc = Ok res ->
  exists infos, res = acc ++ infos /\
    Forall2 record_of (filter (fun p => is_retained p = true) ps) infos.
Proof.
  revert acc. induction ps as [|p ps IH]; intros acc; simpl.
  { intros [= <-]. exists []. by rewrite app_nil_r. }
  rewrite filter_cons.
  destruct (decide (is_retained p = true)) as [Hr|Hr].
  - unfold extract_paragraph at 1. unfold is_retained in Hr. rewrite Hr. simpl.
    destruct (check_bullet p _) as [info|e] eqn:Hcb; simpl; [|done].
    intros Hrest. destruct (IH _ Hrest) as (infos & -> & HF).
    exists (check_font_size p info :: infos). split; [by rewrite <- app_assoc|].
    constructor; [|done].
    apply check_bullet_fields in Hcb as (Ht & Hl & Hf & Hu). simpl in *.
    destruct (check_font_size_fields p info Hf) as (Ht' & Hl' & Hf' & Hu').
    unfold record_of. rewrite Ht', Hl', Hf', Hu', Ht, Hl, Hu.
    split_and!; try done. by apply truthy_spec.
  - apply not_true_is_false in Hr. rewrite extract_paragraph_blank by done. simpl.
    apply IH.
Qed.

(** X6: when [extract_paragraphs] returns, it returns one record for each
    paragraph with a non-blank text, in order: the record holds the trimmed
    text, which is not empty, the level of the paragraph, the font size of
    its first run in points (none when that size is absent or zero), and is
    not marked as used for a heading. *)
Theorem extract_paragraphs_records (s : shape) (ps : list paragraph)
    (infos : list para_info) :
  text_frame s = Some ps -> extract_paragraphs s = Ok infos ->
  Forall2 record_of (filter (fun p => is_retained p = true) ps) infos.
Proof.
  intros Htf. unfold extract_paragraphs. rewrite Htf. intros H.
  by destruct (extract_paragraph_records ps [] infos H) as (infos' & -> & HF).
Qed.

(** *** Escaping *)

Lemma append_cons (c : ascii) (s t : string) : String c s +:+ t = String c (s +:+ t).
Proof. reflexivity. Qed.

Lemma append_nil_l (t : string) : "" +:+ t = t.
Proof. reflexivity. Qed.

Lemma append_assoc (s t u : string) : (s +:+ t) +:+ u = s +:+ (t +:+ u).
Proof. induction s as [|c s IH]; [done|]. by rewrite !append_cons, IH. Qed.

Lemma sanitize_cons (a : ascii) (s : string) :
  sanitize_markdown (String a s) =
  if Ascii.eqb a Str.backslash
  then String Str.backslash (String Str.backslash (sanitize_markdown s))
  else String a (sanitize_markdown s).
Proof. unfold sanitize_markdown. simpl. by destruct (Ascii.eqb a Str.backslash). Qed.

Lemma sanitize_injective (t1 t2 : string) :
  sanitize_markdown t1 = sanitize_markdown t2 -> t1 = t2.
Proof.
  revert t2. induction t1 as [|a1 t1 IH]; intros [|a2 t2].
  - done.
  - rewrite sanitize_cons. by destruct (Ascii.eqb a2 Str.backslash).
  - rewrite sanitize_cons. by destruct (Ascii.eqb a1 Str.backslash).
  - rewrite !sanitize_cons.
    destruct (Ascii.eqb a1 Str.backslash) eqn:H1, (Ascii.eqb a2 Str.backslash) eqn:H2.
    + apply Ascii.eqb_eq in H1, H2. subst. intros [= H]. f_equal. by apply IH.
    + intros [= <- H]. by rewrite Ascii.eqb_refl in H2.
    + intros [= -> H]. by rewrite Ascii.eqb_refl in H1.
    + intros [= -> H]. f_equal. by apply IH.
Qed.

Lemma sanitize_no_backslash (t : string) :
  Str.has_char Str.backslash t = false -> sanitize_markdown t = t.
Proof.
  induction t as [|a t IH]; [done|]. simpl. intros [Ha Ht]%orb_false_iff.
  rewrite sanitize_cons, Ha. f_equal. by apply IH.
Qed.

Lemma sanitize_length (t : string) :
  String.length (sanitize_markdown t) = (String.length t + count_char Str.backslash t)%nat.
Proof.
  induction t as [|a t IH]; [done|]. rewrite sanitize_cons. simpl.
  destruct (Ascii.eqb a Str.backslash); simpl; rewrite IH; lia.
Qed.

(** X7: escaping loses nothing: two different texts never escape to the
    same text; the escaped text is longer than the text by its number of
    backslashes, and a text without backslash is left as it is. *)
Theorem sanitize_markdown_reversible (t : string) :
  (forall t', sanitize_markdown t = sanitize_markdown t' -> t = t') /\
  String.length (sanitize_markdown t) = (String.length t + count_char Str.backslash t)%nat /\
  (Str.has_char Str.backslash t = false -> sanitize_markdown t = t).
Proof.
  split; [intros t'; apply sanitize_injective|].
  split; [apply sanitize_length|apply sanitize_no_backslash].
Qed.

Lemma bare_pipes_app (e : bool) (s t : string) :
  bare_pipes e (s +:+ t) = (bare_pipes e s + bare_pipes (ends_escaped e s) t)%nat.
Proof.
  revert e. induction s as [|a s IH]; intros e; [done|]. rewrite append_cons. simpl.
  destruct e; [apply IH|].
  destruct (Ascii.eqb a Str.backslash); [apply IH|]. rewrite IH. lia.
Qed.

Lemma ends_escaped_app (e : bool) (s t : string) :
  ends_escaped e (s +:+ t) = ends_escaped (ends_escaped e s) t.
Proof.
  revert e. induction s as [|a s IH]; intros e; [done|]. rewrite append_cons. simpl.
  destruct e; [apply IH|]. destruct (Ascii.eqb a Str.backslash); apply IH.
Qed.

Lemma cell_markdown_cons (a : ascii) (c : string) :
  cell_markdown (String a c) =
  if Ascii.eqb a Str.backslash
  then String Str.backslash (String Str.backslash (cell_markdown c))
  else if Ascii.eqb a Str.pipe
       then String Str.backslash (String Str.pipe (cell_markdown c))
       else String a (cell_markdown c).
Proof.
  unfold cell_markdown. rewrite sanitize_cons.
  destruct (Ascii.eqb a Str.backslash) eqn:Hb.
  - reflexivity.
  - simpl. by destruct (Ascii.eqb a Str.pipe).
Qed.

Lemma cell_markdown_escaped (c : string) :
  bare_pipes false (cell_markdown c) = 0%nat /\ ends_escaped false (cell_markdown c) = false.
Proof.
  induction c as [|a c [IH1 IH2]]; [done|]. rewrite cell_markdown_cons.
  destruct (Ascii.eqb a Str.backslash) eqn:Hb; [done|].
  destruct (Ascii.eqb a Str.pipe) eqn:Hp; [done|].
  simpl. by rewrite Hb, Hp.
Qed.

Lemma joined_cells_pipes (cells : list string) :
  bare_pipes false (Str.join " | " (map cell_markdown cells)) = pred (length cells) /\
  ends_escaped false (Str.join " | " (map cell_markdown cells)) = false.
Proof.
  induction cells as [|c cells [IH1 IH2]]; [done|].
  destruct (cell_markdown_escaped c) as [Hc1 Hc2].
  destruct cells as [|c' cells]; [done|].
  change (Str.join " | " (map cell_markdown (c :: c' :: cells)))
    with (cell_markdown c +:+ " | " +:+ Str.join " | " (map cell_markdown (c' :: cells))).
  rewrite !bare_pipes_app, !ends_escaped_app, Hc1, Hc2.
  change (ends_escaped false " | ") with false.
  change (bare_pipes false " | ") with 1%nat.
  by rewrite IH1, IH2.
Qed.

(** X8: in a rendered table row the pipes that are not escaped are the
    column separators and nothing else: a row of [n] cells, [n] at least 1,
    has [n + 1] of them whatever the cells hold, and the row does not end in
    a pending backslash. *)
Theorem row_markdown_separators (row : list string) :
  row <> [] ->
  bare_pipes false (row_markdown row) = S (length row) /\
  ends_escaped false (row_markdown row) = false.
Proof.
  intros Hne. unfold row_markdown.
  destruct (joined_cells_pipes row) as [H1 H2].
  rewrite !bare_pipes_app, !ends_escaped_app.
  change (ends_escaped false "| ") with false.
  change (bare_pipes false "| ") with 1%nat.
  rewrite H1, H2.
  change (ends_escaped false " |") with false.
  change (bare_pipes false " |") with 1%nat.
  destruct row as [|c row]; [done|]. simpl. split; [lia|done].
Qed.

(** *** Tables *)

Lemma table_to_markdown_rows (first : list string) (rest : list (list string)) :
  first <> [] ->
  table_to_markdown (first :: rest) =
  Str.join Str.nl
    (row_markdown first
     :: ("|" +:+ Str.join "|" (replicate (length first) "---") +:+ "|")
     :: map row_markdown rest).
Proof.
  intros Hne. destruct first as [|c first]; [done|].
  unfold table_to_markdown, row_markdown. by rewrite length_map.
Qed.

Lemma join_cons2 (sep x y : string) (ls : list string) :
  Str.join sep (x :: y :: ls) = x +:+ sep +:+ Str.join sep (y :: ls).
Proof. reflexivity. Qed.

(** X9: [table_to_markdown] returns the empty text for a grid without rows
    and for a grid whose first row has no cells, and for no other grid. *)
Theorem table_to_markdown_empty_iff (table_data : list (list string)) :
  table_to_markdown table_data = "" <->
  table_data = [] \/ exists rest, table_data = [] :: rest.
Proof.
  split.
  - destruct table_data as [|first rest]; [by left|].
    destruct first as [|c first]; [right; by exists rest|].
    rewrite table_to_markdown_rows by done. rewrite join_cons2.
    unfold row_markdown. by rewrite append_cons.
  - intros [->|[rest ->]]; reflexivity.
Qed.

Lemma count_char_app (x : ascii) (s t : string) :
  count_char x (s +:+ t) = (count_char x s + count_char x t)%nat.
Proof. induction s as [|a s IH]; [done|]. rewrite append_cons. simpl. rewrite IH. lia. Qed.

Lemma count_char_join (x : ascii) (sep : string) (ls : list string) :
  count_char x (Str.join sep ls) =
  (sum_list_with (count_char x) ls + pred (length ls) * count_char x sep)%nat.
Proof.
  induction ls as [|s ls IH]; [done|].
  destruct ls as [|s' ls]; [simpl; lia|].
  rewrite join_cons2, !count_char_app, IH. simpl. lia.
Qed.

Lemma count_LF_cell (c : string) :
  count_char Str.LF (cell_markdown c) = count_char Str.LF c.
Proof.
  induction c as [|a c IH]; [done|]. rewrite cell_markdown_cons.
  destruct (Ascii.eqb a Str.backslash) eqn:Hb.
  { apply Ascii.eqb_eq in Hb as ->. simpl. by rewrite IH. }
  destruct (Ascii.eqb a Str.pipe) eqn:Hp.
  { apply Ascii.eqb_eq in Hp as ->. simpl. by rewrite IH. }
  simpl. by rewrite IH.
Qed.

Lemma count_LF_row (row : list string) :
  count_char Str.LF (row_markdown row) = sum_list_with (count_char Str.LF) row.
Proof.
  unfold row_markdown. rewrite !count_char_app, count_char_join.
  change (count_char Str.LF "| ") with 0%nat.
  change (count_char Str.LF " | ") with 0%nat.
  change (count_char Str.LF " |") with 0%nat.
  rewrite Nat.mul_0_r, !Nat.add_0_r. simpl.
  induction row as [|c row IH]; [done|]. simpl. by rewrite count_LF_cell, IH.
Qed.

Lemma count_LF_separator (n : nat) :
  count_char Str.LF ("|" +:+ Str.join "|" (replicate n "---") +:+ "|") = 0%nat.
Proof.
  rewrite !count_char_app, count_char_join.
  change (count_char Str.LF "|") with 0%nat.
  rewrite Nat.mul_0_r, !Nat.add_0_r. simpl.
  induction n as [|n IH]; [done|]. simpl. exact IH.
Qed.

(** X10: the text of a table with a non-empty first row has one line break
    for each row of the grid (a header line, a separator line and a line for
    each further row), plus the line breaks held by the cells, which pass
    through as they are. *)
Theorem table_to_markdown_line_breaks (first : list string) (rest : list (list string)) :
  first <> [] ->
  count_char Str.LF (table_to_markdown (first :: rest)) =
  (length (first :: rest)
   + sum_list_with (sum_list_with (count_char Str.LF)) (first :: rest))%nat.
Proof.
  intros Hne. rewrite table_to_markdown_rows by done.
  rewrite count_char_join. change (count_char Str.LF Str.nl) with 1%nat.
  cbn [sum_list_with length pred].
  rewrite count_LF_row, count_LF_separator, length_map.
  assert (sum_list_with (count_char Str.LF) (map row_markdown rest)
          = sum_list_with (sum_list_with (count_char Str.LF)) rest) as ->; [|lia].
  induction rest as [|row rest IH]; [done|].
  cbn [map sum_list_with]. by rewrite count_LF_row, IH.
Qed.

(** *** Shape descriptions *)

Lemma foldl_insert_lookup {K V A : Type} `{Countable K} (key : A -> K) (val : A -> V)
    (l : list A) (m : gmap K V) (k : K) :
  foldl (fun d x => <[ key x := val x ]> d) m l !! k =
  match last (filter (fun x => key x = k) l) with
  | Some x => Some (val x)
  | None => m !! k
  end.
Proof.
  revert m. induction l as [|a l IH]; intros m; simpl; [done|].
  rewrite IH, filter_cons. destruct (decide (key a = k)) as [Hk|Hk].
  - rewrite last_cons. destruct (last (filter _ l)); [done|].
    rewrite <- Hk. apply lookup_insert_eq.
  - destruct (last (filter _ l)); [done|]. by apply lookup_insert_ne.
Qed.

Lemma append_nil_r (s : string) : s +:+ "" = s.
Proof. induction s as [|c s IH]; [done|]. by rewrite append_cons, IH. Qed.

Lemma append_nonempty_l (s t : string) : s <> "" -> s +:+ t <> "".
Proof. destruct s; [done|]. by rewrite append_cons. Qed.

(** X11: the description of a shape is the label of the last attribute
    name in the list that the enumeration maps to the type of the shape, or
    the generic label when there is none, followed by the name of the shape
    in parentheses when it has a non-empty one: of two names with the same
    enumeration value, or both missing from the enumeration, the later one
    gives the label. *)
Theorem get_shape_description_label (s : shape) :
  get_shape_description E s = base_label E s +:+ name_suffix s.
Proof.
  unfold get_shape_description, base_label, name_suffix, descriptions.
  rewrite (foldl_insert_lookup (fun nl => mso_getattr E nl.1) snd).
  rewrite lookup_empty.
  destruct (last _) as [nl|]; simpl;
    (destruct (name s) as [n|]; [destruct (Str.truthy n)|]; by rewrite ?append_nil_r).
Qed.

Lemma base_label_nonempty (s : shape) : base_label E s <> "".
Proof.
  unfold base_label.
  destruct (last _) as [nl|] eqn:Hl; [|by rewrite append_cons].
  apply last_Some_elem_of in Hl. apply list_elem_of_filter in Hl as [_ Hin].
  assert (Forall (fun nl : string * string => nl.2 <> "") shape_labels) as HF.
  { unfold shape_labels. repeat constructor; done. }
  rewrite Forall_forall in HF. by apply HF.
Qed.

Lemma get_shape_description_truthy (s : shape) :
  Str.truthy (get_shape_description E s) = true.
Proof.
  apply truthy_spec. unfold get_shape_description, descriptions.
  pose proof (base_label_nonempty s) as Hb. unfold base_label in Hb.
  rewrite (foldl_insert_lookup (fun nl => mso_getattr E nl.1) snd), lookup_empty.
  destruct (last _) as [nl|]; simpl in *;
    (destruct (name s) as [n|]; [destruct (Str.truthy n)|]; try done;
     by apply append_nonempty_l).
Qed.

Lemma process_shape_probed (title : string) (st st' : slide_state) (s : shape) :
  process_shape E title st s = Ok st' -> has_content_probe s = Ok (has_content s).
Proof.
  intros H. destruct (has_content_probe s) as [b|e] eqn:Hp.
  - by rewrite (has_content_probe_returns s b Hp).
  - by rewrite (process_shape_probe_raises _ _ _ e Hp) in H.
Qed.

Lemma process_shape_other_shapes (title : string) (st st' : slide_state) (s : shape) :
  process_shape E title st s = Ok st' ->
  other_shapes st' =
  other_shapes st ++ (if has_content s then [] else [get_shape_description E s]).
Proof.
  intros H1. pose proof (process_shape_probed _ _ _ _ H1) as Hp.
  destruct (has_content s) eqn:Hc.
  - rewrite app_nil_r. unfold process_shape in H1. rewrite Hp in H1. simpl in H1.
    destruct (negb (title_shape_found st) && bool_decide (text s <> None)
              && title_match title s).
    + by injection H1 as <-.
    + by apply extract_content_other_shapes in H1.
  - rewrite process_shape_decorative, get_shape_description_truthy in H1 by done.
    by injection H1 as <-.
Qed.

Lemma shape_loop_decorative (title : string) (l : list shape) (st st' : slide_state) :
  for_each (process_shape E title) l st = Ok st' ->
  other_shapes st' =
  other_shapes st ++ map (get_shape_description E) (filter (fun s => has_content s = false) l).
Proof.
  revert st. induction l as [|s l IH]; intros st; simpl.
  { intros [= <-]. by rewrite app_nil_r. }
  destruct (process_shape E title st s) as [st1|e] eqn:H1; simpl; [|done].
  intros Hrest. rewrite (IH _ Hrest), filter_cons.
  rewrite (process_shape_other_shapes _ _ _ _ H1), <- app_assoc. f_equal.
  destruct (decide (has_content s = false)) as [Hc|Hc].
  - by rewrite Hc.
  - apply not_false_is_true in Hc. by rewrite Hc.
Qed.

(** X12: no description is empty, so every shape without text and table
    is recorded: when the shape loop of a slide returns, the decorative list
    holds the descriptions of exactly these shapes, in their order, each as
    often as it occurs. *)
Theorem decorative_shapes_all_recorded (sl : slide) (st : slide_state) :
  (forall s, get_shape_description E s <> "") /\
  (for_each (process_shape E (get_slide_title E sl)) (shapes sl) (init_state false) = Ok st ->
   other_shapes st = decorative_descriptions E sl).
Proof.
  split.
  - intros s. apply truthy_spec, get_shape_description_truthy.
  - intros H. by rewrite (shape_loop_decorative _ _ _ _ H).
Qed.

(** X13: the lines under "Visual Elements" list each different description
    once, however many shapes share it; without decorative shapes there is
    no such block at all. *)
Theorem visual_elements_deduplicated (iter : gset string -> list string)
    (others : list string) :
  valid_set_iter iter ->
  (others = [] /\ other_lines iter others = []) \/
  (exists L, other_lines iter others =
             [Str.nl +:+ "## Visual Elements" +:+ Str.nl]
             ++ map (fun desc => "- " +:+ desc) L ++ [""] /\
             NoDup L /\ forall d, d ∈ L <-> d ∈ others).
Proof.
  intros Hv. destruct others as [|d0 others]; [by left|right].
  exists (iter (list_to_set (d0 :: others))). split; [done|].
  specialize (Hv (list_to_set (d0 :: others))). split.
  - rewrite Hv. apply NoDup_elements.
  - intros d. rewrite Hv, elem_of_elements. apply elem_of_list_to_set.
Qed.

(** *** Determinism *)

Lemma process_slide_set_order (iter1 iter2 : gset string -> list string)
    (sl : slide) (n : Z) :
  valid_set_iter iter1 -> valid_set_iter iter2 ->
  iter1 (list_to_set (decorative_descriptions E sl)) =
  iter2 (list_to_set (decorative_descriptions E sl)) \/
  uniform (decorative_descriptions E sl) ->
  process_slide E iter1 sl n = process_slide E iter2 sl n.
Proof.
  intros H1 H2 Hcase. unfold process_slide.
  destruct (for_each _ (shapes sl) _) as [st|e] eqn:Hloop; simpl; [|done].
  f_equal. unfold render_slide. do 4 f_equal.
  apply shape_loop_decorative in Hloop. simpl in Hloop.
  fold (decorative_descriptions E sl) in Hloop. rewrite Hloop.
  unfold other_lines.
  assert (iter1 (list_to_set (decorative_descriptions E sl)) =
          iter2 (list_to_set (decorative_descriptions E sl))) as ->; [|done].
  destruct Hcase as [?|Hu]; [done|by apply set_iter_uniform].
Qed.

Lemma slides_markdown_set_order (w1 w2 : world) (sls : list slide) (idx : Z) :
  valid_set_iter (set_iter w1) -> valid_set_iter (set_iter w2) ->
  Forall (fun sl => same_order_on w1 w2 (decorative_descriptions E sl) \/
                    uniform (decorative_descriptions E sl)) sls ->
  slides_markdown E w1 sls idx = slides_markdown E w2 sls idx.
Proof.
  intros H1 H2. revert idx. induction sls as [|sl sls IH]; intros idx Hall; simpl; [done|].
  apply Forall_cons in Hall as [Hhd Htl].
  by rewrite (process_slide_set_order _ _ sl (idx + 1) H1 H2 Hhd), (IH _ Htl).
Qed.

(** C8 (amended): two runs on the same presentation write the same text
    when, for every slide, they iterate in the same order over the set of the
    descriptions of its decorative shapes; this is so in particular, whatever
    the orders of the two runs, for a slide that has no two different
    decorative-shape descriptions. *)
Theorem conversion_deterministic_given_set_order (w1 w2 : world) (f : path)
    (prs : presentation) :
  valid_set_iter (set_iter w1) -> valid_set_iter (set_iter w2) ->
  Forall (fun sl => same_order_on w1 w2 (decorative_descriptions E sl) \/
                    uniform (decorative_descriptions E sl)) (slides prs) ->
  document_markdown E w1 f prs = document_markdown E w2 f prs.
Proof.
  intros H1 H2 Hall. unfold document_markdown.
  by rewrite (slides_markdown_set_order w1 w2 (slides prs) 0 H1 H2 Hall).
Qed.

(** *** Exceptions of a slide *)

Lemma for_each_raise {A S : Type} (body : S -> A -> exc S) (l : list A) (st : S) (e : exn) :
  for_each body l st = Raise e -> exists st' x, x ∈ l /\ body st' x = Raise e.
Proof.
  revert st. induction l as [|x l IH]; intros st; simpl; [done|].
  destruct (body st x) as [st1|e1] eqn:Hx; simpl.
  - intros (st' & y & Hy & Hb)%IH. exists st', y. split; [by right|done].
  - intros [= ->]. exists st, x. split; [by left|done].
Qed.

Lemma extract_paragraph_raise (acc : list para_info) (p : paragraph) (e : exn) :
  extract_paragraph acc p = Raise e ->
  is_retained p = true /\ par_pPr p = Raise e /\ is_AttributeError e = false.
Proof.
  unfold extract_paragraph, is_retained.
  destruct (Str.truthy (Str.strip (par_text p))); simpl; [|done].
  unfold check_bullet. destruct (par_pPr p) as [[x|]|x]; simpl; [done..|].
  destruct (is_AttributeError x) eqn:Hx; simpl; [done|]. by intros [= <-].
Qed.

Lemma extract_paragraphs_raise (s : shape) (e : exn) :
  extract_paragraphs s = Raise e ->
  exists ps p, text_frame s = Some ps /\ p ∈ ps /\ is_retained p = true /\
               par_pPr p = Raise e /\ is_AttributeError e = false.
Proof.
  unfold extract_paragraphs. destruct (text_frame s) as [ps|]; [|done].
  intros (acc & p & Hp & Hr)%for_each_raise.
  apply extract_paragraph_raise in Hr as (? & ? & ?). by exists ps, p.
Qed.

Lemma hasattr_table_raise (s : shape) (e : exn) :
  hasattr_table s = Raise e -> table_attr s = Raise e /\ is_AttributeError e = false.
Proof.
  unfold hasattr_table. destruct (table_attr s) as [[g|]|x]; [done..|].
  destruct (is_AttributeError x) eqn:Hx; [done|]. by intros [= <-].
Qed.

Lemma extract_table_data_raise (s : shape) (e : exn) :
  extract_table_data s = Raise e -> table_attr s = Raise e /\ is_AttributeError e = false.
Proof.
  unfold extract_table_data.
  destruct (hasattr_table s) as [[|]|x] eqn:Hh; simpl; [|done|].
  - apply hasattr_table_true in Hh. unfold table in Hh.
    by destruct (table_attr s) as [[g|]|y].
  - intros [= ->]. by apply hasattr_table_raise.
Qed.

Lemma process_shape_raise (title : string) (st : slide_state) (s : shape) (e : exn) :
  process_shape E title st s = Raise e ->
  is_AttributeError e = false /\
  (table_attr s = Raise e \/
   exists ps p, text_frame s = Some ps /\ p ∈ ps /\ is_retained p = true /\
                par_pPr p = Raise e).
Proof.
  unfold process_shape.
  destruct (has_content_probe s) as [[|]|x] eqn:Hp; simpl.
  - destruct (_ && _ && _); [done|]. unfold extract_content.
    destruct (hasattr_table s) as [[|]|y] eqn:Hh; simpl.
    + destruct (extract_table_data s) as [td|y] eqn:Ht; simpl; [done|].
      intros [= ->]. apply extract_table_data_raise in Ht as [? ?]. split; [done|by left].
    + destruct (extract_paragraphs s) as [ps|y] eqn:He; simpl; [done|].
      intros [= ->]. apply extract_paragraphs_raise in He as (ps & p & ? & ? & ? & ? & ?).
      split; [done|]. right. by exists ps, p.
    + intros [= ->]. apply hasattr_table_raise in Hh as [? ?]. split; [done|by left].
  - by destruct (Str.truthy _).
  - intros [= ->]. unfold has_content_probe in Hp.
    destruct (has_stripped_text s); [done|].
    apply hasattr_table_raise in Hp as [? ?]. split; [done|by left].
Qed.

Lemma process_shape_returns (title : string) (st : slide_state) (s : shape) :
  recoverable_shape s -> table_recoverable s ->
  exists st', process_shape E title st s = Ok st'.
Proof.
  intros Hrec Htb. destruct (process_shape E title st s) as [st'|e] eqn:H; [by eexists|].
  apply process_shape_raise in H as [He [Ht|(ps & p & Htf & Hp & Hret & Hr)]].
  - specialize (Htb e Ht). unfold is_AttributeError in He. by rewrite Htb in He.
  - specialize (Hrec ps Htf). rewrite Forall_forall in Hrec.
    specialize (Hrec p Hp Hret e Hr). unfold is_AttributeError in He.
    by rewrite Hrec in He.
Qed.

(** X14: rendering a slide raises only what a lookup on one of its shapes
    raised: it returns a text when every lookup of the properties of a
    non-blank paragraph and every read of a table property on the slide
    succeeds or fails with [AttributeError]; an exception it raises is one, other than
    [AttributeError], raised by the table property of a shape of the slide or
    by the lookup of the properties of a non-blank paragraph of the slide. *)
Theorem process_slide_raises_only_lookup_errors iter (sl : slide) (n : Z) :
  (recoverable_slide sl -> Forall table_recoverable (shapes sl) ->
   exists md, process_slide E iter sl n = Ok md) /\
  (forall e, process_slide E iter sl n = Raise e ->
     is_AttributeError e = false /\
     exists s, s ∈ shapes sl /\
       (table_attr s = Raise e \/
        exists ps p, text_frame s = Some ps /\ p ∈ ps /\ is_retained p = true /\
                     par_pPr p = Raise e)).
Proof.
  unfold process_slide, recoverable_slide. split.
  - generalize (init_state false). generalize (get_slide_title E sl).
    induction (shapes sl) as [|s l IH]; intros title st Hall Htb; simpl; [by eexists|].
    apply Forall_cons in Hall as [Hs Hall]. apply Forall_cons in Htb as [Ht Htb].
    destruct (process_shape_returns title st s Hs Ht) as [st' ->]. simpl. by apply IH.
  - intros e. destruct (for_each _ (shapes sl) _) as [st|e'] eqn:Hl; simpl; [done|].
    intros [= ->]. apply for_each_raise in Hl as (st' & s & Hs & Hr).
    apply process_shape_raise in Hr as [He Hr]. split; [done|]. by exists s.
Qed.

(** *** The shape that gives the title *)

Lemma shape_loop_found (title : string) (l : list shape) (st st' : slide_state) :
  for_each (process_shape E title) l st = Ok st' ->
  title_shape_found st = true \/ (exists s, s ∈ l /\ skipped_as_title title s = true) ->
  title_shape_found st' = true.
Proof.
  revert st. induction l as [|s l IH]; intros st; simpl.
  { intros [= <-] [H|(s & Hs & _)]; [done|]. by apply elem_of_nil in Hs. }
  destruct (process_shape E title st s) as [st1|e] eqn:H1; simpl; [|done].
  intros Hrest Hcase. apply (IH _ Hrest).
  destruct (title_shape_found st) eqn:Hf.
  - left. destruct (has_content s) eqn:Hc.
    + rewrite process_shape_found in H1 by done.
      apply extract_content_keeps_found in H1. congruence.
    + pose proof (process_shape_probed _ _ _ _ H1) as Hp. rewrite Hc in Hp.
      rewrite process_shape_decorative in H1 by done.
      destruct (Str.truthy _); injection H1 as <-; done.
  - destruct Hcase as [?|(s' & Hs' & Hsk)]; [done|].
    apply elem_of_cons in Hs' as [->|Hs']; [|right; by exists s'].
    left. unfold skipped_as_title in Hsk. apply andb_true_iff in Hsk as [Hc Hm].
    rewrite process_shape_match in H1 by done. by injection H1 as <-.
Qed.

Lemma title_source_skipped (test : shape -> bool) (l : list shape) (t : string) :
  (forall s, test s = true -> stripped_text s <> "") ->
  first_stripped_text test l = Some t ->
  exists s, s ∈ l /\ skipped_as_title t s = true.
Proof.
  intros Hne (l1 & s & l2 & -> & _ & Hs & ->)%first_stripped_text_Some.
  exists s. split; [apply elem_of_app; right; by left|].
  specialize (Hne s Hs). unfold skipped_as_title, has_content, title_match, stripped_text in *.
  destruct (text s) as [tx|]; [|done].
  apply truthy_spec in Hne. rewrite Hne. simpl.
  unfold Str.eqb. by rewrite String.eqb_refl.
Qed.

(** X15: whenever a shape of the slide is a placeholder of type 14 or 15
    with text, or has a short single-line text, the title comes from a shape
    and the shape loop, when it returns, has left one shape out as the title
    shape. *)
Theorem title_shape_left_out (sl : slide) (st : slide_state) (s : shape) :
  for_each (process_shape E (get_slide_title E sl)) (shapes sl) (init_state false) = Ok st ->
  s ∈ shapes sl -> title_placeholder E s \/ fallback_candidate s ->
  title_shape_found st = true.
Proof.
  intros Hloop Hs Hk. apply (shape_loop_found _ _ _ _ Hloop). right.
  unfold get_slide_title.
  destruct (first_stripped_text (is_title_placeholder E) (shapes sl)) as [t|] eqn:H1.
  { eapply title_source_skipped; [|exact H1]. apply title_placeholder_nonempty. }
  destruct (first_stripped_text is_fallback_title (shapes sl)) as [t|] eqn:H2.
  { eapply title_source_skipped; [|exact H2]. apply fallback_title_nonempty. }
  apply first_stripped_text_None in H1, H2. rewrite Forall_forall in H1, H2.
  destruct Hk as [Hk|Hk].
  - apply is_title_placeholder_spec in Hk. rewrite (H1 s Hs) in Hk. done.
  - apply is_fallback_title_spec in Hk. rewrite (H2 s Hs) in Hk. done.
Qed.

(** *** Section headings *)

Lemma mark_header_unfold (p : para_info) (ps : list para_info) :
  mark_header (p :: ps) =
  if heading_candidate p then (Some (pi_text p), set_used_as_header true p :: ps)
  else ((mark_header ps).1, p :: (mark_header ps).2).
Proof. reflexivity. Qed.

Lemma filter_unused_id (ps : list para_info) :
  Forall (fun p => pi_used_as_header p = false) ps ->
  filter (fun p => pi_used_as_header p = false) ps = ps.
Proof.
  induction 1 as [|p ps Hp _ IH]; [done|].
  rewrite filter_cons, decide_True by done. by rewrite IH.
Qed.

(** X16: for paragraphs none of which is marked yet, the section heading
    is the text of the first paragraph that is no bullet and under 50
    characters, if there is one; the paragraphs left for the body are all the
    others, in order, and without such a paragraph the body is the whole
    list. *)
Theorem section_heading_and_body (ps : list para_info) :
  Forall (fun p => pi_used_as_header p = false) ps ->
  (mark_header ps).1 = pi_text <$> head (filter (fun p => heading_candidate p = true) ps) /\
  filter (fun p => pi_used_as_header p = false) (mark_header ps).2
  = remove_first heading_candidate ps /\
  length (mark_header ps).2 = length ps.
Proof.
  induction 1 as [|p ps Hp Hall (IH1 & IH2 & IH3)]; [done|].
  rewrite mark_header_unfold, (filter_cons (fun p => heading_candidate p = true)).
  cbn [remove_first length].
  destruct (heading_candidate p) eqn:Hc; cbn [fst snd length].
  - rewrite decide_True by done. split; [done|]. split; [|done].
    rewrite filter_cons, decide_False by done. by apply filter_unused_id.
  - rewrite decide_False by done. split; [done|]. split; [|by rewrite IH3].
    rewrite filter_cons, decide_True by done. by rewrite IH2.
Qed.

(** *** Slides without their decorative shapes *)

Lemma first_stripped_text_content (test : shape -> bool) (l : list shape) :
  (forall s, test s = true -> has_content s = true) ->
  first_stripped_text test (filter (fun s => has_content s = true) l)
  = first_stripped_text test l.
Proof.
  intros H. induction l as [|s l IH]; [done|]. rewrite filter_cons. simpl.
  destruct (decide (has_content s = true)) as [Hc|Hc]; simpl.
  - by rewrite IH.
  - destruct (test s) eqn:Ht; [|done]. destruct Hc. by apply H.
Qed.

Lemma stripped_text_content (s : shape) : stripped_text s <> "" -> has_content s = true.
Proof.
  unfold stripped_text, has_content. destruct (text s) as [tx|]; [|done].
  intros Hne%truthy_spec. by rewrite Hne.
Qed.

Lemma get_slide_title_content_shapes (sl : slide) :
  get_slide_title E (content_shapes sl) = get_slide_title E sl.
Proof.
  unfold get_slide_title, content_shapes. simpl.
  rewrite !first_stripped_text_content; [done|..]; intros s Hs; apply stripped_text_content.
  - by apply fallback_title_nonempty.
  - by apply title_placeholder_nonempty.
Qed.

Lemma extract_content_set_others (o : list string) (st : slide_state) (s : shape) :
  extract_content (set_others o st) s = exc_map (set_others o) (extract_content st s).
Proof.
  unfold extract_content. destruct (hasattr_table s) as [[|]|e]; simpl; [| |done].
  - by destruct (extract_table_data s) as [[|r td]|e].
  - by destruct (extract_paragraphs s) as [[|p ps]|e].
Qed.

Lemma process_shape_set_others (title : string) (o : list string) (st : slide_state)
    (s : shape) :
  has_content s = true ->
  process_shape E title (set_others o st) s = exc_map (set_others o) (process_shape E title st s).
Proof.
  intros Hc. unfold process_shape. rewrite (has_content_probe_true s Hc). simpl.
  destruct (_ && _ && _); [done|]. apply extract_content_set_others.
Qed.

Lemma table_recoverable_probe (s : shape) :
  table_recoverable s -> has_content_probe s = Ok (has_content s).
Proof.
  intros Ht. destruct (has_content_probe s) as [b|e] eqn:Hp.
  - by rewrite (has_content_probe_returns s b Hp).
  - unfold has_content_probe in Hp. destruct (has_stripped_text s); [done|].
    apply hasattr_table_raise in Hp as [Hr He]. specialize (Ht e Hr).
    unfold is_AttributeError in He. by rewrite Ht in He.
Qed.

Lemma shape_loop_probed (title : string) (l : list shape) (st st' : slide_state) :
  for_each (process_shape E title) l st = Ok st' ->
  Forall (fun s => has_content_probe s = Ok (has_content s)) l.
Proof.
  revert st. induction l as [|s l IH]; intros st; simpl; [by constructor|].
  destruct (process_shape E title st s) as [st1|e] eqn:H1; simpl; [|done].
  intros Hrest. constructor; [by eapply process_shape_probed|by eapply IH].
Qed.

Lemma shape_loop_content_shapes (title : string) (l : list shape) (st : slide_state) :
  Forall (fun s => has_content_probe s = Ok (has_content s)) l ->
  for_each (process_shape E title) (filter (fun s => has_content s = true) l)
    (set_others [] st)
  = exc_map (set_others []) (for_each (process_shape E title) l st).
Proof.
  intros Hall. revert st. induction Hall as [|s l Hp Hall IH]; intros st; [done|].
  rewrite filter_cons. destruct (decide (has_content s = true)) as [Hc|Hc]; simpl.
  - rewrite process_shape_set_others by done.
    destruct (process_shape E title st s) as [st1|e]; simpl; [apply IH|done].
  - apply not_true_is_false in Hc. rewrite Hc in Hp.
    rewrite process_shape_decorative by done. simpl.
    rewrite <- IH. by destruct (Str.truthy _).
Qed.

(** X17: shapes with neither text nor table add the "Visual Elements"
    block and nothing else.  A slide without them has the same title; when
    the shape loop of the whole slide returns, the slide without them renders
    as the whole slide does with the decorative list emptied; and when no
    table property on the slide raises anything but [AttributeError], the
    slide without them also raises what the whole slide raises.  (A shape
    whose table property raises, such as a chart, makes the whole slide
    raise, while the slide without it may render.) *)
Theorem decorative_shapes_only_add_visual_elements iter (sl : slide) (n : Z) :
  get_slide_title E (content_shapes sl) = get_slide_title E sl /\
  (forall st,
     for_each (process_shape E (get_slide_title E sl)) (shapes sl) (init_state false) = Ok st ->
     process_slide E iter sl n = Ok (render_slide iter n (get_slide_title E sl) st) /\
     process_slide E iter (content_shapes sl) n =
     Ok (render_slide iter n (get_slide_title E sl) (set_others [] st))) /\
  (Forall table_recoverable (shapes sl) ->
   process_slide E iter (content_shapes sl) n =
   exc_map (fun st => render_slide iter n (get_slide_title E sl) (set_others [] st))
     (for_each (process_shape E (get_slide_title E sl)) (shapes sl) (init_state false))).
Proof.
  split; [apply get_slide_title_content_shapes|].
  assert (Forall (fun s => has_content_probe s = Ok (has_content s)) (shapes sl) ->
          process_slide E iter (content_shapes sl) n =
          exc_map (fun st => render_slide iter n (get_slide_title E sl) (set_others [] st))
            (for_each (process_shape E (get_slide_title E sl)) (shapes sl)
               (init_state false))) as Heq.
  { intros Hall. unfold process_slide. rewrite get_slide_title_content_shapes.
    change (shapes (content_shapes sl))
      with (filter (fun s => has_content s = true) (shapes sl)).
    change (init_state false) with (set_others [] (init_state false)) at 1.
    rewrite shape_loop_content_shapes by done.
    by destruct (for_each _ (shapes sl) _). }
  split.
  - intros st Hloop. split.
    + unfold process_slide. by rewrite Hloop.
    + rewrite Heq by (by eapply shape_loop_probed). by rewrite Hloop.
  - intros Hall. apply Heq. eapply Forall_impl; [exact Hall|].
    intros s. apply table_recoverable_probe.
Qed.

(** *** Slide numbers *)

(** X18: when the slides of a presentation all render, there is one text
    for each slide, in order, and the slide at position [i], counted from 0,
    is rendered with the number [i + 1]. *)
Theorem slides_numbered_from_one (w : world) (prs : presentation) (mds : list string) :
  slides_markdown E w (slides prs) 0 = Ok mds ->
  length mds = length (slides prs) /\
  forall (i : nat) (sl : slide), slides prs !! i = Some sl ->
    exists md, mds !! i = Some md /\
               process_slide E (set_iter w) sl (Z.of_nat i + 1) = Ok md.
Proof.
  assert (forall sls idx mds,
            slides_markdown E w sls idx = Ok mds ->
            length mds = length sls /\
            forall (i : nat) (sl : slide), sls !! i = Some sl ->
              exists md, mds !! i = Some md /\
                process_slide E (set_iter w) sl (idx + Z.of_nat i + 1) = Ok md) as Hgen.
  { induction sls as [|sl0 sls IH]; intros idx mds0; simpl.
    - intros [= <-]. split; [done|]. intros i sl Hi. by rewrite lookup_nil in Hi.
    - destruct (process_slide E (set_iter w) sl0 (idx + 1)) as [md0|e] eqn:H0; simpl; [|done].
      destruct (slides_markdown E w sls (idx + 1)) as [more|e] eqn:Hm; simpl; [|done].
      intros [= <-]. destruct (IH _ _ Hm) as [Hlen Hnth]. split; [simpl; by rewrite Hlen|].
      intros [|i] sl Hi; simpl in Hi.
      + injection Hi as <-. exists md0. split; [done|].
        by replace (idx + Z.of_nat 0 + 1) with (idx + 1) by lia.
      + destruct (Hnth i sl Hi) as (md & Hmd & Hp). exists md. split; [done|].
        by replace (idx + Z.of_nat (S i) + 1) with (idx + 1 + Z.of_nat i + 1) by lia. }
  intros H. destruct (Hgen _ _ _ H) as [Hlen Hnth]. split; [done|].
  intros i sl Hi. destruct (Hnth i sl Hi) as (md & Hmd & Hp). exists md. split; [done|].
  by replace (Z.of_nat i + 1) with (0 + Z.of_nat i + 1) by lia.
Qed.

(** *** Discovery *)

Lemma collect_path_found (w : world) (acc : list path) (io : io_state) (p : path) :
  (collect_path w (acc, io) p).1 = acc ++ found_at w p /\
  stdout (collect_path w (acc, io) p).2 = stdout io /\
  files (collect_path w (acc, io) p).2 = files io.
Proof.
  unfold collect_path, found_at. destruct (negb (path_exists w p)).
  { by rewrite app_nil_r. }
  destruct (path_is_file w p).
  { destruct (Str.eqb _ _); by rewrite ?app_nil_r. }
  destruct (path_is_dir w p); by rewrite ?app_nil_r, ?app_assoc.
Qed.

Lemma collect_loop_found (w : world) (ps : list path) (acc : list path) (io : io_state) :
  (foldl (collect_path w) (acc, io) ps).1 = acc ++ flat_map (found_at w) ps /\
  stdout (foldl (collect_path w) (acc, io) ps).2 = stdout io /\
  files (foldl (collect_path w) (acc, io) ps).2 = files io.
Proof.
  revert acc io. induction ps as [|p ps IH]; intros acc io; simpl.
  { by rewrite app_nil_r. }
  destruct (collect_path_found w acc io p) as (H1 & H2 & H3).
  destruct (collect_path w (acc, io) p) as [acc1 io1]. simpl in *. subst acc1.
  destruct (IH (acc ++ found_at w p) io1) as (-> & -> & ->).
  by rewrite <- app_assoc, H2, H3.
Qed.

Lemma discovered_flat_map (w : world) (a : args) :
  discovered w a = flat_map (found_at w) (arg_paths a).
Proof. unfold discovered, collect. by destruct (collect_loop_found w (arg_paths a) [] (mk_io [] [] ∅)) as [-> _]. Qed.

(** X19: each path of the command line is handled on its own and in
    order: a file is discovered when some given path exists and either is
    that file, with the suffix .pptx in any letter case, or is no file but a
    directory whose [*.pptx] or [*.PPTX] listing holds it; the work list for
    two lists of paths is the work list of the first followed by that of the
    second. *)
Theorem discovered_files (w : world) (ps ps' : list path) (o : option string) :
  (forall f, f ∈ discovered w (mk_args ps o) <->
     exists p, p ∈ ps /\ path_exists w p = true /\
       ((path_is_file w p = true /\ lower (path_suffix p) = ".pptx" /\ f = p) \/
        (path_is_file w p = false /\ path_is_dir w p = true /\
         (f ∈ path_glob w p "*.pptx" \/ f ∈ path_glob w p "*.PPTX")))) /\
  discovered w (mk_args (ps ++ ps') o)
  = discovered w (mk_args ps o) ++ discovered w (mk_args ps' o).
Proof.
  rewrite !discovered_flat_map. simpl. split; [|apply flat_map_app].
  intros f. rewrite list_elem_of_In, in_flat_map. split.
  - intros (p & Hp & Hf). exists p. split; [by apply list_elem_of_In|].
    apply list_elem_of_In in Hf. unfold found_at in Hf.
    destruct (path_exists w p); simpl in Hf; [|by apply elem_of_nil in Hf].
    split; [done|]. destruct (path_is_file w p).
    + left. unfold Str.eqb in Hf. destruct (String.eqb _ _) eqn:Heq.
      * apply String.eqb_eq in Heq. apply list_elem_of_singleton in Hf. done.
      * by apply elem_of_nil in Hf.
    + right. destruct (path_is_dir w p); [|by apply elem_of_nil in Hf].
      by apply elem_of_app in Hf.
  - intros (p & Hp & Hex & Hcase). exists p. split; [by apply list_elem_of_In|].
    apply list_elem_of_In. unfold found_at. rewrite Hex. simpl.
    destruct Hcase as [(Hf & Hsuf & ->)|(Hf & Hd & Hg)]; rewrite Hf.
    + unfold Str.eqb. rewrite Hsuf. simpl. by left.
    + rewrite Hd. by apply elem_of_app.
Qed.

(** *** The files a run leaves behind *)

Lemma convert_all_outputs (w : world) (out : string) (l : list path) (c : Z)
    (io : io_state) :
  files (convert_all E w out l c io).2 =
  foldl (fun m kv => <[ kv.1 := kv.2 ]> m) (files io) (outputs E w out l).
Proof.
  revert c io. induction l as [|f l IH]; intros c io; simpl; [done|].
  rewrite IH, process_pptx_file_files. unfold outputs, output_of. simpl.
  destruct (convert E w f) as [md|e]; [|done].
  by destruct (open_error w out (md_filename f)).
Qed.

Lemma collect_keeps (w : world) (a : args) (io : io_state) :
  stdout (collect w a io).2 = stdout io /\ files (collect w a io).2 = files io.
Proof. unfold collect. by destruct (collect_loop_found w (arg_paths a) [] io) as (_ & -> & ->). Qed.

Lemma main_outputs (w : world) (a : args) (io : io_state) :
  files (main E w (Namespace a) io).2 =
  match prepare_output_dir w a with
  | Some _ => files io
  | None =>
      foldl (fun m kv => <[ kv.1 := kv.2 ]> m) (files io)
        (outputs E w (output_dir_of a (discovered w a)) (discovered w a))
  end.
Proof.
  destruct (collect_keeps w a io) as [_ Hf].
  destruct (decide (discovered w a = [])) as [Hnil|Hne].
  { rewrite main_no_files, Hnil by done. simpl. by destruct (prepare_output_dir w a). }
  destruct (prepare_output_dir w a) as [e|] eqn:Hmk.
  { by rewrite (main_mkdir_raises w a io e). }
  rewrite main_converts by done. cbv zeta. cbn [snd print_out files].
  rewrite convert_all_outputs. cbn [print_out files]. by rewrite Hf.
Qed.

Lemma outputs_key (w : world) (out : string) (l : list path) (kv : (string * string) * string) :
  kv ∈ outputs E w out l ->
  exists f, f ∈ l /\ converts E w out f /\ kv.1 = (out, md_filename f).
Proof.
  unfold outputs. intros (f & Hf & Ho)%list_elem_of_omap. exists f. split; [done|].
  unfold output_of, converts in *.
  destruct (convert E w f) as [md|e]; [|done].
  destruct (open_error w out (md_filename f)); [done|].
  injection Ho as <-. split; [by exists md|done].
Qed.

(** X20: a run touches no file but the outputs of the discovered files that
    convert: a file whose directory and name are not the output directory and
    the [.md] name of such a file is after the run what it was before. *)
Theorem main_touches_only_outputs (w : world) (a : args) (io : io_state)
    (dir fname : string) :
  (forall f, f ∈ discovered w a ->
     converts E w (output_dir_of a (discovered w a)) f ->
     (dir, fname) <> (output_dir_of a (discovered w a), md_filename f)) ->
  files (main E w (Namespace a) io).2 !! (dir, fname) = files io !! (dir, fname).
Proof.
  intros Hk. rewrite main_outputs. destruct (prepare_output_dir w a); [done|].
  rewrite (foldl_insert_lookup fst snd).
  destruct (last _) as [kv|] eqn:Hl; [|done].
  apply last_Some_elem_of, list_elem_of_filter in Hl as [Hkey Hin].
  apply outputs_key in Hin as (f & Hf & Hc & Hkv).
  destruct (Hk f Hf Hc). congruence.
Qed.

Lemma found_at_same (w1 w2 : world) (p : path) :
  same_file_system w1 w2 -> found_at w1 p = found_at w2 p.
Proof.
  intros (Hex & Hfile & Hdir & Hglob & _). unfold found_at.
  by rewrite Hex, Hfile, Hdir, !Hglob.
Qed.

Lemma discovered_same (w1 w2 : world) (a : args) :
  same_file_system w1 w2 -> discovered w1 a = discovered w2 a.
Proof.
  intros Hfs. rewrite !discovered_flat_map.
  induction (arg_paths a) as [|p ps IH]; simpl; [done|].
  by rewrite IH, (found_at_same w1 w2 p).
Qed.

Lemma outputs_same (w1 w2 : world) (out : string) (l : list path) :
  (forall f, f ∈ l -> convert E w1 f = convert E w2 f) ->
  (forall d n, open_error w1 d n = open_error w2 d n) ->
  outputs E w1 out l = outputs E w2 out l.
Proof.
  intros Hc Ho. unfold outputs. induction l as [|f l IH]; [done|].
  assert (output_of E w1 out f = output_of E w2 out f) as Hf.
  { unfold output_of. rewrite (Hc f) by (by left). by rewrite Ho. }
  assert (omap (output_of E w1 out) l = omap (output_of E w2 out) l) as Hl.
  { apply IH. intros g Hg. apply Hc. by right. }
  change (omap (output_of E w1 out) (f :: l))
    with (match output_of E w1 out f with
          | Some y => y :: omap (output_of E w1 out) l
          | None => omap (output_of E w1 out) l
          end).
  by rewrite Hf, Hl.
Qed.

(** X21: running the driver a second time, on the files the first run
    left, leaves the same files, provided the second run finds the file
    system, the parser and the failures of opening files and of making
    directories as the first did, and provided the two runs iterate in the
    same order over the set of the decorative-shape descriptions of every
    slide of every discovered presentation (or the slide has no two different
    descriptions): every output is then overwritten with the text it already
    holds. *)
Theorem main_twice_same_files (w1 w2 : world) (a : args) (io : io_state) :
  same_file_system w1 w2 ->
  valid_set_iter (set_iter w1) -> valid_set_iter (set_iter w2) ->
  (forall f prs, f ∈ discovered w1 a -> load_presentation w1 f = Ok prs ->
     Forall (fun sl => same_order_on w1 w2 (decorative_descriptions E sl) \/
                       uniform (decorative_descriptions E sl)) (slides prs)) ->
  files (main E w2 (Namespace a) (main E w1 (Namespace a) io).2).2 =
  files (main E w1 (Namespace a) io).2.
Proof.
  intros Hfs H1 H2 Hord.
  pose proof (discovered_same w1 w2 a Hfs) as Hd.
  destruct Hfs as (_ & _ & _ & _ & Hload & Hopen & Hmk).
  assert (prepare_output_dir w2 a = prepare_output_dir w1 a) as Hp.
  { unfold prepare_output_dir. destruct (arg_output a); [by rewrite Hmk|done]. }
  rewrite (main_outputs w2), Hp. destruct (prepare_output_dir w1 a) eqn:Hmk1; [done|].
  rewrite <- Hd.
  rewrite <- (outputs_same w1 w2); [|intros f Hf|done].
  - apply map_eq. intros k. rewrite (foldl_insert_lookup fst snd).
    destruct (last _) as [kv|] eqn:Hl; [|done].
    by rewrite main_outputs, Hmk1, (foldl_insert_lookup fst snd), Hl.
  - unfold convert. rewrite <- Hload.
    destruct (load_presentation w1 f) as [prs|e] eqn:Hlp; simpl; [|done].
    unfold document_markdown.
    by rewrite (slides_markdown_set_order w1 w2 (slides prs) 0 H1 H2 (Hord f prs Hf Hlp)).
Qed.

(** X22: when no file is discovered the driver converts nothing: its status
    is 1, it prints nothing on the output stream, writes no file, and the last
    line on the error stream says that no file was found. *)
Theorem main_without_input (w : world) (a : args) (io : io_state) :
  discovered w a = [] ->
  (main E w (Namespace a) io).1 = Returned 1 /\
  stdout (main E w (Namespace a) io).2 = stdout io /\
  files (main E w (Namespace a) io).2 = files io /\
  last (stderr (main E w (Namespace a) io).2) = Some "No PPTX files found to process.".
Proof.
  intros Hd. rewrite main_no_files by done.
  destruct (collect_keeps w a io) as [Hout Hf].
  simpl. split; [done|]. split; [done|]. split; [done|]. apply last_snoc.
Qed.

(** X23: when files are discovered and the output directory, if one is
    given, can be made, the last line on the output stream is the summary,
    which gives the number of discovered files that converted out of the
    number of discovered files.  When the directory cannot be made, the
    exception leaves [main]: nothing is printed on the output stream and no
    file is written. *)
Theorem main_summary_line (w : world) (a : args) (io : io_state) :
  discovered w a <> [] ->
  let found := discovered w a in
  let out := output_dir_of a found in
  let good := filter (fun f => conversion_error E w out f = None) found in
  let r := main E w (Namespace a) io in
  (prepare_output_dir w a = None ->
   last (stdout r.2) =
   Some (Str.nl +:+ "Completed: " +:+ Str.of_Z (Z.of_nat (length good)) +:+ "/"
         +:+ Str.of_Z (Z.of_nat (length found)) +:+ " files converted")) /\
  (forall e, prepare_output_dir w a = Some e ->
     r.1 = Raised e /\ stdout r.2 = stdout io /\ files r.2 = files io) /\
  (length good <= length found)%nat.
Proof.
  intros Hne found out good r. subst r good out found.
  split; [|split; [|apply length_filter]].
  - intros Hmk. rewrite main_converts by done. cbv zeta. cbn [snd print_out stdout].
    by rewrite last_snoc, convert_all_count.
  - intros e Hmk. rewrite (main_mkdir_raises w a io e) by done.
    destruct (collect_keeps w a io) as [Hout Hf]. by simpl.
Qed.

(** *** Where a conversion error comes from *)

Lemma slides_markdown_raise (w : world) (sls : list slide) (idx : Z) (e : exn) :
  slides_markdown E w sls idx = Raise e ->
  exists sl n, sl ∈ sls /\ process_slide E (set_iter w) sl n = Raise e.
Proof.
  revert idx. induction sls as [|sl sls IH]; intros idx; simpl; [done|].
  destruct (process_slide E (set_iter w) sl (idx + 1)) as [md|e'] eqn:H0; simpl.
  - destruct (slides_markdown E w sls (idx + 1)) as [more|e'] eqn:Hm; simpl; [done|].
    intros [= ->]. destruct (IH _ Hm) as (sl' & n & Hin & Hr).
    exists sl', n. split; [by right|done].
  - intros [= ->]. exists sl, (idx + 1). split; [by left|done].
Qed.

(** X24: the error reported for a file is raised by the parser, or, being
    no [AttributeError], by the table property of a shape of the parsed
    presentation or by the lookup of the properties of one of its non-blank
    paragraphs, or by opening the output file. *)
Theorem conversion_error_sources (w : world) (out : string) (f : path) (e : exn) :
  conversion_error E w out f = Some e ->
  load_presentation w f = Raise e \/
  (exists prs sl s,
     load_presentation w f = Ok prs /\ sl ∈ slides prs /\ s ∈ shapes sl /\
     is_AttributeError e = false /\
     (table_attr s = Raise e \/
      exists ps p, text_frame s = Some ps /\ p ∈ ps /\ is_retained p = true /\
                   par_pPr p = Raise e)) \/
  open_error w out (md_filename f) = Some e.
Proof.
  unfold conversion_error, convert.
  destruct (load_presentation w f) as [prs|e0]; simpl; [|intros [= ->]; by left].
  unfold document_markdown.
  destruct (slides_markdown E w (slides prs) 0) as [mds|e1] eqn:Hs; simpl.
  - intros Ho. by right; right.
  - intros [= ->]. right; left.
    apply slides_markdown_raise in Hs as (sl & n & Hsl & Hr).
    unfold process_slide in Hr.
    destruct (for_each _ (shapes sl) _) as [st|e'] eqn:Hl; simpl in Hr; [done|].
    injection Hr as ->. apply for_each_raise in Hl as (st' & s & Hin & Hr).
    apply process_shape_raise in Hr as [He Hr]. by exists prs, sl, s.
Qed.

(** *** Body lines *)

Lemma sanitize_truthy (t : string) : t <> "" -> Str.truthy (sanitize_markdown t) = true.
Proof.
  destruct t as [|a t]; [done|]. intros _. rewrite sanitize_cons.
  by destruct (Ascii.eqb a Str.backslash).
Qed.

(** X25: paragraphs with a non-empty text, as [extract_paragraphs] returns
    them, are never dropped by the rendering: each gives one line. *)
Theorem paragraph_lines_one_each (base : Z) (ps : list para_info) :
  Forall (fun p => pi_text p <> "") ps ->
  length (paragraph_lines base ps) = length ps.
Proof.
  induction 1 as [|p ps Hp _ IH]; [done|]. simpl.
  rewrite (sanitize_truthy _ Hp). simpl. by rewrite IH.
Qed.

(** *** Substrings and white space *)

Lemma prefix_spec (sub s : string) :
  String.prefix sub s = true <-> exists post, s = sub +:+ post.
Proof.
  revert s. induction sub as [|a sub IH]; intros s.
  - split; [intros _; by exists s|]. by destruct s.
  - destruct s as [|b s]; simpl.
    + split; [done|]. by intros [post H].
    + destruct (ascii_dec a b) as [->|Hne].
      * rewrite IH. split; intros [post H]; exists post.
        -- by rewrite append_cons, <- H.
        -- rewrite append_cons in H. by injection H.
      * split; [done|]. intros [post H]. rewrite append_cons in H. by injection H.
Qed.

Lemma contains_nil (sub : string) : Str.contains sub "" = String.prefix sub "" || false.
Proof. reflexivity. Qed.

Lemma contains_cons (sub : string) (b : ascii) (s : string) :
  Str.contains sub (String b s) = String.prefix sub (String b s) || Str.contains sub s.
Proof. reflexivity. Qed.

Lemma contains_spec (sub s : string) :
  Str.contains sub s = true <-> exists pre post, s = pre +:+ sub +:+ post.
Proof.
  induction s as [|b s IH].
  - rewrite contains_nil, orb_false_r, prefix_spec. split.
    + intros [post H]. by exists "", post.
    + intros (pre & post & H). destruct pre; [by exists post|done].
  - rewrite contains_cons, orb_true_iff, IH, prefix_spec. split.
    + intros [[post H]|(pre & post & H)].
      * by exists "", post.
      * exists (String b pre), post. by rewrite append_cons, <- H.
    + intros (pre & post & H). destruct pre as [|c pre].
      * left. by exists post.
      * right. rewrite append_cons in H. injection H as _ H. by exists pre, post.
Qed.

(** X26: a shape passes the title test exactly when it has a text and its
    trimmed text is the title itself, or is under 100 characters and a
    contiguous part of the title. *)
Theorem title_match_spec (title : string) (s : shape) :
  title_match title s = true <->
  exists tx, text s = Some tx /\
    (Str.strip tx = title \/
     ((String.length (Str.strip tx) < 100)%nat /\
      exists pre post, title = pre +:+ Str.strip tx +:+ post)).
Proof.
  unfold title_match. destruct (text s) as [tx|].
  - rewrite orb_true_iff, andb_true_iff. unfold Str.eqb.
    rewrite String.eqb_eq, (len_lt _ 100), contains_spec. split.
    + intros H. by exists tx.
    + by intros (tx' & [= <-] & H).
  - split; [done|]. by intros (tx & ? & _).
Qed.

Lemma lstrip_split (s : string) : exists ws, s = ws +:+ Str.lstrip s /\ all_space ws.
Proof.
  induction s as [|c s (ws & Hs & Hws)]; [by exists ""|]. simpl.
  destruct (Str.is_space c) eqn:Hc.
  - exists (String c ws). by rewrite append_cons, <- Hs.
  - by exists "".
Qed.

Lemma rstrip_split (s : string) : exists ws, s = Str.rstrip s +:+ ws /\ all_space ws.
Proof.
  induction s as [|c s (ws & Hs & Hws)]; [by exists ""|]. rewrite rstrip_cons.
  destruct (Str.rstrip s) as [|c' r].
  - rewrite append_nil_l in Hs. subst s. destruct (Str.is_space c) eqn:Hc.
    + by exists (String c ws).
    + exists ws. by rewrite append_cons.
  - exists ws. by rewrite append_cons, <- Hs.
Qed.

Lemma strip_split (s : string) :
  exists ws1 ws2, s = ws1 +:+ Str.strip s +:+ ws2 /\ all_space ws1 /\ all_space ws2.
Proof.
  destruct (lstrip_split s) as (ws1 & H1 & Hw1).
  destruct (rstrip_split (Str.lstrip s)) as (ws2 & H2 & Hw2).
  exists ws1, ws2. unfold Str.strip. by rewrite <- H2, <- H1.
Qed.

(** X27: the title is the default "Untitled", taken when no shape gives
    one, or the text of a shape of the slide with nothing but white space
    removed at its two ends. *)
Theorem title_is_shape_text_trimmed (sl : slide) :
  (get_slide_title E sl = "Untitled" /\
   Forall (fun s => ~ title_placeholder E s /\ ~ fallback_candidate s) (shapes sl)) \/
  (exists s tx ws1 ws2,
     s ∈ shapes sl /\ text s = Some tx /\
     tx = ws1 +:+ get_slide_title E sl +:+ ws2 /\ all_space ws1 /\ all_space ws2).
Proof.
  assert (forall test t, (forall s, test s = true -> stripped_text s <> "") ->
            first_stripped_text test (shapes sl) = Some t ->
            exists s tx ws1 ws2, s ∈ shapes sl /\ text s = Some tx /\
              tx = ws1 +:+ t +:+ ws2 /\ all_space ws1 /\ all_space ws2) as Hsrc.
  { intros test t Hne (l1 & s & l2 & Hl & _ & Hs & ->)%first_stripped_text_Some.
    specialize (Hne s Hs). unfold stripped_text in *.
    destruct (text s) as [tx|] eqn:Htx; [|done].
    destruct (strip_split tx) as (ws1 & ws2 & Hsplit & Hw1 & Hw2).
    exists s, tx, ws1, ws2. split; [|done].
    rewrite Hl. apply elem_of_app. right. by left. }
  unfold get_slide_title.
  destruct (first_stripped_text (is_title_placeholder E) (shapes sl)) as [t|] eqn:H1.
  { right. eapply Hsrc; [|exact H1]. apply title_placeholder_nonempty. }
  destruct (first_stripped_text is_fallback_title (shapes sl)) as [t|] eqn:H2.
  { right. eapply Hsrc; [|exact H2]. apply fallback_title_nonempty. }
  left. split; [done|].
  apply first_stripped_text_None in H1, H2.
  apply (Forall_not_test _ _ _ is_title_placeholder_spec) in H1.
  apply (Forall_not_test _ _ _ is_fallback_title_spec) in H2.
  rewrite Forall_forall in *. intros s Hs. split; [by apply H1|by apply H2].
Qed.

End Properties.

(** ** The properties on the sample inputs *)

Section Samples.

Import Sample.

Lemma forwards_valid : valid_set_iter forwards.
Proof. intros X. reflexivity. Qed.

Lemma backwards_valid : valid_set_iter backwards.
Proof. intros X. apply reverse_Permutation. Qed.

Lemma backwards_but_gallery_valid : valid_set_iter backwards_but_gallery.
Proof.
  intros X. unfold backwards_but_gallery.
  destruct (decide _); [reflexivity|apply reverse_Permutation].
Qed.

(** C1 (as the code behaves): the script tests the placeholder type against
    14 and 15, the header and the footer of the library's enumeration, where
    the title is 1.  On a slide with a title placeholder and a footer
    placeholder the footer text is returned as the title, and a title
    placeholder whose text is too long for the fallback rule leaves the slide
    "Untitled"; the specification resolves the text of the title
    placeholder on both. *)
Theorem title_placeholder_not_recognised :
  get_slide_title enum
    (mk_slide [placeholder PP_TITLE "Q1 Results"; placeholder PP_FOOTER "Confidential"])
  = "Confidential" /\
  claimed_slide_title enum
    (mk_slide [placeholder PP_TITLE "Q1 Results"; placeholder PP_FOOTER "Confidential"])
  = "Q1 Results" /\
  get_slide_title enum (mk_slide [placeholder PP_TITLE long_title]) = "Untitled" /\
  claimed_slide_title enum (mk_slide [placeholder PP_TITLE long_title]) = long_title.
Proof. repeat split; vm_compute; reflexivity. Qed.

(** C2, refuted: the title placeholder of a slide is skipped although its text has 100
    characters, so the skip rule of the specification does not hold. *)
Lemma title_skip_claim_counterexample : ~ title_skip_claim enum.
Proof.
  intros H. specialize (H forwards (mk_slide [placeholder 15 long_title]) 1).
  vm_compute in H. discriminate H.
Qed.

(** A shape with an empty text comes before the title placeholder: it is
    listed as a visual element, and the placeholder is the shape skipped. *)
Example empty_text_shape_not_taken_for_title :
  process_slide enum forwards
    (mk_slide [mk_shape (Some 1) None (Some "") (Some []) (Ok None) (Some "Rect");
               placeholder 15 "T"]) 1
  = Ok (Str.join Str.nl
          [Str.nl +:+ "# Slide 1 - T" +:+ Str.nl;
           Str.nl +:+ "## Visual Elements" +:+ Str.nl; "- Shape (Rect)"; ""]).
Proof. vm_compute. reflexivity. Qed.

(** C2 (amended), on the sample slide and its title placeholder. *)
Lemma title_skip_first_match_only_witness :
  process_slide enum forwards (deck_slide bare_paragraph) 1 =
  process_slide_skipping enum skipped_as_title forwards (deck_slide bare_paragraph) 1 /\
  process_shape enum "Q1 Results" (init_state true) (placeholder 15 "Q1 Results") =
  extract_content (init_state true) (placeholder 15 "Q1 Results").
Proof.
  split.
  - apply (title_skip_first_match_only enum forwards (deck_slide bare_paragraph) 1).
  - apply (title_skip_first_match_only enum forwards (deck_slide bare_paragraph) 1);
      reflexivity.
Defined.

(** C3 (as the code behaves): a table whose only row has no cells yields a
    grid that is not empty, so the slide gets a "Data Table" heading
    followed by the empty text of the table. *)
Theorem empty_first_row_table_emits_heading iter :
  extract_table_data (table_frame [[]]) = Ok [[]] /\
  table_to_markdown [[]] = "" /\
  process_slide enum iter (mk_slide [table_frame [[]]]) 1 =
  Ok (Str.join Str.nl
        [Str.nl +:+ "# Slide 1 - Untitled" +:+ Str.nl;
         Str.nl +:+ "## Data Table" +:+ Str.nl; ""; ""]).
Proof. repeat split. Qed.

(** A table without rows leaves no trace on the slide. *)
Example table_without_rows_omitted iter :
  process_slide enum iter (mk_slide [table_frame []]) 1 =
  Ok (Str.nl +:+ "# Slide 1 - Untitled" +:+ Str.nl).
Proof. reflexivity. Qed.

(** C4 (as the code behaves): the document title, the slide title and the
    descriptions of decorative shapes reach the markdown with their
    backslashes as they are, while [sanitize_markdown] would double them. *)
Theorem titles_and_descriptions_not_sanitized :
  sanitize_markdown "a\b" = "a\\b" /\
  document_markdown enum (world_with forwards)
    (mk_path "decks/a\b.pptx" "decks" "a\b" ".pptx")
    (mk_presentation [mk_slide [placeholder 15 "a\b"; picture "a\b"]])
  = Ok (Str.join Str.nl
          [ "# a\b" +:+ Str.nl;
            "*Converted from a\b.pptx*" +:+ Str.nl;
            "---" +:+ Str.nl;
            Str.join Str.nl
              [ Str.nl +:+ "# Slide 1 - a\b" +:+ Str.nl;
                Str.nl +:+ "## Visual Elements" +:+ Str.nl;
                "- Image (a\b)"; "" ] ]).
Proof. split; vm_compute; reflexivity. Qed.

(** Section headings, paragraphs and table cells are escaped. *)
Example body_text_sanitized :
  process_slide enum forwards
    (mk_slide [text_box [mk_paragraph "a\b" 0 (Ok None) [];
                         mk_paragraph "c\d" 0 (Ok None) []];
               table_frame [["e\f|g"]]]) 1
  = Ok (Str.join Str.nl
          [ Str.nl +:+ "# Slide 1 - Untitled" +:+ Str.nl;
            Str.nl +:+ "## a\\b"; "### c\\d"; "";
            Str.nl +:+ "## Data Table" +:+ Str.nl;
            Str.join Str.nl ["| e\\f\|g |"; "|---|"]; "" ]).
Proof. vm_compute. reflexivity. Qed.

(** C5, refuted: a plain paragraph of 79 characters with a backslash among them renders
    as a plain line, so the paragraph rule of the specification does not
    hold. *)
Lemma paragraph_rule_claim_counterexample : ~ paragraph_rule_claim.
Proof.
  intros H. specialize (H 3 [backslash_paragraph]).
  vm_compute in H. discriminate H.
Qed.

(** C6, on a batch of a file the parser rejects and a file that converts. *)
Lemma main_exit_status_witness :
  let r := main enum (world_with forwards) (Namespace batch) empty_io in
  (exit_status r.1 = 0 \/ exit_status r.1 = 1) /\
  "  -> Error: Package not found" ∈ stderr r.2 /\
  exists md, convert enum (world_with forwards) q1_file = Ok md /\
             files r.2 !! ("decks", "q1.md") = Some md.
Proof.
  destruct (main_exit_status enum (world_with forwards) batch empty_io)
    as (H1 & _ & H3 & H4).
  split; [exact H1|]. split.
  - apply (H3 [] broken_file [q1_file]
             (mk_exn (OtherException "PackageNotFoundError") "Package not found"));
      reflexivity.
  - eexists. split; [vm_compute; reflexivity|].
    apply (H4 [broken_file] q1_file []); [reflexivity..|constructor].
Defined.

(** The batch with an output directory that cannot be made: the exception
    leaves [main] before anything is converted, and the process ends with
    status 1. *)
Example output_directory_failure :
  let r := main enum blocked_world (Namespace (mk_args [q1_file] (Some "report.md")))
             empty_io in
  r.1 = Raised (mk_exn (OtherException "FileExistsError") "File exists: 'report.md'") /\
  exit_status r.1 = 1 /\ stdout r.2 = [] /\ files r.2 = ∅.
Proof. vm_compute. repeat split. Qed.

(** A command line that argparse refuses ends the process with the status of
    argparse. *)
Example usage_error_status :
  exit_status (main enum empty_world (SystemExit 2 [] ["usage"]) empty_io).1 = 2.
Proof. reflexivity. Qed.

(** X29, on a text box with a bullet, a blank paragraph whose lookup would
    raise, and a paragraph whose properties cannot be looked up. *)
Lemma extract_paragraphs_bullet_flags_witness :
  exists infos,
    extract_paragraphs (text_box [bullet_paragraph; blank_paragraph; bare_paragraph])
    = Ok infos /\
    Forall2 bullet_flag_ok
      (filter (fun p => is_retained p = true)
         [bullet_paragraph; blank_paragraph; bare_paragraph]) infos.
Proof.
  apply (extract_paragraphs_bullet_flags
           (text_box [bullet_paragraph; blank_paragraph; bare_paragraph])
           [bullet_paragraph; blank_paragraph; bare_paragraph]); [reflexivity|].
  repeat constructor.
  - intros _ e H. discriminate H.
  - intros H. discriminate H.
  - intros _ e H. injection H as <-. reflexivity.
Defined.

(** C7 (as the code behaves): a paragraph whose properties element holds a
    bullet character, as the library builds that element, is recorded as no
    bullet: [getattr] finds none of the three names on the element and yields
    the default.  The first half of the claim holds: a paragraph whose
    properties cannot be looked up is recorded, as no bullet, and nothing is
    raised. *)
Theorem declared_bullet_not_flagged :
  metadata_declares_bullet library_bullet_paragraph /\
  extract_paragraphs (text_box [library_bullet_paragraph]) =
  Ok [mk_para_info "Revenue up" 0 false None false] /\
  lookup_fails bare_paragraph /\
  extract_paragraphs (text_box [bare_paragraph]) =
  Ok [mk_para_info "Costs flat" 0 false None false].
Proof.
  split; [|split; [reflexivity|split; [|reflexivity]]].
  - eexists. split; [reflexivity|]. left. discriminate.
  - eexists. split; reflexivity.
Qed.

(** C8, refuted: two runs that iterate over the set of descriptions in opposite orders
    write different texts for a slide with two different pictures. *)
Lemma deterministic_claim_counterexample : ~ deterministic_claim enum.
Proof.
  intros H.
  specialize (H (world_with forwards) (world_with backwards) q1_file gallery
                forwards_valid backwards_valid).
  vm_compute in H. discriminate H.
Qed.

(** C8 (amended), on a deck with one picture and two opposite orders, and
    on the slide with two pictures and two orders that agree on the set of
    its descriptions and on no other set of two strings or more. *)
Lemma conversion_deterministic_given_set_order_witness :
  document_markdown enum (world_with forwards) q1_file (deck bare_paragraph) =
  document_markdown enum (world_with backwards) q1_file (deck bare_paragraph) /\
  document_markdown enum (world_with forwards) q1_file gallery =
  document_markdown enum (world_with backwards_but_gallery) q1_file gallery.
Proof.
  split.
  - apply (conversion_deterministic_given_set_order enum
             (world_with forwards) (world_with backwards) q1_file (deck bare_paragraph)
             forwards_valid backwards_valid).
    constructor; [|constructor]. right. intros x y Hx Hy.
    apply list_elem_of_singleton in Hx, Hy. congruence.
  - apply (conversion_deterministic_given_set_order enum
             (world_with forwards) (world_with backwards_but_gallery) q1_file gallery
             forwards_valid backwards_but_gallery_valid).
    constructor; [|constructor]. left. vm_compute. reflexivity.
Defined.

(** C9, on a slide with one picture. *)
Lemma shapes_feed_one_queue_each_witness :
  exists cs : list contribution,
    Forall2 feeds_one_queue [picture "Logo"] cs /\
    [] = [] ++ concat (map (fun c => c.1.1) cs) /\
    [] = [] ++ concat (map (fun c => c.1.2) cs) /\
    ["Image (Logo)"] = [] ++ concat (map (fun c => c.2) cs).
Proof.
  apply (shapes_feed_one_queue_each enum "T" [picture "Logo"] (init_state false)
           (mk_state false [] [] ["Image (Logo)"])).
  reflexivity.
Defined.

(** C10, on two decks that differ in the font size of one run. *)
Lemma font_size_never_rendered_witness :
  document_markdown enum (world_with forwards) q1_file (deck bare_paragraph) =
  document_markdown enum (world_with forwards) q1_file (deck sized_paragraph).
Proof.
  apply (font_size_never_rendered enum (world_with forwards) q1_file
           (deck bare_paragraph) (deck sized_paragraph)).
  reflexivity.
Defined.

(** *** Further properties on the sample inputs *)

(** X2, on a slide whose only shape is a text box. *)
Lemma fallback_title_short_single_line_witness :
  (String.length (get_slide_title enum (mk_slide [text_box [bare_paragraph]])) < 100)%nat /\
  Str.has_char Str.LF (get_slide_title enum (mk_slide [text_box [bare_paragraph]])) = false.
Proof.
  apply (fallback_title_short_single_line enum (mk_slide [text_box [bare_paragraph]])).
  repeat constructor. intros [H _]. discriminate H.
Defined.

(** X3, on a table with padded cells. *)
Lemma extract_table_data_trimmed_witness :
  exists grid, extract_table_data (table_frame [[" A "; "B"]; [" "]]) = Ok grid /\
    Forall2 (fun row cells => length cells = length row /\ Forall is_trimmed cells)
      [[" A "; "B"]; [" "]] grid /\
    map (map Str.strip) grid = grid.
Proof.
  apply (extract_table_data_trimmed (table_frame [[" A "; "B"]; [" "]])).
  reflexivity.
Defined.

(** X4, on a text box whose second paragraph fails to load its properties. *)
Lemma extract_paragraphs_propagates_witness :
  extract_paragraphs (text_box [bullet_paragraph; broken_paragraph])
  = Raise (mk_exn (OtherException "ValueError") "bad xml").
Proof.
  apply (extract_paragraphs_propagates
           (text_box [bullet_paragraph; broken_paragraph])
           [bullet_paragraph] [] broken_paragraph); try reflexivity.
  repeat constructor. intros e H. discriminate H.
Defined.

(** X5, on a text box with a blank paragraph between two others. *)
Lemma blank_paragraph_passed_over_witness :
  extract_paragraphs (text_box [bullet_paragraph; blank_paragraph; bare_paragraph])
  = extract_paragraphs (text_box [bullet_paragraph; bare_paragraph]).
Proof.
  apply (blank_paragraph_passed_over
           (text_box [bullet_paragraph; blank_paragraph; bare_paragraph])
           (text_box [bullet_paragraph; bare_paragraph])
           [bullet_paragraph] [bare_paragraph] blank_paragraph); reflexivity.
Defined.

(** X6, on a text box with a bullet and a paragraph with a font size. *)
Lemma extract_paragraphs_records_witness :
  Forall2 record_of
    (filter (fun p => is_retained p = true) [bullet_paragraph; sized_paragraph])
    [mk_para_info "Revenue up" 0 true None false;
     mk_para_info "Costs flat" 0 false (Some (pt 228600)) false].
Proof.
  apply (extract_paragraphs_records (text_box [bullet_paragraph; sized_paragraph])
           [bullet_paragraph; sized_paragraph]); reflexivity.
Defined.

(** Font sizes in points are binary floats: 228600 EMU are 18 points, and
    127127 EMU are the float nearest to 10.01. *)
Example pt_samples :
  pt 228600 = 18%float /\ pt 127127 = 0x1.4051eb851eb85p+3%float.
Proof. split; vm_compute; reflexivity. Qed.

(** X7, on a text without backslash. *)
Lemma sanitize_markdown_reversible_witness : sanitize_markdown "a|b" = "a|b".
Proof. apply (sanitize_markdown_reversible "a|b"). reflexivity. Defined.

(** X8, on a row whose cells hold a pipe and a backslash. *)
Lemma row_markdown_separators_witness :
  bare_pipes false (row_markdown ["C|D"; "E\"; ""]) = 4%nat /\
  ends_escaped false (row_markdown ["C|D"; "E\"; ""]) = false.
Proof. apply (row_markdown_separators ["C|D"; "E\"; ""]). discriminate. Defined.

(** X10, on a grid of two rows. *)
Lemma table_to_markdown_line_breaks_witness :
  count_char Str.LF (table_to_markdown [["A"; "B"]; ["C|D"; "E"]]) =
  (length [["A"; "B"]; ["C|D"; "E"]]
   + sum_list_with (sum_list_with (count_char Str.LF)) [["A"; "B"]; ["C|D"; "E"]])%nat.
Proof. apply (table_to_markdown_line_breaks ["A"; "B"] [["C|D"; "E"]]). discriminate. Defined.

(** X12, on the slide with two pictures. *)
Lemma decorative_shapes_all_recorded_witness :
  other_shapes (mk_state false [] [] ["Image (Logo)"; "Image (Photo)"])
  = decorative_descriptions enum (mk_slide [picture "Logo"; picture "Photo"]).
Proof.
  apply (decorative_shapes_all_recorded enum (mk_slide [picture "Logo"; picture "Photo"])
           (mk_state false [] [] ["Image (Logo)"; "Image (Photo)"])).
  reflexivity.
Defined.

(** X13, on a description that two shapes share. *)
Lemma visual_elements_deduplicated_witness :
  (["Image (Logo)"; "Image (Logo)"] = [] /\
   other_lines forwards ["Image (Logo)"; "Image (Logo)"] = []) \/
  (exists L, other_lines forwards ["Image (Logo)"; "Image (Logo)"] =
             [Str.nl +:+ "## Visual Elements" +:+ Str.nl]
             ++ map (fun desc => "- " +:+ desc) L ++ [""] /\
             NoDup L /\ forall d, d ∈ L <-> d ∈ ["Image (Logo)"; "Image (Logo)"]).
Proof.
  apply (visual_elements_deduplicated forwards ["Image (Logo)"; "Image (Logo)"]).
  intros X. reflexivity.
Defined.

(** X14, on the sample slide. *)
Lemma process_slide_raises_only_lookup_errors_witness :
  exists md, process_slide enum forwards (deck_slide bare_paragraph) 1 = Ok md.
Proof.
  apply (process_slide_raises_only_lookup_errors enum forwards (deck_slide bare_paragraph) 1).
  - repeat constructor; intros ps H; try discriminate H; injection H as <-;
      repeat constructor; intros _ e He; try discriminate He; injection He as <-;
      reflexivity.
  - repeat constructor; intros e He; discriminate He.
Defined.

(** A chart makes the slide raise what its table property raises; without
    the chart the slide renders. *)
Example chart_makes_slide_raise :
  process_slide enum forwards (mk_slide [chart_frame; picture "Logo"]) 1 =
  Raise (mk_exn (OtherException "ValueError") "shape does not contain a table") /\
  process_slide enum forwards (mk_slide [picture "Logo"]) 1 =
  Ok (Str.join Str.nl
        [Str.nl +:+ "# Slide 1 - Untitled" +:+ Str.nl;
         Str.nl +:+ "## Visual Elements" +:+ Str.nl; "- Image (Logo)"; ""]).
Proof. split; vm_compute; reflexivity. Qed.

(** X15, on a slide that holds its title placeholder only. *)
Lemma title_shape_left_out_witness :
  title_shape_found (mk_state true [] [] []) = true.
Proof.
  apply (title_shape_left_out enum (mk_slide [placeholder 15 "T"])
           (mk_state true [] [] []) (placeholder 15 "T")).
  - reflexivity.
  - constructor.
  - left. split; [reflexivity|]. exists 15, "T". repeat split; try discriminate. by left.
Defined.

(** X16, on a bullet followed by two short paragraphs. *)
Lemma section_heading_and_body_witness :
  let ps := [mk_para_info "First" 0 true None false;
             mk_para_info "Head" 0 false None false;
             mk_para_info "Tail" 0 false None false] in
  (mark_header ps).1 = pi_text <$> head (filter (fun p => heading_candidate p = true) ps) /\
  filter (fun p => pi_used_as_header p = false) (mark_header ps).2
  = remove_first heading_candidate ps /\
  length (mark_header ps).2 = length ps.
Proof.
  intros ps. apply (section_heading_and_body ps). repeat constructor.
Defined.

(** X18, on the deck with one slide. *)
Lemma slides_numbered_from_one_witness :
  exists mds,
    slides_markdown enum (world_with forwards) (slides gallery) 0 = Ok mds /\
    length mds = length (slides gallery) /\
    forall (i : nat) (sl : slide), slides gallery !! i = Some sl ->
      exists md, mds !! i = Some md /\
                 process_slide enum forwards sl (Z.of_nat i + 1) = Ok md.
Proof.
  eexists. split; [vm_compute; reflexivity|].
  apply (slides_numbered_from_one enum (world_with forwards) gallery).
  vm_compute. reflexivity.
Defined.

(** X17, on the sample slide, whose picture is its only decorative shape. *)
Lemma decorative_shapes_only_add_visual_elements_witness :
  process_slide enum forwards (content_shapes (deck_slide bare_paragraph)) 1 =
  exc_map (fun st => render_slide forwards 1 (get_slide_title enum (deck_slide bare_paragraph))
                       (set_others [] st))
    (for_each (process_shape enum (get_slide_title enum (deck_slide bare_paragraph)))
       (shapes (deck_slide bare_paragraph)) (init_state false)).
Proof.
  apply (decorative_shapes_only_add_visual_elements enum forwards
           (deck_slide bare_paragraph) 1).
  repeat constructor; intros e He; discriminate He.
Defined.

(** X20, on the sample batch and a file that is no output of it. *)
Lemma main_touches_only_outputs_witness :
  files (main enum (world_with forwards) (Namespace batch) empty_io).2
    !! ("decks", "notes.md")
  = files empty_io !! ("decks", "notes.md").
Proof.
  apply (main_touches_only_outputs enum (world_with forwards) batch empty_io
           "decks" "notes.md").
  intros f Hf _.
  change (discovered (world_with forwards) batch) with [broken_file; q1_file] in Hf.
  apply elem_of_cons in Hf as [->|Hf]; [discriminate|].
  apply list_elem_of_singleton in Hf as ->. discriminate.
Defined.

(** X21, on the sample batch, run first forwards and then backwards. *)
Lemma main_twice_same_files_witness :
  files (main enum (world_with backwards) (Namespace batch)
           (main enum (world_with forwards) (Namespace batch) empty_io).2).2 =
  files (main enum (world_with forwards) (Namespace batch) empty_io).2.
Proof.
  apply (main_twice_same_files enum (world_with forwards) (world_with backwards)
           batch empty_io).
  - repeat split.
  - exact forwards_valid.
  - exact backwards_valid.
  - intros f prs Hf.
    change (discovered (world_with forwards) batch) with [broken_file; q1_file] in Hf.
    apply elem_of_cons in Hf as [->|Hf]; [discriminate|].
    apply list_elem_of_singleton in Hf as ->. intros [= <-].
    constructor; [|constructor]. right. intros x y Hx Hy.
    apply list_elem_of_singleton in Hx, Hy. congruence.
Defined.

(** Without the agreement on the set order the second run rewrites the
    output with another text. *)
Example second_run_other_order :
  files (main enum (mk_world (fun _ => true) (fun _ => true) (fun _ => false)
                      (fun _ _ => []) (fun _ => Ok gallery) (fun _ _ => None)
                      (fun _ => None) backwards)
           (Namespace (mk_args [q1_file] None))
           (main enum (mk_world (fun _ => true) (fun _ => true) (fun _ => false)
                         (fun _ _ => []) (fun _ => Ok gallery) (fun _ _ => None)
                         (fun _ => None) forwards)
              (Namespace (mk_args [q1_file] None)) empty_io).2).2 !! ("decks", "q1.md")
  <> files (main enum (mk_world (fun _ => true) (fun _ => true) (fun _ => false)
                         (fun _ _ => []) (fun _ => Ok gallery) (fun _ _ => None)
                         (fun _ => None) forwards)
              (Namespace (mk_args [q1_file] None)) empty_io).2 !! ("decks", "q1.md").
Proof. vm_compute. discriminate. Qed.

(** X22, on a path that does not exist. *)
Lemma main_without_input_witness :
  (main enum empty_world (Namespace batch) empty_io).1 = Returned 1 /\
  stdout (main enum empty_world (Namespace batch) empty_io).2 = stdout empty_io /\
  files (main enum empty_world (Namespace batch) empty_io).2 = files empty_io /\
  last (stderr (main enum empty_world (Namespace batch) empty_io).2)
  = Some "No PPTX files found to process.".
Proof. apply (main_without_input enum empty_world batch empty_io). reflexivity. Defined.

(** X23, on the sample batch: one file of two converts. *)
Lemma main_summary_line_witness :
  last (stdout (main enum (world_with forwards) (Namespace batch) empty_io).2)
  = Some (Str.nl +:+ "Completed: 1/2 files converted").
Proof.
  destruct (main_summary_line enum (world_with forwards) batch empty_io) as (H & _ & _).
  - discriminate.
  - apply H. reflexivity.
Defined.

(** X24, on the file the parser rejects. *)
Lemma conversion_error_sources_witness :
  let e := mk_exn (OtherException "PackageNotFoundError") "Package not found" in
  load_presentation (world_with forwards) broken_file = Raise e \/
  (exists prs sl s,
     load_presentation (world_with forwards) broken_file = Ok prs /\
     sl ∈ slides prs /\ s ∈ shapes sl /\ is_AttributeError e = false /\
     (table_attr s = Raise e \/
      exists ps p, text_frame s = Some ps /\ p ∈ ps /\ is_retained p = true /\
                   par_pPr p = Raise e)) \/
  open_error (world_with forwards) "decks" (md_filename broken_file) = Some e.
Proof.
  intros e. apply (conversion_error_sources enum (world_with forwards) "decks" broken_file e).
  reflexivity.
Defined.

(** X25, on two paragraphs with text. *)
Lemma paragraph_lines_one_each_witness :
  length (paragraph_lines 3 [mk_para_info "\" 0 false None false;
                             mk_para_info "b" 1 true None false]) = 2%nat.
Proof.
  apply (paragraph_lines_one_each 3
           [mk_para_info "\" 0 false None false; mk_para_info "b" 1 true None false]).
  repeat constructor; discriminate.
Defined.

End Samples.
